(** * calm-dsl: the declarative entity compiler

    A shallow embedding of the payload builders of calm-dsl
    ([calm/dsl/builtins/models/project.py],
    [calm/dsl/builtins/models/provider_spec.py] and
    [calm/dsl/cli/accounts.py]) together with the properties of the
    compiled payloads.

    Python values are embedded as a JSON-like tree; a [dict] is an
    insertion-ordered association list whose keys are strings.  Exceptions
    are embedded as the [Err] case of [result]; [uuid.uuid4()] draws from an
    explicit supply threaded through the builders. *)

From Stdlib Require Import String Ascii List ZArith Lia Bool Arith.
From Stdlib Require Import DecimalString DecimalNat.
Import ListNotations.
Open Scope string_scope.
Open Scope list_scope.

(** ** Python values *)

#[local] Set Warnings "-register-all".

Inductive value : Type :=
| VNone
| VBool (b : bool)
| VInt (z : Z)
| VStr (s : string)
| VList (l : list value)
| VDict (d : list (string * value)).

Definition dict : Type := list (string * value).

(** Exceptions.  [TypeError] is the one the sources raise themselves, with
    its message; [BuiltinTypeError] stands for the interpreter's own
    [TypeError]s. *)
Inductive builtin_type_error : Type :=
| NotSubscriptable
| BadIndex
| NotIterable
| Unhashable
| NoItemAssignment
| BadOperand.

Inductive exn : Type :=
| KeyError (key : value)
| AttributeError (attr : string)
| BuiltinTypeError (why : builtin_type_error)
| TypeError (msg : string).

Inductive result (A : Type) : Type :=
| Ok (a : A)
| Err (e : exn).
Arguments Ok {A} a.
Arguments Err {A} e.

Definition bind {A B : Type} (r : result A) (k : A -> result B) : result B :=
  match r with
  | Ok a => k a
  | Err e => Err e
  end.

Declare Scope result_scope.
Delimit Scope result_scope with result.
Notation "x <- e ;; k" := (bind e (fun x => k))
  (at level 61, e at next level, right associativity) : result_scope.
Open Scope result_scope.

(** A [for] loop whose body threads the mutated state and may raise. *)
Fixpoint for_each {S A : Type} (body : S -> A -> result S) (l : list A) (s : S)
  : result S :=
  match l with
  | [] => Ok s
  | x :: l' => s' <- body s x ;; for_each body l' s'
  end.

(** ** Dictionaries *)

Fixpoint dict_get (d : dict) (k : string) : option value :=
  match d with
  | [] => None
  | (k', v) :: d' => if String.eqb k' k then Some v else dict_get d' k
  end.

(** [k in d] *)
Definition dict_contains (d : dict) (k : string) : bool :=
  match dict_get d k with
  | Some _ => true
  | None => false
  end.

(** [d[k] = v]: an existing key keeps its position, a new one goes last. *)
Fixpoint dict_set (d : dict) (k : string) (v : value) : dict :=
  match d with
  | [] => [(k, v)]
  | (k', v') :: d' =>
      if String.eqb k' k then (k, v) :: d' else (k', v') :: dict_set d' k v
  end.

Definition dict_del (d : dict) (k : string) : dict :=
  filter (fun kv => negb (String.eqb (fst kv) k)) d.

(** [d.pop(k, default)] *)
Definition dict_pop (d : dict) (k : string) (default : value) : value * dict :=
  (match dict_get d k with Some v => v | None => default end, dict_del d k).

(** [d.get(k, default)] *)
Definition dict_get_default (d : dict) (k : string) (default : value) : value :=
  match dict_get d k with
  | Some v => v
  | None => default
  end.

(** Lookup in a table of strings. *)
Fixpoint assoc (m : list (string * string)) (k : string) : option string :=
  match m with
  | [] => None
  | (k', v) :: m' => if String.eqb k' k then Some v else assoc m' k
  end.

(** ** Python primitives on values *)

(** [v[k]] for a string [k] *)
Definition py_getitem (v : value) (k : string) : result value :=
  match v with
  | VDict d =>
      match dict_get d k with
      | Some x => Ok x
      | None => Err (KeyError (VStr k))
      end
  | VList _ | VStr _ => Err (BuiltinTypeError BadIndex)
  | _ => Err (BuiltinTypeError NotSubscriptable)
  end.

(** [v[k] = x] for a string [k] *)
Definition py_setitem (v : value) (k : string) (x : value) : result value :=
  match v with
  | VDict d => Ok (VDict (dict_set d k x))
  | VList _ => Err (BuiltinTypeError BadIndex)
  | _ => Err (BuiltinTypeError NoItemAssignment)
  end.

(** [v.get(k, default)] *)
Definition py_get (v : value) (k : string) (default : value) : result value :=
  match v with
  | VDict d => Ok (dict_get_default d k default)
  | _ => Err (AttributeError "get")
  end.

(** [v.copy()], a shallow copy *)
Definition py_copy (v : value) : result value :=
  match v with
  | VList _ | VDict _ => Ok v
  | _ => Err (AttributeError "copy")
  end.

Fixpoint chars (s : string) : list value :=
  match s with
  | EmptyString => []
  | String c s' => VStr (String c EmptyString) :: chars s'
  end.

(** The elements a [for] loop or [list.extend] sees. *)
Definition py_iter (v : value) : result (list value) :=
  match v with
  | VList l => Ok l
  | VDict d => Ok (map (fun kv => VStr (fst kv)) d)
  | VStr s => Ok (chars s)
  | _ => Err (BuiltinTypeError NotIterable)
  end.

(** Truth value of [if v:] *)
Definition py_truthy (v : value) : bool :=
  match v with
  | VNone => false
  | VBool b => b
  | VInt z => negb (Z.eqb z 0)
  | VStr s => negb (String.eqb s "")
  | VList l => match l with [] => false | _ => true end
  | VDict d => match d with [] => false | _ => true end
  end.

(** [v == s] for a string literal [s] *)
Definition py_eq_str (v : value) (s : string) : bool :=
  match v with
  | VStr s' => String.eqb s' s
  | _ => false
  end.

Fixpoint str_repeat (s : string) (n : nat) : string :=
  match n with
  | O => ""
  | S n' => s ++ str_repeat s n'
  end.

(** [v *= n] for an int [n]: product of numbers, repetition of sequences. *)
Definition py_imul (v : value) (n : Z) : result value :=
  match v with
  | VInt z => Ok (VInt (z * n))
  | VBool b => Ok (VInt ((if b then 1 else 0) * n))
  | VStr s => Ok (VStr (str_repeat s (Z.to_nat n)))
  | VList l => Ok (VList (concat (repeat l (Z.to_nat n))))
  | VNone | VDict _ => Err (BuiltinTypeError BadOperand)
  end.

(** ** [calm/dsl/builtins/models/project.py] *)

Module Project.

(** [if cdict.get(key) is None: cdict[key] = []] followed by
    [cdict[key].extend(items)]. *)
Definition extend_key (cdict : dict) (key : string) (items : value)
  : result dict :=
  let cdict :=
    match dict_get cdict key with
    | None | Some VNone => dict_set cdict key (VList [])
    | Some _ => cdict
    end in
  target <- py_getitem (VDict cdict) key ;;
  match target with
  | VList l =>
      xs <- py_iter items ;;
      Ok (dict_set cdict key (VList (l ++ xs)))
  | _ => Err (AttributeError "extend")
  end.

(** Body of the loop over [provider_list]. *)
Definition populate_account (cdict : dict) (provider_obj : value)
  : result dict :=
  provider_type <- py_getitem provider_obj "provider_type" ;;
  cdict <-
    (if py_eq_str provider_type "nutanix_pc" then
       match provider_obj with
       | VDict p =>
           cdict <-
             (if dict_contains p "subnet_reference_list" then
                items <- py_getitem provider_obj "subnet_reference_list" ;;
                extend_key cdict "subnet_reference_list" items
              else if dict_contains p "external_network_list" then
                items <- py_getitem provider_obj "external_network_list" ;;
                extend_key cdict "external_network_list" items
              else Ok cdict) ;;
           if dict_contains p "default_subnet_reference" then
             ref <- py_getitem provider_obj "default_subnet_reference" ;;
             Ok (dict_set cdict "default_subnet_reference" ref)
           else Ok cdict
       | _ => Err (BuiltinTypeError NotSubscriptable)
       end
     else Ok cdict) ;;
  accounts <- py_getitem (VDict cdict) "account_reference_list" ;;
  match accounts with
  | VList l =>
      account_reference <- py_getitem provider_obj "account_reference" ;;
      Ok (dict_set cdict "account_reference_list" (VList (l ++ [account_reference])))
  | _ => Err (AttributeError "append")
  end.

(** Body of the loop over [quotas.items()]. *)
Definition quota_resource (project_resources : list value) (q : string * value)
  : result (list value) :=
  let (qk, qv) := q in
  qv <- (if negb (String.eqb qk "VCPUS") then py_imul qv 1073741824 else Ok qv) ;;
  Ok (project_resources ++ [VDict [("limit", qv); ("resource_type", VStr qk)]]).

(** [ProjectType.compile]; [cdict] is the dictionary [super().compile()]
    returned. *)
Definition compile (cdict : dict) : result dict :=
  let cdict := dict_set cdict "account_reference_list" (VList []) in
  let (provider_list, cdict) := dict_pop cdict "provider_list" (VList []) in
  providers <- py_iter provider_list ;;
  cdict <- for_each populate_account providers cdict ;;
  let (quotas, cdict) := dict_pop cdict "quotas" VNone in
  cdict <-
    (if py_truthy quotas then
       match quotas with
       | VDict items =>
           project_resources <- for_each quota_resource items [] ;;
           Ok (dict_set cdict "resource_domain"
                 (VDict [("resources", VList project_resources)]))
       | _ => Err (AttributeError "items")
       end
     else Ok cdict) ;;
  let (_, cdict) := dict_pop cdict "environment_definition_list" VNone in
  Ok cdict.

(** *** Well-formed inputs of [compile] *)

(** The list under a key that [extend_key] extends: none yet, or a list. *)
Definition list_or_none (o : option value) : option (list value) :=
  match o with
  | None | Some VNone => Some []
  | Some (VList l) => Some l
  | Some _ => None
  end.

Definition iterable (v : value) : bool :=
  match py_iter v with
  | Ok _ => true
  | Err _ => false
  end.

(** A provider entry the loop body accepts: a dict with its type and its
    account reference, whose contributed list can be iterated. *)
Definition wf_provider (p : value) : bool :=
  match p with
  | VDict d =>
      match dict_get d "provider_type" with
      | Some ty =>
          dict_contains d "account_reference"
          && (if py_eq_str ty "nutanix_pc" then
                match dict_get d "subnet_reference_list",
                      dict_get d "external_network_list" with
                | Some items, _ => iterable items
                | None, Some items => iterable items
                | None, None => true
                end
              else true)
      | None => false
      end
  | _ => false
  end.

Definition wf_lists (cdict : dict) : bool :=
  match list_or_none (dict_get cdict "subnet_reference_list"),
        list_or_none (dict_get cdict "external_network_list") with
  | Some _, Some _ => true
  | _, _ => false
  end.

Definition wf_project (cdict : dict) : bool :=
  wf_lists cdict
  && match py_iter (dict_get_default cdict "provider_list" (VList [])) with
     | Ok providers => forallb wf_provider providers
     | Err _ => false
     end.

(** Keys the provider loop never writes. *)
Definition untouched (k : string) : Prop :=
  ~ In k ["account_reference_list"; "subnet_reference_list";
          "external_network_list"; "default_subnet_reference"].

(** What one step of the provider loop keeps of the dictionary. *)
Definition keeps (c c' : dict) : Prop :=
  wf_lists c' = true
  /\ dict_get c' "account_reference_list" = dict_get c "account_reference_list"
  /\ forall k, untouched k -> dict_get c' k = dict_get c k.

(** A quotas mapping with integer values, as the compiled dictionary
    carries it. *)
Definition declared_quotas (quotas : list (string * Z)) : value :=
  VDict (map (fun q => (fst q, VInt (snd q))) quotas).

Definition quota_entry (q : string * Z) : value :=
  VDict [("limit",
          VInt (if String.eqb (fst q) "VCPUS" then snd q else snd q * 1073741824));
         ("resource_type", VStr (fst q))].

(** The quotas field is gone and [resource_domain.resources] has one entry
    per quota key, in order. *)
Definition quotas_converted (cdict : dict) (quotas : list (string * Z)) : Prop :=
  exists out,
    compile cdict = Ok out
    /\ dict_get out "quotas" = None
    /\ dict_get out "resource_domain"
       = Some (VDict [("resources", VList (map quota_entry quotas))]).

(** *** Sample projects *)

Definition ahv_provider : value :=
  VDict [("provider_type", VStr "nutanix_pc");
         ("account_reference", VDict [("kind", VStr "account"); ("name", VStr "pc")]);
         ("subnet_reference_list", VList [VStr "A"; VStr "B"])].

Definition sample_project : dict :=
  [("name", VStr "demo");
   ("provider_list", VList [ahv_provider]);
   ("quotas", declared_quotas [("STORAGE", 5%Z); ("VCPUS", 2%Z)])].

Definition empty_quotas_project : dict :=
  [("name", VStr "demo"); ("quotas", declared_quotas [])].

(** One provider declaring both of its lists. *)
Definition both_lists_project : dict :=
  [("name", VStr "demo");
   ("provider_list",
    VList [VDict [("provider_type", VStr "nutanix_pc");
                  ("account_reference", VStr "pc");
                  ("subnet_reference_list", VList [VStr "A"; VStr "B"]);
                  ("external_network_list", VList [VStr "E"])]])].

End Project.

(** ** [calm/dsl/builtins/models/provider_spec.py] *)

Module ProviderSpec.

Definition spec_provider_map : list (string * string) :=
  [("PROVISION_AHV_VM", "AHV_VM");
   ("PROVISION_VMWARE_VM", "VMWARE_VM");
   ("PROVISION_GCP_VM", "GCP_VM");
   ("PROVISION_EXISTING_MACHINE", "EXISTING_VM");
   ("PROVISION_AWS_VM", "AWS_VM");
   ("PROVISION_AZURE_VM", "AZURE_VM")].

(** [spec_provider_map[key]]: lists and dicts cannot be hashed, every other
    key is looked up. *)
Definition map_getitem (m : list (string * string)) (key : value) : result string :=
  match key with
  | VStr k =>
      match assoc m k with
      | Some v => Ok v
      | None => Err (KeyError key)
      end
  | VList _ | VDict _ => Err (BuiltinTypeError Unhashable)
  | _ => Err (KeyError key)
  end.

(** What [spec_provider_map[key]] raises for a key it does not hold. *)
Definition lookup_error (key : value) : exn :=
  match key with
  | VList _ | VDict _ => BuiltinTypeError Unhashable
  | _ => KeyError key
  end.

(** The keys of a table, as values. *)
Definition keys (m : list (string * string)) : list value :=
  map (fun kv => VStr (fst kv)) m.

(** The substrate class the descriptor is read from. *)
Record substrate : Type := {
  provider_type : string;      (* cls.provider_type *)
  __name__ : string            (* cls.__name__ *)
}.

Definition mismatch_message (substrate_type spec_type context : string) : string :=
  "provider type mismatch in substrate(" ++ substrate_type
    ++ ") and spec type(" ++ spec_type ++ ") at " ++ context ++ " substrate!!!".

Section Validation.

(** [get_provider(provider_type).validate_spec(spec)], the structural
    validator of [calm.dsl.providers]; it returns nothing or raises. *)
Variable validate_spec : string -> value -> result unit.

Definition __validate__ (spec : value) (provider_type : string) : result value :=
  _ <- validate_spec provider_type spec ;;
  Ok spec.

Definition __get__ (spec : value) (cls : substrate) : result value :=
  spec_type <- py_get spec "type" (VStr "PROVISION_AHV_VM") ;;
  spec_type <- map_getitem spec_provider_map spec_type ;;
  if negb (String.eqb spec_type (provider_type cls)) then
    Err (TypeError (mismatch_message (provider_type cls) spec_type (__name__ cls)))
  else __validate__ spec (provider_type cls).

End Validation.

(** A structural validator that accepts every spec. *)
Definition accept_all (_ : string) (_ : value) : result unit := Ok tt.

Definition ahv_spec : value :=
  VDict [("type", VStr "PROVISION_AHV_VM"); ("name", VStr "vm1")].

Definition untyped_spec : value := VDict [("name", VStr "vm1")].

Definition odd_spec : value := VDict [("type", VStr "PROVISION_K8S_POD")].

Definition ahv_substrate : substrate :=
  {| provider_type := "AHV_VM"; __name__ := "AhvSubstrate" |}.

End ProviderSpec.

(** ** [calm/dsl/cli/accounts.py] *)

Module Accounts.

(** Builders draw identifiers from a supply: the state is the number of
    identifiers handed out so far. *)
Definition M (A : Type) : Type := nat -> result (A * nat).

Definition ret {A : Type} (a : A) : M A := fun n => Ok (a, n).

Definition bindM {A B : Type} (m : M A) (k : A -> M B) : M B :=
  fun n =>
    match m n with
    | Ok (a, n') => k a n'
    | Err e => Err e
    end.

Definition lift {A : Type} (r : result A) : M A :=
  fun n =>
    match r with
    | Ok a => Ok (a, n)
    | Err e => Err e
    end.

Declare Scope uuid_scope.
Delimit Scope uuid_scope with uuid.
Notation "x <- e ;; k" := (bindM e (fun x => k))
  (at level 61, e at next level, right associativity) : uuid_scope.
Open Scope uuid_scope.

Fixpoint mapM {A B : Type} (f : A -> M B) (l : list A) : M (list B) :=
  match l with
  | [] => ret []
  | x :: l' => y <- f x ;; ys <- mapM f l' ;; ret (y :: ys)
  end.

(** What the builders read of the user's account class.  The builders are
    only reached with an [Account] class, so their guards on [None] and on
    other objects are not part of the embedding.  [get_dict()] compiles the
    entity afresh at every call, so no two calls share a mutable object. *)
Record user_account : Type := {
  __name__ : string;           (* getattr(UserAccount, "__name__", "") *)
  name : string;               (* getattr(UserAccount, "name", "") *)
  type : string;               (* UserAccount.type *)
  get_dict : dict;             (* UserAccount.get_dict() *)
  resources : option dict      (* UserAccount.resources.get_dict(), if any *)
}.

Definition secret_attrs : value :=
  VDict [("is_secret_modified", VBool true); ("type", VStr "SECRET")].

(** [for x in v: body(x)] where the body mutates [x] in place.  Only the
    elements of a list are mutable; the keys of a dict and the characters of
    a string are visited and left as they are. *)
Definition for_each_in (body : value -> M value) (v : value) : M value :=
  match v with
  | VList l => l' <- mapM body l ;; ret (VList l')
  | VDict d => _ <- mapM body (map (fun kv => VStr (fst kv)) d) ;; ret v
  | VStr s => _ <- mapM body (chars s) ;; ret v
  | _ => lift (Err (BuiltinTypeError NotIterable))
  end.

(** [if var["type"] == "SECRET": var["attrs"] = {...}] *)
Definition mark_secret (var : value) : result value :=
  (ty <- py_getitem var "type" ;;
   if py_eq_str ty "SECRET" then py_setitem var "attrs" secret_attrs
   else Ok var)%result.

Section Builders.

(** [str(uuid.uuid4())]: the [n]-th identifier of the supply. *)
Variable uuid4 : nat -> string.

(** [insert_uuid] of [calm/dsl/cli/utils.py], which is not part of these
    sources: it takes the action list and returns its deep copy with the
    identifiers inserted. *)
Variable insert_uuid : value -> M value.

Definition fresh_uuid : M value := fun n => Ok (VStr (uuid4 n), S n).

(** [x["uuid"] = str(uuid.uuid4())] *)
Definition set_uuid (x : value) : M value :=
  u <- fresh_uuid ;; lift (py_setitem x "uuid" u).

Definition effective_name (ua : user_account) : string :=
  if String.eqb (name ua) "" then __name__ ua else name ua.

Definition create_account_payload (ua : user_account) : M value :=
  let account_name := __name__ ua in
  let spec :=
    VDict [("name", VStr account_name); ("resources", VDict (get_dict ua))] in
  u <- fresh_uuid ;;
  let metadata :=
    VDict [("kind", VStr "account"); ("name", VStr account_name); ("uuid", u)] in
  ret (VDict [("spec", spec); ("metadata", metadata)]).

(** Loop body of [create_provider_payload]. *)
Definition stamp_auth_schema (auth_schema : value) : M value :=
  auth_schema <- lift (py_setitem auth_schema "value" (VStr "")) ;;
  auth_schema <- set_uuid auth_schema ;;
  lift (mark_secret auth_schema).

Definition create_provider_payload (ua : user_account) : M value :=
  let name := effective_name ua in
  u <- fresh_uuid ;;
  let metadata := VDict [("kind", VStr "provider"); ("uuid", u)] in
  let resources := dict_get_default (get_dict ua) "data" (VDict []) in
  auth_schema_list <- lift (l <- py_get resources "auth_schema_list" (VList []) ;;
                            py_copy l)%result ;;
  auth_schema_list <- for_each_in stamp_auth_schema auth_schema_list ;;
  let provider_resources := VDict [("auth_schema_list", auth_schema_list)] in
  let spec := VDict [("name", VStr name); ("resources", provider_resources)] in
  ret (VDict [("spec", spec); ("metadata", metadata)]).

Definition create_resource_type_payload (ua : user_account) (provider_uuid : value)
  : M value :=
  let name := effective_name ua in
  u <- fresh_uuid ;;
  let metadata :=
    VDict [("kind", VStr "resource_type"); ("name", VStr name); ("uuid", u)] in
  resources <- lift (py_get (dict_get_default (get_dict ua) "data" (VDict []))
                       "resource_config" (VDict [])) ;;
  input_vars <- lift (l <- py_get resources "variables" (VList []) ;; py_copy l)%result ;;
  output_vars <- lift (l <- py_get resources "cred_attrs" (VList []) ;; py_copy l)%result ;;
  input_vars <- for_each_in (fun var => lift (mark_secret var)) input_vars ;;
  output_vars <- for_each_in (fun var => lift (mark_secret var)) output_vars ;;
  action_list <- lift (l <- py_get resources "action_list" (VList []) ;; py_copy l)%result ;;
  action_list_with_uuid <- insert_uuid action_list ;;
  input_vars <- for_each_in set_uuid input_vars ;;
  output_vars <- for_each_in set_uuid output_vars ;;
  let provider_reference :=
    VDict [("kind", VStr "provider"); ("uuid", provider_uuid)] in
  let resource_type_resources :=
    VDict [("provider_reference", provider_reference);
           ("variable_list", input_vars);
           ("schema_list", output_vars);
           ("action_list", action_list_with_uuid)] in
  let spec := VDict [("name", VStr name); ("resources", resource_type_resources)] in
  ret (VDict [("spec", spec); ("metadata", metadata)]).

(** Loop body over the account's [variable_list]. *)
Definition stamp_variable (variable : value) : M value :=
  variable <- set_uuid variable ;;
  lift (mark_secret variable).

Definition create_credential_provider_account_payload (ua : user_account)
  : M value :=
  provider_payload <- create_provider_payload ua ;;
  provider_uuid <- lift (m <- py_get provider_payload "metadata" (VDict []) ;;
                         py_get m "uuid" VNone)%result ;;
  resource_type_payload <- create_resource_type_payload ua provider_uuid ;;
  let account_name := effective_name ua in
  u <- fresh_uuid ;;
  let metadata :=
    VDict [("kind", VStr "account"); ("name", VStr account_name); ("uuid", u)] in
  resources <- lift (match resources ua with
                     | Some r => Ok (VDict r)
                     | None => Err (AttributeError "get_dict")
                     end) ;;
  variable_list <- lift (py_get resources "auth_schema_list" (VList [])) ;;
  variable_list <- for_each_in stamp_variable variable_list ;;
  provider_reference <-
    lift (s <- py_get resource_type_payload "spec" (VDict []) ;;
          r <- py_get s "resources" (VDict []) ;;
          py_get r "provider_reference" (VDict []))%result ;;
  let account_resources :=
    VDict [("type", VStr "custom_provider");
           ("data", VDict [("provider_reference", provider_reference);
                           ("variable_list", variable_list)])] in
  let spec := VDict [("name", VStr account_name); ("resources", account_resources)] in
  let account_payload := VDict [("spec", spec); ("metadata", metadata)] in
  ret (VDict [("provider", provider_payload);
              ("resource_type", resource_type_payload);
              ("account", account_payload)]).

(** [compile_account], from the account class the file defines on. *)
Definition compile_account (ua : user_account) : M value :=
  account_payload <- create_account_payload ua ;;
  if String.eqb (type ua) "credential_provider"
  then create_credential_provider_account_payload ua
  else ret account_payload.

End Builders.

(** *** Well-formed account definitions *)

(** [v[k1][k2]...] on nested dicts *)
Fixpoint path (v : value) (ks : list string) : option value :=
  match ks with
  | [] => Some v
  | k :: ks' =>
      match v with
      | VDict d =>
          match dict_get d k with
          | Some x => path x ks'
          | None => None
          end
      | _ => None
      end
  end.

(** An auth-schema entry or variable: a dict that declares its type. *)
Definition is_variable (v : value) : bool :=
  match v with
  | VDict d => dict_contains d "type"
  | _ => false
  end.

(** The list of variables declared under a key; none when the key is
    absent. *)
Definition variables_at (d : dict) (k : string) : option (list value) :=
  match dict_get d k with
  | None => Some []
  | Some (VList l) => if forallb is_variable l then Some l else None
  | Some _ => None
  end.

Record declaration : Type := {
  auth_schema : list value;     (* data.auth_schema_list *)
  variables : list value;       (* data.resource_config.variables *)
  cred_attrs : list value;      (* data.resource_config.cred_attrs *)
  action_list : value;          (* data.resource_config.action_list *)
  account_variables : list value (* resources.auth_schema_list *)
}.

(** What a credential-provider account declares, when it has the shape the
    builders expect. *)
Definition declared (ua : user_account) : option declaration :=
  match dict_get_default (get_dict ua) "data" (VDict []) with
  | VDict data =>
      match dict_get_default data "resource_config" (VDict []) with
      | VDict rc =>
          match variables_at data "auth_schema_list",
                variables_at rc "variables",
                variables_at rc "cred_attrs",
                py_copy (dict_get_default rc "action_list" (VList [])),
                resources ua with
          | Some la, Some lv, Some lc, Ok acts, Some res =>
              match variables_at res "auth_schema_list" with
              | Some lr =>
                  Some {| auth_schema := la; variables := lv; cred_attrs := lc;
                          action_list := acts; account_variables := lr |}
              | None => None
              end
          | _, _, _, _, _ => None
          end
      | _ => None
      end
  | _ => None
  end.

(** The effect of [mark_secret] on a variable. *)
Definition marked (x : value) : value :=
  match x with
  | VDict d =>
      if py_eq_str (dict_get_default d "type" VNone) "SECRET"
      then VDict (dict_set d "attrs" secret_attrs)
      else x
  | _ => x
  end.

Definition with_key (k : string) (v : value) (x : value) : value :=
  match x with
  | VDict d => VDict (dict_set d k v)
  | _ => x
  end.

(** The effect of the three loop bodies on an entry, given its fresh
    identifier. *)
Definition stamped_auth_schema (u : string) (x : value) : value :=
  marked (with_key "uuid" (VStr u) (with_key "value" (VStr "") x)).

Definition stamped_variable (u : string) (x : value) : value :=
  marked (with_key "uuid" (VStr u) x).

Definition with_uuid (u : string) (x : value) : value :=
  with_key "uuid" (VStr u) x.

(** A list whose entries take the identifiers [n], [n + 1], ... of the
    supply. *)
Fixpoint stamp_from (uuid4 : nat -> string) (f : string -> value -> value)
    (n : nat) (l : list value) : list value :=
  match l with
  | [] => []
  | x :: l' => f (uuid4 n) x :: stamp_from uuid4 f (S n) l'
  end.

(** A compiled entry against its declaration: the declared type is kept,
    and the [attrs] field is the secret marker for type "SECRET", the
    declared one otherwise. *)
Definition secret_marked (x x' : value) : Prop :=
  py_getitem x' "type" = py_getitem x "type"
  /\ if py_eq_str (match py_getitem x "type" with Ok t => t | Err _ => VNone end)
          "SECRET"
     then py_getitem x' "attrs" = Ok secret_attrs
     else py_getitem x' "attrs" = py_getitem x "attrs".

Definition uuid_of (x : value) : result value := py_getitem x "uuid".



(** The payloads the builders assemble from a well-formed declaration,
    given the positions of their identifiers in the supply. *)
Definition provider_payload_of (uuid4 : nat -> string) (ua : user_account)
    (dcl : declaration) (n : nat) : value :=
  VDict
    [("spec",
      VDict [("name", VStr (effective_name ua));
             ("resources",
              VDict [("auth_schema_list",
                      VList (stamp_from uuid4 stamped_auth_schema (S n)
                               (auth_schema dcl)))])]);
     ("metadata", VDict [("kind", VStr "provider"); ("uuid", VStr (uuid4 n))])].

Definition resource_type_payload_of (uuid4 : nat -> string) (ua : user_account)
    (dcl : declaration) (provider_uuid : value) (n : nat)
    (actions : value) (n' : nat) : value :=
  VDict
    [("spec",
      VDict [("name", VStr (effective_name ua));
             ("resources",
              VDict [("provider_reference",
                      VDict [("kind", VStr "provider"); ("uuid", provider_uuid)]);
                     ("variable_list",
                      VList (stamp_from uuid4 with_uuid n'
                               (map marked (variables dcl))));
                     ("schema_list",
                      VList (stamp_from uuid4 with_uuid
                               (n' + length (variables dcl))
                               (map marked (cred_attrs dcl))));
                     ("action_list", actions)])]);
     ("metadata",
      VDict [("kind", VStr "resource_type"); ("name", VStr (effective_name ua));
             ("uuid", VStr (uuid4 n))])].

Definition account_payload_of (uuid4 : nat -> string) (ua : user_account)
    (dcl : declaration) (provider_reference : value) (n : nat) : value :=
  VDict
    [("spec",
      VDict [("name", VStr (effective_name ua));
             ("resources",
              VDict [("type", VStr "custom_provider");
                     ("data",
                      VDict [("provider_reference", provider_reference);
                             ("variable_list",
                              VList (stamp_from uuid4 stamped_variable (S n)
                                       (account_variables dcl)))])])]);
     ("metadata",
      VDict [("kind", VStr "account"); ("name", VStr (effective_name ua));
             ("uuid", VStr (uuid4 n))])].

(** *** Properties of a bundle *)

Definition auth_schema_path : list string :=
  ["provider"; "spec"; "resources"; "auth_schema_list"].
Definition variable_list_path : list string :=
  ["resource_type"; "spec"; "resources"; "variable_list"].
Definition schema_list_path : list string :=
  ["resource_type"; "spec"; "resources"; "schema_list"].
Definition account_variables_path : list string :=
  ["account"; "spec"; "resources"; "data"; "variable_list"].

(** The four compiled lists of a bundle against their declarations, entry
    by entry. *)
Definition lists_related (R : list value -> list value -> Prop)
    (dcl : declaration) (bundle : value) : Prop :=
  exists la lv lc lr,
    path bundle auth_schema_path = Some (VList la)
    /\ path bundle variable_list_path = Some (VList lv)
    /\ path bundle schema_list_path = Some (VList lc)
    /\ path bundle account_variables_path = Some (VList lr)
    /\ R (auth_schema dcl) la
    /\ R (variables dcl) lv
    /\ R (cred_attrs dcl) lc
    /\ R (account_variables dcl) lr.

(** The builder returns a bundle with the property. *)
Definition returns (P : value -> Prop) (r : result (value * nat)) : Prop :=
  exists v final, r = Ok (v, final) /\ P v.

(** Both references of a bundle lead to the provider payload's identifier:
    the resource type's, and the account's, which is the resource type's
    reference itself. *)
Definition references_provider (bundle : value) : Prop :=
  exists u,
    path bundle ["provider"; "metadata"; "uuid"] = Some u
    /\ path bundle ["resource_type"; "spec"; "resources"; "provider_reference"; "uuid"]
       = Some u
    /\ path bundle ["resource_type"; "spec"; "resources"; "provider_reference"]
       = Some (VDict [("kind", VStr "provider"); ("uuid", u)])
    /\ path bundle ["account"; "spec"; "resources"; "data"; "provider_reference"]
       = Some (VDict [("kind", VStr "provider"); ("uuid", u)]).

(** The account's reference is the resource-type payload's own identifier,
    either as the reference itself or as its [uuid]. *)
Definition account_references_resource_type (bundle : value) : Prop :=
  exists u,
    path bundle ["resource_type"; "metadata"; "uuid"] = Some u
    /\ (path bundle ["account"; "spec"; "resources"; "data"; "provider_reference"]
        = Some u
        \/ path bundle
             ["account"; "spec"; "resources"; "data"; "provider_reference"; "uuid"]
           = Some u).


(** Every entry's value is the empty string. *)
Definition values_blank (l l' : list value) : Prop :=
  length l' = length l
  /\ Forall (fun x' => py_getitem x' "value" = Ok (VStr "")) l'.

(** The provider payload's auth-schema entries all have a blank value. *)
Definition auth_values_blank (dcl : declaration) (bundle : value) : Prop :=
  exists la,
    path bundle auth_schema_path = Some (VList la)
    /\ values_blank (auth_schema dcl) la.

(** *** A supply and a stamper to run the builders with *)

Definition demo_uuid4 (n : nat) : string :=
  "uuid-" ++ NilEmpty.string_of_uint (Nat.to_uint n).

(** Modelled from the spec: [insert_uuid] of [calm/dsl/cli/utils.py] is not
    among the sources.  The reference stamper walks the nested structure and
    gives every list element (a dict) that lacks an identifier a fresh one;
    identifiers are recorded by element name, and an element whose name is
    already recorded takes the recorded identifier. *)
Definition stamp_element (uuid4 : nat -> string) (x : value)
    (st : list (string * string) * nat) : value * (list (string * string) * nat) :=
  match x with
  | VDict d =>
      if dict_contains d "uuid" then (x, st)
      else
        let (names, n) := st in
        match dict_get d "name" with
        | Some (VStr nm) =>
            match assoc names nm with
            | Some u => (VDict (dict_set d "uuid" (VStr u)), st)
            | None =>
                (VDict (dict_set d "uuid" (VStr (uuid4 n))),
                 ((nm, uuid4 n) :: names, S n))
            end
        | _ => (VDict (dict_set d "uuid" (VStr (uuid4 n))), (names, S n))
        end
  | _ => (x, st)
  end.

Fixpoint stamp_tree (uuid4 : nat -> string) (v : value)
    (st : list (string * string) * nat) : value * (list (string * string) * nat) :=
  match v with
  | VList l =>
      let (l', st') :=
        (fix walk (l : list value) st :=
           match l with
           | [] => ([], st)
           | x :: xs =>
               let (x1, st1) := stamp_tree uuid4 x st in
               let (x2, st2) := stamp_element uuid4 x1 st1 in
               let (xs', st3) := walk xs st2 in
               (x2 :: xs', st3)
           end) l st in
      (VList l', st')
  | VDict d =>
      let (d', st') :=
        (fix walk (d : list (string * value)) st :=
           match d with
           | [] => ([], st)
           | (k, x) :: xs =>
               let (x1, st1) := stamp_tree uuid4 x st in
               let (xs', st2) := walk xs st1 in
               ((k, x1) :: xs', st2)
           end) d st in
      (VDict d', st')
  | _ => (v, st)
  end.

Definition spec_insert_uuid (uuid4 : nat -> string) (action : value) : M value :=
  fun n =>
    let (v, st) := stamp_tree uuid4 action ([], n) in
    Ok (v, snd st).












(** *** Sample accounts *)

Definition sample_data : dict :=
  [("auth_schema_list",
    VList [VDict [("name", VStr "username"); ("type", VStr "STRING");
                  ("value", VStr "admin")];
           VDict [("name", VStr "password"); ("type", VStr "SECRET");
                  ("value", VStr "hunter2")]]);
   ("resource_config",
    VDict [("variables",
            VList [VDict [("name", VStr "token"); ("type", VStr "SECRET")];
                   VDict [("name", VStr "region"); ("type", VStr "STRING")]]);
           ("cred_attrs",
            VList [VDict [("name", VStr "secret"); ("type", VStr "SECRET")]]);
           ("action_list",
            VList [VDict [("name", VStr "fetch")]])])].

Definition sample_account : user_account :=
  {| __name__ := "VaultAccount"; name := "vault"; type := "credential_provider";
     get_dict := [("type", VStr "custom_provider"); ("data", VDict sample_data)];
     resources := Some sample_data |}.






End Accounts.

(** ** Identifiers of a bundle *)

Module BundleViews.
Import Accounts.

Definition metadata_identifier (bundle : value) (payload : string) : list value :=
  match path bundle [payload; "metadata"; "uuid"] with
  | Some u => [u]
  | None => []
  end.

Definition entry_identifiers (l : list value) : list value :=
  flat_map (fun x => match uuid_of x with Ok u => [u] | Err _ => [] end) l.

Definition list_identifiers (bundle : value) (p : list string) : list value :=
  match path bundle p with
  | Some (VList l) => entry_identifiers l
  | _ => []
  end.

(** Every identifier the builders put into a bundle: the three payloads'
    and those of the entries of the four lists. *)
Definition all_identifiers (bundle : value) : list value :=
  metadata_identifier bundle "provider"
  ++ list_identifiers bundle auth_schema_path
  ++ metadata_identifier bundle "resource_type"
  ++ list_identifiers bundle variable_list_path
  ++ list_identifiers bundle schema_list_path
  ++ metadata_identifier bundle "account"
  ++ list_identifiers bundle account_variables_path.

Definition identifiers_distinct (dcl : declaration) (bundle : value) : Prop :=
  NoDup (all_identifiers bundle)
  /\ length (all_identifiers bundle)
     = 3 + length (auth_schema dcl) + length (variables dcl)
       + length (cred_attrs dcl) + length (account_variables dcl).

End BundleViews.

(** ** [calm/dsl/cli/accounts.py]: the commands *)

Module AccountCommands.
Import Accounts.

(** Exceptions of the command layer: the interpreter's own, and
    [raise Exception(fmt.format( *args))], kept as the format and its
    arguments. *)
Inductive error : Type :=
| Builtin (e : exn)
| NoLength
| IndexError
| Exception (fmt : string) (args : list value).

Inductive outcome (A : Type) : Type :=
| Returned (a : A)
| Raised (e : error).
Arguments Returned {A} a.
Arguments Raised {A} e.

Definition bindO {A B : Type} (o : outcome A) (k : A -> outcome B) : outcome B :=
  match o with
  | Returned a => k a
  | Raised e => Raised e
  end.

Declare Scope cmd_scope.
Delimit Scope cmd_scope with cmd.
Notation "x <- e ;; k" := (bindO e (fun x => k))
  (at level 61, e at next level, right associativity) : cmd_scope.

Definition run {A : Type} (r : result A) : outcome A :=
  match r with
  | Ok a => Returned a
  | Err e => Raised (Builtin e)
  end.

(** The pair [(res, err)] an API call returns: [Reply json] when [err] is
    empty and [res.json()] is [json], [Failed err] otherwise. *)
Inductive reply : Type :=
| Reply (json : value)
| Failed (err : value).

(** A name argument: a string or [None]. *)
Definition name_value (name : option string) : value :=
  match name with
  | Some s => VStr s
  | None => VNone
  end.

(** [if name:] *)
Definition name_truthy (name : option string) : bool :=
  py_truthy (name_value name).

(** [a or b] *)
Definition name_or (a b : option string) : value :=
  if name_truthy a then name_value a else name_value b.

(** ["{}".format(name)] *)
Definition name_str (name : option string) : string :=
  match name with
  | Some s => s
  | None => "None"
  end.

(** [len(v)] *)
Definition py_len (v : value) : outcome nat :=
  match v with
  | VList l => Returned (length l)
  | VDict d => Returned (length d)
  | VStr s => Returned (String.length s)
  | _ => Raised NoLength
  end.

(** [v[0]] *)
Definition py_first (v : value) : outcome value :=
  match v with
  | VList (x :: _) => Returned x
  | VList [] => Raised IndexError
  | VStr (String c _) => Returned (VStr (String c EmptyString))
  | VStr EmptyString => Raised IndexError
  | VDict _ => Raised (Builtin (KeyError (VInt 0)))
  | _ => Raised (Builtin (BuiltinTypeError NotSubscriptable))
  end.

(** [v[k1][k2]...[k] = x] *)
Fixpoint py_setitem_path (v : value) (ks : list string) (k : string) (x : value)
  : result value :=
  match ks with
  | [] => py_setitem v k x
  | k1 :: ks' =>
      (inner <- py_getitem v k1 ;;
       inner' <- py_setitem_path inner ks' k x ;;
       py_setitem v k1 inner')%result
  end.

(** [for x in v: body(x)] in place, as [Accounts.for_each_in], for a body
    that draws no identifier. *)
Fixpoint mapR {A B : Type} (f : A -> result B) (l : list A) : result (list B) :=
  match l with
  | [] => Ok []
  | x :: l' => (y <- f x ;; ys <- mapR f l' ;; Ok (y :: ys))%result
  end.

Definition for_each_item (body : value -> result value) (v : value) : result value :=
  match v with
  | VList l => (l' <- mapR body l ;; Ok (VList l'))%result
  | VDict d => (_ <- mapR body (map (fun kv => VStr (fst kv)) d) ;; Ok v)%result
  | VStr s => (_ <- mapR body (chars s) ;; Ok v)%result
  | _ => Err (BuiltinTypeError NotIterable)
  end.

(** A dict keyed by values: keys are compared as Python compares them,
    [True] and [1] being the same key. *)
Definition py_hashable (v : value) : bool :=
  match v with
  | VList _ | VDict _ => false
  | _ => true
  end.

Definition key_eqb (a b : value) : bool :=
  match a, b with
  | VNone, VNone => true
  | VStr s, VStr t => String.eqb s t
  | VInt x, VInt y => Z.eqb x y
  | VBool x, VBool y => Bool.eqb x y
  | VBool x, VInt y | VInt y, VBool x => Z.eqb (if x then 1 else 0) y
  | _, _ => false
  end.

Fixpoint vmap_get (m : list (value * value)) (k : value) : option value :=
  match m with
  | [] => None
  | (k', v) :: m' => if key_eqb k' k then Some v else vmap_get m' k
  end.

Fixpoint vmap_put (m : list (value * value)) (k v : value) : list (value * value) :=
  match m with
  | [] => [(k, v)]
  | (k', v') :: m' =>
      if key_eqb k' k then (k', v) :: m' else (k', v') :: vmap_put m' k v
  end.

(** [m[k] = v] *)
Definition vmap_setitem (m : list (value * value)) (k v : value)
  : result (list (value * value)) :=
  if py_hashable k then Ok (vmap_put m k v)
  else Err (BuiltinTypeError Unhashable).

(** [m[k]] *)
Definition vmap_getitem (m : list (value * value)) (k : value) : result value :=
  if py_hashable k then
    match vmap_get m k with
    | Some v => Ok v
    | None => Err (KeyError k)
    end
  else Err (BuiltinTypeError Unhashable).

(** [payload.get("account", {}).get("spec", {}).get("resources", {})
    .get("type", "")] *)
Definition account_type_of (account_payload : value) : result value :=
  (a <- py_get account_payload "account" (VDict []) ;;
   s <- py_get a "spec" (VDict []) ;;
   r <- py_get s "resources" (VDict []) ;;
   py_get r "type" (VStr ""))%result.

(** [get_account_class_from_module]: the attributes of the module in the
    order of [dir], each an [Account] class or another object. *)
Definition get_account_class_from_module (attrs : list (option user_account))
  : option user_account :=
  fold_left (fun UserAccount obj =>
               match obj with
               | Some ua => Some ua
               | None => UserAccount
               end) attrs None.

(** What a command writes. *)
Inductive event : Type :=
| Echo (text : string)
| LogError (fmt : string) (args : list value).

Record client : Type := {
  account_list : value -> reply;              (* client.account.list(params) *)
  account_read : value -> reply;              (* client.account.read(uuid) *)
  account_create : value -> value -> bool -> reply;
  account_update : value -> value -> reply    (* client.account.update(uuid, payload) *)
}.

Open Scope cmd_scope.

(** [raise Exception("[{}] - {}".format(err["code"], err["error"]))] *)
Definition raise_api_error {A : Type} (err : value) : outcome A :=
  code <- run (py_getitem err "code") ;;
  msg <- run (py_getitem err "error") ;;
  Raised (Exception "[{}] - {}" [code; msg]).

Section Commands.

Variable c : client.

(** Collaborators of [.providers] and [.resource_types]. *)
Variable create_provider : value -> option string -> outcome unit.
Variable create_resource_type : value -> option string -> outcome unit.
Variable update_provider : value -> option string -> option string -> outcome unit.
Variable update_resource_types :
  value -> value -> option string -> option string -> outcome unit.
Variable get_provider : value -> outcome value.

(** [json.dumps(payload, indent=4, ...)] and [yaml.dump(payload, ...)] *)
Variable json_dumps : value -> string.
Variable yaml_dump : value -> string.

Definition get_account (account_name : option string) : outcome value :=
  let params :=
    VDict [("filter",
            VStr ("name==" ++ name_str account_name ++ ";child_account==true"))] in
  match account_list c params with
  | Failed err => raise_api_error err
  | Reply response =>
      entities <- run (py_get response "entities" VNone) ;;
      account <-
        (if py_truthy entities then
           n <- py_len entities ;;
           if negb (Nat.eqb n 1) then
             Raised (Exception "More than one account found - {}" [entities])
           else py_first entities
         else
           Raised (Exception "No account having name {} found"
                     [name_value account_name])) ;;
      metadata <- run (py_getitem account "metadata") ;;
      account_id <- run (py_getitem metadata "uuid") ;;
      match account_read c account_id with
      | Failed err => raise_api_error err
      | Reply account => Returned account
      end
  end.

(** [compile_account]: [attrs] is the module loaded from the account file. *)
Definition compile_account_file (uuid4 : nat -> string)
    (insert_uuid : value -> M value) (attrs : list (option user_account))
  : M (option value) :=
  match get_account_class_from_module attrs with
  | None => ret None
  | Some UserAccount =>
      bindM (compile_account uuid4 insert_uuid UserAccount) (fun p => ret (Some p))
  end.

(** [compile_account_command]; [compiled] is what [compile_account]
    returned. *)
Definition compile_account_command (compiled : option value)
    (account_file out : string) : outcome (list event) :=
  match compiled with
  | None => Returned [LogError "User account not found in {}" [VStr account_file]]
  | Some account_payload =>
      account_type <- run (account_type_of account_payload) ;;
      account_payload <-
        (if py_eq_str account_type "custom_provider"
         then run (py_get account_payload "account" (VDict []))
         else Returned account_payload) ;;
      if String.eqb out "json" then Returned [Echo (json_dumps account_payload)]
      else if String.eqb out "yaml" then Returned [Echo (yaml_dump account_payload)]
      else Returned [LogError "Unknown output format {} given" [VStr out]]
  end.

Definition create_account (account_payload : value) (name : option string)
    (force_create : bool) : outcome reply :=
  account_type <- run (account_type_of account_payload) ;;
  account_payload <-
    (if py_eq_str account_type "custom_provider" then
       provider <- run (py_getitem account_payload "provider") ;;
       _ <- (if py_truthy provider then
               p <- run (py_get account_payload "provider" (VDict [])) ;;
               create_provider p name
             else Returned tt) ;;
       resource_type <- run (py_getitem account_payload "resource_type") ;;
       _ <- (if py_truthy resource_type then
               r <- run (py_get account_payload "resource_type" (VDict [])) ;;
               create_resource_type r name
             else Returned tt) ;;
       run (py_get account_payload "account" (VDict []))
     else Returned account_payload) ;;
  account_payload <-
    (if name_truthy name then
       p <- run (py_setitem_path account_payload ["spec"] "name" (name_value name)) ;;
       run (py_setitem_path p ["metadata"] "name" (name_value name))
     else Returned account_payload) ;;
  spec <- run (py_getitem account_payload "spec") ;;
  account_name <- run (py_getitem spec "name") ;;
  Returned (account_create c account_name account_payload force_create).

Definition not_found (account_file : string) : reply :=
  Failed (VDict [("error", VStr ("User account not found in " ++ account_file));
                 ("code", VInt (-1))]).

Definition create_account_from_dsl (compiled : option value)
    (account_file : string) (name : option string) (force_create : bool)
  : outcome reply :=
  match compiled with
  | None => Returned (not_found account_file)
  | Some account_payload => create_account account_payload name force_create
  end.

(** The "NDB" branch of [update_account]: the variables of the payload take
    the identifiers the account's variables have under the same label. *)
Definition ndb_uuids (account account_resources : value) : result value :=
  (s <- py_getitem account "spec" ;;
   r <- py_getitem s "resources" ;;
   d <- py_getitem r "data" ;;
   known <- py_getitem d "variable_list" ;;
   known <- py_iter known ;;
   variable_uuid_map <-
     for_each (fun m variable =>
                 u <- py_getitem variable "uuid" ;;
                 label <- py_getitem variable "label" ;;
                 vmap_setitem m label u) known [] ;;
   data <- py_getitem account_resources "data" ;;
   variables <- py_getitem data "variable_list" ;;
   variables <-
     for_each_item (fun variable =>
                      label <- py_getitem variable "label" ;;
                      u <- vmap_getitem variable_uuid_map label ;;
                      py_setitem variable "uuid" u) variables ;;
   py_setitem_path account_resources ["data"] "variable_list" variables)%result.

Definition update_account (account_payload : value) (name updated_name : option string)
  : outcome reply :=
  account_payload <-
    match account_payload with
    | VDict d => Returned (VDict (dict_del d "status"))
    | VList _ => Raised (Builtin (BuiltinTypeError BadOperand))
    | _ => Raised (Builtin (AttributeError "pop"))
    end ;;
  account_payload <-
    run (py_setitem_path account_payload ["spec"] "name" (name_or updated_name name)) ;;
  account_payload <-
    run (py_setitem_path account_payload ["metadata"] "name"
           (name_or updated_name name)) ;;
  spec <- run (py_getitem account_payload "spec") ;;
  account_resources <- run (py_getitem spec "resources") ;;
  account_name <- run (py_getitem spec "name") ;;
  account <- get_account name ;;
  metadata <- run (py_getitem account "metadata") ;;
  uuid <- run (py_getitem metadata "uuid") ;;
  spec_version <- run (py_getitem metadata "spec_version") ;;
  account_type <-
    run (s <- py_get account_payload "spec" (VDict []) ;;
         r <- py_get s "resources" (VDict []) ;;
         py_get r "type" (VStr ""))%result ;;
  account_resources <-
    (if py_eq_str account_type "NDB"
     then run (ndb_uuids account account_resources)
     else Returned account_resources) ;;
  let account_payload :=
    VDict [("spec", VDict [("name", account_name); ("resources", account_resources)]);
           ("metadata", VDict [("spec_version", spec_version);
                               ("name", account_name);
                               ("kind", VStr "account")]);
           ("api_version", VStr "3.0")] in
  Returned (account_update c uuid account_payload).

(** [update_account_from_json]; [account_payload] is the parsed file. *)
Definition update_account_from_json (account_payload : value)
    (name updated_name : option string) : outcome reply :=
  update_account account_payload name None.

Definition update_account_from_dsl (compiled : option value)
    (account_file : string) (name updated_name : option string) : outcome reply :=
  match compiled with
  | None => Returned (not_found account_file)
  | Some account_payload =>
      account_type <- run (account_type_of account_payload) ;;
      account_payload <-
        (if py_eq_str account_type "custom_provider" then
           account <- get_account name ;;
           metadata <- run (py_getitem account "metadata") ;;
           account_uuid <- run (py_getitem metadata "uuid") ;;
           provider_payload <- run (py_getitem account_payload "provider") ;;
           _ <- update_provider provider_payload name updated_name ;;
           resource_type_payload <- run (py_getitem account_payload "resource_type") ;;
           _ <- update_resource_types resource_type_payload account_uuid
                  name updated_name ;;
           account_payload <- run (py_get account_payload "account" (VDict [])) ;;
           provider <- get_provider (name_or updated_name name) ;;
           provider_metadata <- run (py_getitem provider "metadata") ;;
           provider_uuid <- run (py_getitem provider_metadata "uuid") ;;
           run (py_setitem_path account_payload
                  ["spec"; "resources"; "data"; "provider_reference"]
                  "uuid" provider_uuid)
         else Returned account_payload) ;;
      update_account account_payload name updated_name
  end.

End Commands.

Close Scope cmd_scope.

End AccountCommands.

(** ** Views of the command layer *)

Module CommandViews.
Import Accounts AccountCommands.

(** A variable as the server returns it: a dict with an identifier and a
    label that can be a key. *)
Definition known_variable (v : value) : bool :=
  match v with
  | VDict d =>
      match dict_get d "uuid", dict_get d "label" with
      | Some _, Some l => py_hashable l
      | _, _ => false
      end
  | _ => false
  end.

(** [k] has the label [l]. *)
Definition has_label (l : value) (k : value) : bool :=
  match py_getitem k "label" with
  | Ok l' => key_eqb l' l
  | Err _ => false
  end.

(** A variable of the payload whose label is among the server's. *)
Definition labelled_in (known : list value) (v : value) : bool :=
  match v with
  | VDict d =>
      match dict_get d "label" with
      | Some l => py_hashable l && existsb (has_label l) known
      | None => false
      end
  | _ => false
  end.

(** [v'] is [v] with the identifier of a server variable of the same
    label. *)
Definition carries_known_uuid (known : list value) (v v' : value) : Prop :=
  exists k l u,
    In k known
    /\ py_getitem v "label" = Ok l
    /\ has_label l k = true
    /\ py_getitem k "uuid" = Ok u
    /\ v' = with_key "uuid" u v.

(** The identifier the map built from [known] holds for a label: that of
    the last variable with the label. *)
Definition uuid_for (l : value) (known : list value) (init : option value)
  : option value :=
  fold_left (fun acc k =>
               if has_label l k
               then match py_getitem k "uuid" with Ok u => Some u | Err _ => acc end
               else acc) known init.

(** The name an account is created under: [name] when it is a non-empty
    string, the payload's own otherwise. *)
Definition submitted_name (name : option string) (own : string) : value :=
  if name_truthy name then name_value name else VStr own.

(** The account payload of a bundle under the name [N]. *)
Definition renamed_account (uuid4 : nat -> string) (dcl : declaration)
    (provider_uuid N : value) (k : nat) : value :=
  VDict
    [("spec",
      VDict [("name", N);
             ("resources",
              VDict [("type", VStr "custom_provider");
                     ("data",
                      VDict [("provider_reference",
                              VDict [("kind", VStr "provider");
                                     ("uuid", provider_uuid)]);
                             ("variable_list",
                              VList (stamp_from uuid4 stamped_variable (S k)
                                       (account_variables dcl)))])])]);
     ("metadata", VDict [("kind", VStr "account"); ("name", N);
                         ("uuid", VStr (uuid4 k))])].

(** Loop body of the first loop of the "NDB" branch. *)
Definition record_uuid (m : list (value * value)) (variable : value)
  : result (list (value * value)) :=
  (u <- py_getitem variable "uuid" ;;
   label <- py_getitem variable "label" ;;
   vmap_setitem m label u)%result.

End CommandViews.

(** ** Sample servers and collaborators *)

Module CommandSamples.
Import Accounts AccountCommands.

Definition server_account (name uuid : string) : value :=
  VDict [("metadata", VDict [("uuid", VStr uuid); ("name", VStr name);
                             ("spec_version", VInt 7)]);
         ("spec", VDict [("name", VStr name);
                         ("resources",
                          VDict [("data",
                                  VDict [("variable_list",
                                          VList [VDict [("label", VStr "host");
                                                        ("uuid", VStr "v-host")];
                                                 VDict [("label", VStr "port");
                                                        ("uuid", VStr "v-port")]])])])])].

(** A server that knows one account, "vault". *)
Definition one_account : client :=
  {| account_list := fun _ =>
       Reply (VDict [("entities", VList [server_account "vault" "acc-1"])]);
     account_read := fun _ => Reply (server_account "vault" "acc-1");
     account_create := fun name payload _ => Reply payload;
     account_update := fun uuid payload =>
       Reply (VDict [("uuid", uuid); ("payload", payload)]) |}.

(** A server that finds two accounts under every name. *)
Definition two_accounts : client :=
  {| account_list := fun _ =>
       Reply (VDict [("entities", VList [server_account "vault" "acc-1";
                                         server_account "vault" "acc-2"])]);
     account_read := fun _ => Reply (server_account "vault" "acc-1");
     account_create := fun name payload _ => Reply payload;
     account_update := fun uuid payload => Reply payload |}.

Definition done1 (_ : value) (_ : option string) : outcome unit := Returned tt.
Definition done2 (_ : value) (_ _ : option string) : outcome unit := Returned tt.
Definition done3 (_ _ : value) (_ _ : option string) : outcome unit := Returned tt.

Definition server_provider (_ : value) : outcome value :=
  Returned (VDict [("metadata", VDict [("uuid", VStr "prov-1")])]).

Definition show (_ : value) : string := "<payload>".

(** A payload read from a JSON file. *)
Definition json_payload : value :=
  VDict [("spec", VDict [("name", VStr "old");
                         ("resources", VDict [("type", VStr "aws")])]);
         ("metadata", VDict [("kind", VStr "account"); ("uuid", VStr "stale")]);
         ("status", VDict [("state", VStr "ACTIVE")])].

(** An "NDB" payload whose variables are known by label. *)
Definition ndb_resources : value :=
  VDict [("type", VStr "NDB");
         ("data", VDict [("variable_list",
                          VList [VDict [("label", VStr "port"); ("value", VStr "5432")];
                                 VDict [("label", VStr "host"); ("value", VStr "db")]])])].

(** The lists [sample_data] declares. *)
Definition auth_schema_list_of (data : dict) : list value :=
  match dict_get data "auth_schema_list" with
  | Some (VList l) => l
  | _ => []
  end.

Definition variables_of (data : dict) : list value :=
  match path (VDict data) ["resource_config"; "variables"] with
  | Some (VList l) => l
  | _ => []
  end.

Definition cred_attrs_of (data : dict) : list value :=
  match path (VDict data) ["resource_config"; "cred_attrs"] with
  | Some (VList l) => l
  | _ => []
  end.

Definition plain_account : user_account :=
  {| __name__ := "AwsAccount"; name := ""; type := "aws";
     get_dict := [("type", VStr "aws"); ("data", VDict [("region", VStr "us")])];
     resources := None |}.

End CommandSamples.

(** ** [calm/dsl/cli/account_commands.py] *)

Module AccountCli.

(** The loop over a [message_list]: every message gets the path and joins
    the collected ones. *)
Definition collect (path : string) (sub_obj : value) (message_list : list value)
  : result (list value) :=
  messages <- py_iter sub_obj ;;
  for_each (fun acc message =>
              message <- py_setitem message "path" (VStr path) ;;
              Ok (acc ++ [message])) messages message_list.

(** [path + ("." if path else "") + name], when [name] is a non-empty
    string. *)
Definition extend_path (path : string) (obj : list (string * value)) : string :=
  match dict_get_default obj "name" (VStr "") with
  | VStr name =>
      if negb (String.eqb name "")
      then (path ++ (if negb (String.eqb path "") then "." else "") ++ name)%string
      else path
  | _ => path
  end.

(** [_get_nested_messages]; the result is [message_list] after the call. *)
Fixpoint _get_nested_messages (path : string) (obj : value)
    (message_list : list value) {struct obj} : result (list value) :=
  match obj with
  | VList l =>
      (fix each (l : list value) (acc : list value) : result (list value) :=
         match l with
         | [] => Ok acc
         | sub_obj :: l' =>
             acc <- _get_nested_messages path sub_obj acc ;; each l' acc
         end) l message_list
  | VDict d =>
      let path := extend_path path d in
      (fix each (items : list (string * value)) (acc : list value)
         : result (list value) :=
         match items with
         | [] => Ok acc
         | (key, sub_obj) :: items' =>
             acc <- (if String.eqb key "message_list"
                     then collect path sub_obj acc
                     else _get_nested_messages path sub_obj acc) ;;
             each items' acc
         end) d message_list
  | _ => Ok message_list
  end.

(** Some key of the tree is "message_list". *)
Fixpoint has_messages (obj : value) : bool :=
  match obj with
  | VList l => existsb has_messages l
  | VDict d =>
      existsb (fun kv => String.eqb (fst kv) "message_list" || has_messages (snd kv)) d
  | _ => false
  end.

(** Every "message_list" of the tree is a list of dicts. *)
Fixpoint wf_messages (obj : value) : bool :=
  match obj with
  | VList l => forallb wf_messages l
  | VDict d =>
      forallb (fun kv =>
                 if String.eqb (fst kv) "message_list"
                 then match snd kv with
                      | VList ms =>
                          forallb (fun m => match m with VDict _ => true | _ => false end) ms
                      | _ => false
                      end
                 else wf_messages (snd kv)) d
  | _ => true
  end.

(** The number of messages in the message lists of the tree. *)
Fixpoint count_messages (obj : value) : nat :=
  match obj with
  | VList l => list_sum (map count_messages l)
  | VDict d =>
      list_sum (map (fun kv =>
                       if String.eqb (fst kv) "message_list"
                       then match snd kv with
                            | VList ms => length ms
                            | _ => 0
                            end
                       else count_messages (snd kv)) d)
  | _ => 0
  end.

(** A message after [message["path"] = path]. *)
Definition with_path (path : string) (message : value) : value :=
  match message with
  | VDict d => VDict (dict_set d "path" (VStr path))
  | _ => message
  end.

(** The messages of the tree's message lists in the order of the walk, each
    once, under the path of the dict that holds its list. *)
Fixpoint messages_of (path : string) (obj : value) : list value :=
  match obj with
  | VList l => flat_map (messages_of path) l
  | VDict d =>
      let path := extend_path path d in
      flat_map (fun kv =>
                  if String.eqb (fst kv) "message_list"
                  then match snd kv with
                       | VList ms => map (with_path path) ms
                       | _ => []
                       end
                  else messages_of path (snd kv)) d
  | _ => []
  end.

(** A message carries a path that continues [path]. *)
Definition under_path (path : string) (message : value) : Prop :=
  exists rest, py_getitem message "path" = Ok (VStr (path ++ rest)).

(** The status of an account created in draft. *)
Definition draft_status : value :=
  VDict [("name", VStr "vault");
         ("message_list", VList [VDict [("message", VStr "bad credentials")]]);
         ("resources",
          VDict [("data",
                  VList [VDict [("name", VStr "host");
                                ("message_list",
                                 VList [VDict [("message", VStr "unreachable")]])]])])].

End AccountCli.

(** ** [get_accounts]: the request *)

Module AccountListing.

(** What [get_accounts] reads before it calls the server. *)
Record listing : Type := {
  name : option string;
  filter_by : option string;
  limit : Z;
  offset : Z;
  all_items : bool;
  account_type : list string;
  stratos_status : bool;          (* stratos_config.get("stratos_status", False) *)
  name_query : string;            (* get_name_query([name]) *)
  states_filter : string;         (* get_states_filter(ACCOUNT.STATES) *)
  at_least_2_9_0 : bool           (* LV(calm_version) >= LV("2.9.0") *)
}.

Definition nonempty (o : option string) : bool :=
  match o with
  | Some s => negb (String.eqb s "")
  | None => false
  end.

Definition text (o : option string) : string :=
  match o with
  | Some s => s
  | None => ""
  end.

(** [q[1:]] when [q.startswith(";")] *)
Definition strip_semicolon (q : string) : string :=
  match q with
  | String ";" q' => q'
  | _ => q
  end.

#[local] Open Scope string_scope.

(** The filter [get_accounts] builds, before it is put into [params]. *)
Definition filter_query (l : listing) : string :=
  let q := "" in
  let q := if stratos_status l then "child_account==true" else q in
  let q := if nonempty (name l) then q ++ ";" ++ name_query l else q in
  let q := if nonempty (filter_by l) then q ++ ";(" ++ text (filter_by l) ++ ")" else q in
  let q := match account_type l with
           | [] => q
           | _ => q ++ ";(type==" ++ String.concat ",type==" (account_type l) ++ ")"
           end in
  let q := if all_items l then q ++ states_filter l else q in
  let q := if at_least_2_9_0 l then q ++ ";type!=nutanix" else q in
  strip_semicolon q.

(** The [params] handed to [client.account.list]. *)
Definition params (l : listing) : list (string * value) :=
  let params := [("length", VInt (limit l)); ("offset", VInt (offset l))] in
  if negb (String.eqb (filter_query l) "")
  then dict_set params "filter" (VStr (filter_query l))
  else params.

Definition by_type : listing :=
  {| name := Some "vault"; filter_by := None; limit := 20; offset := 0;
     all_items := false; account_type := ["aws"; "gcp"]; stratos_status := false;
     name_query := "name==.*vault.*"; states_filter := ""; at_least_2_9_0 := true |}.

End AccountListing.

(** ** [calm/dsl/config/config.py] *)

Module Config.

(** A parsed file: [config.sections()], each with [config.items(section)]. *)
Definition parsed : Type := list (string * list (string * string)).

Inductive error : Type :=
| FileNotFoundError (fmt arg : string)
| ValueError (fmt arg : string)
| KeyError (key : string)
| Invalid (why : string).        (* what [validate_config] raises *)

Inductive outcome (A : Type) : Type :=
| Returned (a : A)
| Raised (e : error).
Arguments Returned {A} a.
Arguments Raised {A} e.

Definition bindC {A B : Type} (o : outcome A) (k : A -> outcome B) : outcome B :=
  match o with
  | Returned a => k a
  | Raised e => Raised e
  end.

Declare Scope config_scope.
Delimit Scope config_scope with config.
Notation "x <- e ;; k" := (bindC e (fun x => k))
  (at level 61, e at next level, right associativity) : config_scope.
#[local] Open Scope config_scope.

(** The files and the validators of [.schema]. *)
Record files : Type := {
  init_file : string;                       (* InitConfig._INIT_FILE_LOCATION *)
  file_exists : string -> bool;             (* os.path.exists *)
  read : string -> parsed;                  (* ConfigParser.read *)
  validate_init_config : parsed -> bool;
  validate_config : parsed -> option error
}.

Fixpoint lookup {A : Type} (l : list (string * A)) (k : string) : option A :=
  match l with
  | [] => None
  | (k', v) :: l' => if String.eqb k' k then Some v else lookup l' k
  end.

(** [InitConfig.get_init_data] *)
Definition get_init_data (fs : files) : outcome parsed :=
  if negb (file_exists fs (init_file fs)) then
    Raised (FileNotFoundError "'{}' not found. Please run: calm init dsl" (init_file fs))
  else
    let init_config := read fs (init_file fs) in
    if negb (validate_init_config fs init_config) then
      Raised (ValueError "Invalid init config file: {}. Please run: calm init dsl"
                (init_file fs))
    else Returned init_config.

(** [ConfigFileParser.__init__]: the sections as a dict of dicts. *)
Definition ConfigFileParser (fs : files) (config_file : string) : outcome dict :=
  let config := read fs config_file in
  match validate_config fs config with
  | Some e => Raised e
  | None =>
      Returned
        (fold_left
           (fun config_obj section =>
              dict_set config_obj (fst section)
                (VDict (fold_left (fun d kv => dict_set d (fst kv) (VStr (snd kv)))
                          (snd section) [])))
           config [])
  end.

(** [get_server_config] and its three siblings of [ConfigFileParser]. *)
Definition get_section (_CONFIG : dict) (section : string) : value :=
  if dict_contains _CONFIG section
  then dict_get_default _CONFIG section VNone
  else VDict [].

Record ConfigHandle : Type := {
  server_config : value;
  project_config : value;
  log_config : value;
  categories_config : value
}.

(** [if config_file:] *)
Definition given (config_file : option string) : bool :=
  match config_file with
  | Some f => negb (String.eqb f "")
  | None => false
  end.

(** [InitConfig.get_init_data()["CONFIG"]["location"]] *)
Definition init_location (fs : files) : outcome string :=
  init_obj <- get_init_data fs ;;
  match lookup init_obj "CONFIG" with
  | Some section =>
      match lookup section "location" with
      | Some location => Returned location
      | None => Raised (KeyError "location")
      end
  | None => Raised (KeyError "CONFIG")
  end.

(** [ConfigHandle.__init__] *)
Definition new_handle (fs : files) (config_file : option string)
  : outcome ConfigHandle :=
  config_file <-
    (match config_file with
     | Some f => if given config_file then Returned f else init_location fs
     | None => init_location fs
     end) ;;
  config_obj <- ConfigFileParser fs config_file ;;
  Returned {| server_config := get_section config_obj "SERVER";
              project_config := get_section config_obj "PROJECT";
              log_config := get_section config_obj "LOG";
              categories_config := get_section config_obj "CATEGORIES" |}.

(** [get_config_handle]: what it returns or raises, and the value of the
    global [_CONFIG_HANDLE] afterwards. *)
Definition get_config_handle (fs : files) (config_file : option string)
    (_CONFIG_HANDLE : option ConfigHandle)
  : outcome ConfigHandle * option ConfigHandle :=
  match _CONFIG_HANDLE with
  | Some handle =>
      if given config_file then
        match new_handle fs config_file with
        | Returned h => (Returned h, Some h)
        | Raised e => (Raised e, _CONFIG_HANDLE)
        end
      else (Returned handle, _CONFIG_HANDLE)
  | None =>
      match new_handle fs config_file with
      | Returned h => (Returned h, Some h)
      | Raised e => (Raised e, _CONFIG_HANDLE)
      end
  end.

(** A machine with one configuration file and a valid init file. *)
Definition one_config : files :=
  {| init_file := "~/.calm/init.ini";
     file_exists := fun f => String.eqb f "~/.calm/init.ini";
     read := fun f =>
       if String.eqb f "~/.calm/init.ini"
       then [("CONFIG", [("location", "~/.calm/config.ini")])]
       else [("SERVER", [("pc_ip", "10.0.0.1"); ("pc_port", "9440")])];
     validate_init_config := fun _ => true;
     validate_config := fun _ => None |}.

(** A machine on which [calm init dsl] was never run. *)
Definition no_init : files :=
  {| init_file := "~/.calm/init.ini";
     file_exists := fun _ => false;
     read := fun _ => [];
     validate_init_config := fun _ => true;
     validate_config := fun _ => None |}.

End Config.

(** ** What [ProjectType.compile] makes of its providers *)

Module ProjectViews.
Import Project.

(** A provider entry of type "nutanix_pc". *)
Definition is_pc (p : value) : bool :=
  match py_getitem p "provider_type" with
  | Ok ty => py_eq_str ty "nutanix_pc"
  | Err _ => false
  end.

(** The subnets a provider entry adds to the project. *)
Definition contributed_subnets (p : value) : list value :=
  if is_pc p then
    match py_getitem p "subnet_reference_list" with
    | Ok items =>
        match py_iter items with
        | Ok xs => xs
        | Err _ => []
        end
    | Err _ => []
    end
  else [].

(** The default subnet a provider entry sets, if any. *)
Definition declared_default (p : value) : option value :=
  if is_pc p then
    match py_getitem p "default_subnet_reference" with
    | Ok ref => Some ref
    | Err _ => None
    end
  else None.

(** The default subnet after a run over the providers: the last one
    declared wins over the project's own. *)
Definition last_default (own : option value) (providers : list value)
  : option value :=
  fold_left
    (fun acc p => match declared_default p with Some ref => Some ref | None => acc end)
    providers own.

(** The providers of a project, in the order the loop visits them. *)
Definition providers_of (cdict : dict) : list value :=
  match py_iter (dict_get_default cdict "provider_list" (VList [])) with
  | Ok ps => ps
  | Err _ => []
  end.

(** Quotas the conversion accepts: absent, falsy, or a mapping whose values
    outside the key "VCPUS" are integers or booleans. *)
Definition wf_quotas (cdict : dict) : bool :=
  match dict_get cdict "quotas" with
  | None => true
  | Some quotas =>
      if py_truthy quotas then
        match quotas with
        | VDict items =>
            forallb (fun kv => String.eqb (fst kv) "VCPUS"
                               || match snd kv with
                                  | VInt _ | VBool _ => true
                                  | _ => false
                                  end) items
        | _ => false
        end
      else true
  end.

(** Keys the hook owns: it writes or removes them. *)
Definition owned : list string :=
  ["account_reference_list"; "provider_list"; "subnet_reference_list";
   "external_network_list"; "default_subnet_reference"; "quotas";
   "resource_domain"; "environment_definition_list"].

(** One step of the provider loop, from [c] to [c'], on the entry [p]. *)
Definition step_summary (c : dict) (p : value) (c' : dict) : Prop :=
  wf_lists c' = true
  /\ (exists l r,
        dict_get c "account_reference_list" = Some (VList l)
        /\ py_getitem p "account_reference" = Ok r
        /\ dict_get c' "account_reference_list" = Some (VList (l ++ [r])))
  /\ (exists base,
        list_or_none (dict_get c "subnet_reference_list") = Some base
        /\ list_or_none (dict_get c' "subnet_reference_list")
           = Some (base ++ contributed_subnets p))
  /\ dict_get c' "default_subnet_reference"
     = match declared_default p with
       | Some ref => Some ref
       | None => dict_get c "default_subnet_reference"
       end
  /\ (forall k, untouched k -> dict_get c' k = dict_get c k)
  /\ (is_pc p = false ->
      forall k, k <> "account_reference_list" -> dict_get c' k = dict_get c k).

(** The two parts of the loop body that are specific to "nutanix_pc". *)
Definition contribute_lists (cdict : dict) (p : dict) : result dict :=
  if dict_contains p "subnet_reference_list" then
    items <- py_getitem (VDict p) "subnet_reference_list" ;;
    extend_key cdict "subnet_reference_list" items
  else if dict_contains p "external_network_list" then
    items <- py_getitem (VDict p) "external_network_list" ;;
    extend_key cdict "external_network_list" items
  else Ok cdict.

Definition set_default (cdict : dict) (p : dict) : result dict :=
  if dict_contains p "default_subnet_reference" then
    ref <- py_getitem (VDict p) "default_subnet_reference" ;;
    Ok (dict_set cdict "default_subnet_reference" ref)
  else Ok cdict.

Definition pc_provider (account subnets default : value) : value :=
  VDict [("provider_type", VStr "nutanix_pc");
         ("account_reference", account);
         ("subnet_reference_list", subnets);
         ("default_subnet_reference", default)].

Definition aws_provider : value :=
  VDict [("provider_type", VStr "aws");
         ("account_reference", VStr "aws-account");
         ("subnet_reference_list", VList [VStr "ignored"])].

(** A project with its own subnet and three providers. *)
Definition wide_project : dict :=
  [("name", VStr "wide");
   ("subnet_reference_list", VList [VStr "own"]);
   ("provider_list",
    VList [pc_provider (VStr "pc1") (VList [VStr "A"; VStr "B"]) (VStr "A");
           aws_provider;
           pc_provider (VStr "pc2") (VList [VStr "C"]) (VStr "C")]);
   ("environment_definition_list", VList [VStr "env"]);
   ("quotas", VDict [("VCPUS", VNone); ("MEMORY", VInt 2)])].

(** A project whose providers are all outside Prism Central. *)
Definition cloud_project : dict :=
  [("name", VStr "cloud");
   ("external_network_list", VList [VStr "net"]);
   ("provider_list", VList [aws_provider])].

(** The entry the conversion writes for an accepted quota: the value under
    "VCPUS" as it is, any other as a number of bytes. *)
Definition quota_limit (kv : string * value) : value :=
  VDict [("limit",
          if String.eqb (fst kv) "VCPUS" then snd kv
          else match snd kv with
               | VInt z => VInt (z * 1073741824)
               | VBool b => VInt ((if b then 1 else 0) * 1073741824)
               | v => v
               end);
         ("resource_type", VStr (fst kv))].

(** A project whose second provider has no type. *)
Definition untyped_provider_project : dict :=
  [("provider_list",
    VList [aws_provider; VDict [("account_reference", VStr "x")]; aws_provider])].

(** A project with a quota left unset. *)
Definition unset_quota_project : dict :=
  [("quotas", VDict [("STORAGE", VInt 5); ("MEMORY", VNone)])].

End ProjectViews.

(** Induction on a value and the values nested in it. *)
Lemma value_nested_ind (P : value -> Prop) :
  P VNone ->
  (forall b, P (VBool b)) ->
  (forall z, P (VInt z)) ->
  (forall s, P (VStr s)) ->
  (forall l, Forall P l -> P (VList l)) ->
  (forall d, Forall (fun kv => P (snd kv)) d -> P (VDict d)) ->
  forall v, P v.
Proof.
  intros Hnone Hbool Hint Hstr Hlist Hdict.
  fix IH 1. intros [| b | z | s | l | d].
  - exact Hnone.
  - apply Hbool.
  - apply Hint.
  - apply Hstr.
  - apply Hlist. induction l as [|x l IHl]; constructor; [apply IH | exact IHl].
  - apply Hdict. induction d as [|[k x] d IHd]; constructor; [apply IH | exact IHd].
Qed.

Module ProviderSpecFacts.
Import ProviderSpec.

Lemma get_resolved validate_spec d cls key kind :
  dict_get_default d "type" (VStr "PROVISION_AHV_VM") = key ->
  map_getitem spec_provider_map key = Ok kind ->
  __get__ validate_spec (VDict d) cls =
    if String.eqb kind (provider_type cls)
    then __validate__ validate_spec (VDict d) (provider_type cls)
    else Err (TypeError (mismatch_message (provider_type cls) kind (__name__ cls))).
Proof.
  intros Hkey Hkind. unfold __get__. cbn [py_get bind].
  rewrite Hkey, Hkind. cbn [bind].
  destruct (String.eqb kind (provider_type cls)); reflexivity.
Qed.

Lemma spec_provider_map_entry kind pt :
  In (kind, pt) spec_provider_map -> assoc spec_provider_map kind = Some pt.
Proof.
  unfold spec_provider_map. cbn [In].
  intros H.
  repeat (destruct H as [H|H]; [injection H as <- <-; reflexivity|]).
  contradiction.
Qed.

(** C4: the descriptor resolves the spec's declared kind through
    [spec_provider_map] and compares the result with the substrate's
    provider type: for every entry (kind, provider type) of the table, a
    spec declaring the kind is handed to the structural validator on a
    substrate of that provider type and raises the mismatch [TypeError] on
    every other.  So a spec of kind "PROVISION_AHV_VM" resolves to
    "AHV_VM": on an "AHV_VM" substrate the result is the structural
    validator's and, once that accepts, the spec itself; on an "AWS_VM"
    substrate it raises the type error whose message carries the
    substrate's type, the resolved spec type and the substrate's name. *)
Theorem ahv_spec_kind_checked validate_spec d kind pt cls :
  dict_get d "type" = Some (VStr kind) ->
  In (kind, pt) spec_provider_map ->
  let spec := VDict d in
  __get__ validate_spec spec cls
  = (if String.eqb pt (provider_type cls)
     then __validate__ validate_spec spec (provider_type cls)
     else Err (TypeError (mismatch_message (provider_type cls) pt (__name__ cls))))
  /\ (kind = "PROVISION_AHV_VM" ->
      pt = "AHV_VM"
      /\ (provider_type cls = "AHV_VM" ->
          __get__ validate_spec spec cls = __validate__ validate_spec spec "AHV_VM"
          /\ (validate_spec "AHV_VM" spec = Ok tt ->
              __get__ validate_spec spec cls = Ok spec))
      /\ (provider_type cls = "AWS_VM" ->
          __get__ validate_spec spec cls =
            Err (TypeError (mismatch_message "AWS_VM" "AHV_VM" (__name__ cls)))
          /\ mismatch_message "AWS_VM" "AHV_VM" (__name__ cls) =
               ("provider type mismatch in substrate(AWS_VM) and spec type(AHV_VM) at "
                  ++ __name__ cls ++ " substrate!!!")%string)).
Proof.
  intros Hty Hin spec.
  apply spec_provider_map_entry in Hin.
  assert (Hkey : dict_get_default d "type" (VStr "PROVISION_AHV_VM") = VStr kind)
    by (unfold dict_get_default; rewrite Hty; reflexivity).
  assert (Hkind : map_getitem spec_provider_map (VStr kind) = Ok pt)
    by (cbn [map_getitem]; now rewrite Hin).
  pose proof (get_resolved validate_spec d cls _ pt Hkey Hkind) as Hget.
  fold spec in Hget. split; [exact Hget|].
  intros ->. assert (Hpt : pt = "AHV_VM") by (cbn in Hin; congruence).
  subst pt. split; [reflexivity|]. split.
  - intros Hcls. rewrite Hcls in Hget. cbn [String.eqb Ascii.eqb] in Hget.
    split; [exact Hget|].
    intros Hacc. rewrite Hget. unfold __validate__. rewrite Hacc. reflexivity.
  - intros Hcls. rewrite Hcls in Hget. split; [exact Hget | reflexivity].
Qed.

Lemma ahv_spec_kind_checked_witness :
  __get__ accept_all ahv_spec ahv_substrate = Ok ahv_spec
  /\ __get__ accept_all ahv_spec
       {| provider_type := "AWS_VM"; __name__ := "AwsSubstrate" |}
     = Err (TypeError
              "provider type mismatch in substrate(AWS_VM) and spec type(AHV_VM) at AwsSubstrate substrate!!!")
  /\ __get__ accept_all (VDict [("type", VStr "PROVISION_AWS_VM")])
       {| provider_type := "AWS_VM"; __name__ := "AwsSubstrate" |}
     = Ok (VDict [("type", VStr "PROVISION_AWS_VM")]).
Proof.
  split; [|split].
  - destruct (ahv_spec_kind_checked accept_all
                [("type", VStr "PROVISION_AHV_VM"); ("name", VStr "vm1")]
                "PROVISION_AHV_VM" "AHV_VM" ahv_substrate
                eq_refl (or_introl eq_refl)) as [_ Hahv].
    destruct (Hahv eq_refl) as (_ & Hsame & _).
    destruct (Hsame eq_refl) as [_ Hok]. exact (Hok eq_refl).
  - destruct (ahv_spec_kind_checked accept_all
                [("type", VStr "PROVISION_AHV_VM"); ("name", VStr "vm1")]
                "PROVISION_AHV_VM" "AHV_VM"
                {| provider_type := "AWS_VM"; __name__ := "AwsSubstrate" |}
                eq_refl (or_introl eq_refl)) as [_ Hahv].
    destruct (Hahv eq_refl) as (_ & _ & Hother).
    destruct (Hother eq_refl) as [Herr _]. exact Herr.
  - destruct (ahv_spec_kind_checked accept_all
                [("type", VStr "PROVISION_AWS_VM")] "PROVISION_AWS_VM" "AWS_VM"
                {| provider_type := "AWS_VM"; __name__ := "AwsSubstrate" |}
                eq_refl
                (or_intror (or_intror (or_intror (or_intror (or_introl eq_refl))))))
      as [Hgen _].
    exact Hgen.
Defined.

(** C8: a spec without a "type" key is checked as kind "PROVISION_AHV_VM":
    on an "AHV_VM" substrate the check passes and the result is the
    structural validator's (the spec itself once that accepts); on every
    other substrate the mismatch error is raised. *)
Theorem untyped_spec_is_ahv validate_spec d cls :
  dict_get d "type" = None ->
  let spec := VDict d in
  (provider_type cls = "AHV_VM" ->
     __get__ validate_spec spec cls = __validate__ validate_spec spec "AHV_VM"
     /\ (validate_spec "AHV_VM" spec = Ok tt ->
         __get__ validate_spec spec cls = Ok spec))
  /\ (provider_type cls <> "AHV_VM" ->
      __get__ validate_spec spec cls =
        Err (TypeError (mismatch_message (provider_type cls) "AHV_VM" (__name__ cls)))).
Proof.
  intros Hty spec.
  assert (Hkey : dict_get_default d "type" (VStr "PROVISION_AHV_VM")
                 = VStr "PROVISION_AHV_VM")
    by (unfold dict_get_default; rewrite Hty; reflexivity).
  pose proof (get_resolved validate_spec d cls _ "AHV_VM" Hkey eq_refl) as Hget.
  fold spec in Hget. split.
  - intros Hpt. rewrite Hpt in Hget. split; [exact Hget|].
    intros Hacc. rewrite Hget. unfold __validate__. rewrite Hacc. reflexivity.
  - intros Hpt. apply not_eq_sym in Hpt. apply String.eqb_neq in Hpt.
    rewrite Hpt in Hget. exact Hget.
Qed.

Lemma untyped_spec_is_ahv_witness :
  __get__ accept_all untyped_spec ahv_substrate = Ok untyped_spec
  /\ __get__ accept_all untyped_spec
       {| provider_type := "GCP_VM"; __name__ := "GcpSubstrate" |} =
     Err (TypeError (mismatch_message "GCP_VM" "AHV_VM" "GcpSubstrate")).
Proof.
  split.
  - apply (untyped_spec_is_ahv accept_all [("name", VStr "vm1")] ahv_substrate);
      reflexivity.
  - apply (untyped_spec_is_ahv accept_all [("name", VStr "vm1")]
             {| provider_type := "GCP_VM"; __name__ := "GcpSubstrate" |});
      [reflexivity | discriminate].
Defined.

Lemma assoc_absent m k : ~ In (VStr k) (keys m) -> assoc m k = None.
Proof.
  induction m as [|[k' v] m IH]; cbn; [reflexivity|].
  intros Hnot. destruct (String.eqb k' k) eqn:E.
  - apply String.eqb_eq in E. subst k'. now contradiction Hnot; left.
  - apply IH. intros Hin. apply Hnot. now right.
Qed.

Lemma map_getitem_absent m key :
  ~ In key (keys m) -> map_getitem m key = Err (lookup_error key).
Proof.
  intros Hnot. destruct key as [| | |k| |]; try reflexivity.
  cbn. now rewrite assoc_absent.
Qed.

(** C9: when the spec's "type" is none of the six keys of
    [spec_provider_map], reading the descriptor raises the lookup's own
    error, a [KeyError] for every hashable value, whatever the substrate
    and the structural validator are; it is never the mismatch
    [TypeError]. *)
Theorem unknown_kind_lookup_error validate_spec d key cls :
  dict_get d "type" = Some key ->
  ~ In key (keys spec_provider_map) ->
  __get__ validate_spec (VDict d) cls = Err (lookup_error key)
  /\ (forall k, key = VStr k -> lookup_error key = KeyError (VStr k))
  /\ forall msg, lookup_error key <> TypeError msg.
Proof.
  intros Hty Hnot. split; [|split].
  - unfold __get__. cbn [py_get bind]. unfold dict_get_default. rewrite Hty.
    now rewrite map_getitem_absent.
  - intros k ->. reflexivity.
  - intros msg. destruct key; discriminate.
Qed.

Lemma unknown_kind_lookup_error_witness :
  __get__ accept_all odd_spec ahv_substrate
  = Err (KeyError (VStr "PROVISION_K8S_POD")).
Proof.
  apply (unknown_kind_lookup_error accept_all
           [("type", VStr "PROVISION_K8S_POD")] (VStr "PROVISION_K8S_POD")
           ahv_substrate);
    [reflexivity | cbn; intuition discriminate].
Defined.

End ProviderSpecFacts.

(** * Properties *)

Module DictFacts.

Lemma dict_get_set_eq (d : dict) k v : dict_get (dict_set d k v) k = Some v.
Proof.
  induction d as [|[k' v'] d IH]; cbn.
  - now rewrite String.eqb_refl.
  - destruct (String.eqb k' k) eqn:E; cbn.
    + now rewrite String.eqb_refl.
    + now rewrite E.
Qed.

Lemma dict_get_set_neq (d : dict) k k' v :
  k <> k' -> dict_get (dict_set d k v) k' = dict_get d k'.
Proof.
  intros Hne. induction d as [|[k0 v0] d IH]; cbn.
  - apply String.eqb_neq in Hne. now rewrite Hne.
  - destruct (String.eqb k0 k) eqn:E; cbn.
    + apply String.eqb_eq in E; subst k0.
      apply String.eqb_neq in Hne. now rewrite Hne.
    + now rewrite IH.
Qed.

Lemma dict_get_del_eq (d : dict) k : dict_get (dict_del d k) k = None.
Proof.
  unfold dict_del.
  induction d as [|[k' v'] d IH]; cbn; [reflexivity|].
  destruct (String.eqb k' k) eqn:E; cbn; [exact IH|].
  now rewrite E.
Qed.

Lemma dict_get_del_neq (d : dict) k k' :
  k <> k' -> dict_get (dict_del d k) k' = dict_get d k'.
Proof.
  intros Hne. unfold dict_del.
  induction d as [|[k0 v0] d IH]; cbn; [reflexivity|].
  destruct (String.eqb k0 k) eqn:E; cbn.
  - apply String.eqb_eq in E; subst k0.
    apply String.eqb_neq in Hne. now rewrite Hne.
  - now rewrite IH.
Qed.

Lemma dict_contains_get (d : dict) k :
  dict_contains d k = true -> exists v, dict_get d k = Some v.
Proof.
  unfold dict_contains. destruct (dict_get d k) as [v|]; [eauto | discriminate].
Qed.

End DictFacts.

Ltac dict_simpl :=
  repeat (rewrite DictFacts.dict_get_set_eq
          || rewrite DictFacts.dict_get_del_eq
          || (rewrite DictFacts.dict_get_set_neq by discriminate)
          || (rewrite DictFacts.dict_get_del_neq by discriminate)).

Module ProjectFacts.
Import Project DictFacts.

Lemma extend_key_ok c key items l xs :
  list_or_none (dict_get c key) = Some l ->
  py_iter items = Ok xs ->
  exists c',
    extend_key c key items = Ok c'
    /\ dict_get c' key = Some (VList (l ++ xs))
    /\ forall k, key <> k -> dict_get c' k = dict_get c k.
Proof.
  intros Hl Hxs. unfold extend_key.
  destruct (dict_get c key) as [v|] eqn:Hget.
  - destruct v; try discriminate; cbn in Hl; injection Hl as <-.
    + cbn [py_getitem bind]. rewrite dict_get_set_eq. cbn [bind]. rewrite Hxs.
      cbn [bind]. eexists; split; [reflexivity|]. split.
      * apply dict_get_set_eq.
      * intros k Hk. now rewrite !dict_get_set_neq.
    + cbn [py_getitem bind]. rewrite Hget. cbn [bind]. rewrite Hxs.
      cbn [bind]. eexists; split; [reflexivity|]. split.
      * apply dict_get_set_eq.
      * intros k Hk. now rewrite dict_get_set_neq.
  - cbn in Hl; injection Hl as <-.
    cbn [py_getitem bind]. rewrite dict_get_set_eq. cbn [bind]. rewrite Hxs.
    cbn [bind]. eexists; split; [reflexivity|]. split.
    + apply dict_get_set_eq.
    + intros k Hk. now rewrite !dict_get_set_neq.
Qed.

Lemma keeps_refl c : wf_lists c = true -> keeps c c.
Proof. intros H. repeat split; auto. Qed.

Lemma keeps_trans c1 c2 c3 : keeps c1 c2 -> keeps c2 c3 -> keeps c1 c3.
Proof.
  intros (_ & Ha & Hu) (Hw & Ha' & Hu'). repeat split; auto.
  - now rewrite Ha'.
  - intros k Hk. now rewrite Hu', Hu.
Qed.

Lemma untouched_neq k k' :
  In k' ["account_reference_list"; "subnet_reference_list";
         "external_network_list"; "default_subnet_reference"] ->
  untouched k -> k' <> k.
Proof. intros Hin Hk ->. exact (Hk Hin). Qed.

Lemma extend_subnets_keeps c items :
  wf_lists c = true -> iterable items = true ->
  exists c', extend_key c "subnet_reference_list" items = Ok c' /\ keeps c c'.
Proof.
  intros Hw Hit. unfold wf_lists in Hw. unfold iterable in Hit.
  destruct (list_or_none (dict_get c "subnet_reference_list")) as [l|] eqn:Hl;
    [|discriminate].
  destruct (list_or_none (dict_get c "external_network_list")) as [e|] eqn:He;
    [|discriminate].
  destruct (py_iter items) as [xs|] eqn:Hxs; [|discriminate].
  destruct (extend_key_ok _ _ _ _ _ Hl Hxs) as (c' & Hc' & Hget & Hother).
  exists c'. split; [exact Hc'|]. repeat split.
  - unfold wf_lists. rewrite Hget. cbn.
    rewrite Hother by discriminate. now rewrite He.
  - apply Hother; discriminate.
  - intros k Hk. apply Hother. apply untouched_neq; cbn; auto.
Qed.

Lemma extend_networks_keeps c items :
  wf_lists c = true -> iterable items = true ->
  exists c', extend_key c "external_network_list" items = Ok c' /\ keeps c c'.
Proof.
  intros Hw Hit. unfold wf_lists in Hw. unfold iterable in Hit.
  destruct (list_or_none (dict_get c "subnet_reference_list")) as [l|] eqn:Hl;
    [|discriminate].
  destruct (list_or_none (dict_get c "external_network_list")) as [e|] eqn:He;
    [|discriminate].
  destruct (py_iter items) as [xs|] eqn:Hxs; [|discriminate].
  destruct (extend_key_ok _ _ _ _ _ He Hxs) as (c' & Hc' & Hget & Hother).
  exists c'. split; [exact Hc'|]. repeat split.
  - unfold wf_lists. rewrite Hget. cbn.
    rewrite Hother by discriminate. now rewrite Hl.
  - apply Hother; discriminate.
  - intros k Hk. apply Hother. apply untouched_neq; cbn; auto.
Qed.

Lemma set_default_subnet_keeps c v :
  wf_lists c = true -> keeps c (dict_set c "default_subnet_reference" v).
Proof.
  intros Hw. repeat split.
  - unfold wf_lists in *. now dict_simpl.
  - now dict_simpl.
  - intros k Hk. apply dict_get_set_neq. apply untouched_neq; cbn; auto.
Qed.

Lemma append_account_keeps c l :
  wf_lists c = true ->
  wf_lists (dict_set c "account_reference_list" (VList l)) = true
  /\ forall k, untouched k ->
       dict_get (dict_set c "account_reference_list" (VList l)) k = dict_get c k.
Proof.
  intros Hw. split.
  - unfold wf_lists in *. now dict_simpl.
  - intros k Hk. apply dict_get_set_neq. apply untouched_neq; cbn; auto.
Qed.

(** One iteration over a well-formed provider raises nothing, appends one
    account reference and keeps every key it does not own. *)
Lemma populate_account_ok c p accs :
  wf_lists c = true ->
  wf_provider p = true ->
  dict_get c "account_reference_list" = Some (VList accs) ->
  exists c' ref,
    populate_account c p = Ok c'
    /\ wf_lists c' = true
    /\ dict_get c' "account_reference_list" = Some (VList (accs ++ [ref]))
    /\ forall k, untouched k -> dict_get c' k = dict_get c k.
Proof.
  intros Hw Hp Haccs. destruct p as [| | | | |d]; try discriminate.
  cbn in Hp. destruct (dict_get d "provider_type") as [ty|] eqn:Hty; [|discriminate].
  apply andb_prop in Hp as [Href Hlists].
  apply dict_contains_get in Href as [ref Href].
  assert (Hstep : exists c1,
    (if py_eq_str ty "nutanix_pc" then
       cdict <-
         (if dict_contains d "subnet_reference_list" then
            items <- py_getitem (VDict d) "subnet_reference_list" ;;
            extend_key c "subnet_reference_list" items
          else if dict_contains d "external_network_list" then
            items <- py_getitem (VDict d) "external_network_list" ;;
            extend_key c "external_network_list" items
          else Ok c) ;;
       if dict_contains d "default_subnet_reference" then
         ref <- py_getitem (VDict d) "default_subnet_reference" ;;
         Ok (dict_set cdict "default_subnet_reference" ref)
       else Ok cdict
     else Ok c) = Ok c1 /\ keeps c c1).
  { destruct (py_eq_str ty "nutanix_pc");
      [|exists c; split; [reflexivity | now apply keeps_refl]].
    assert (Hlist : exists c1,
      (if dict_contains d "subnet_reference_list" then
         items <- py_getitem (VDict d) "subnet_reference_list" ;;
         extend_key c "subnet_reference_list" items
       else if dict_contains d "external_network_list" then
         items <- py_getitem (VDict d) "external_network_list" ;;
         extend_key c "external_network_list" items
       else Ok c) = Ok c1 /\ keeps c c1).
    { unfold dict_contains. cbn [py_getitem].
      destruct (dict_get d "subnet_reference_list") as [items|].
      - cbn [bind]. now apply extend_subnets_keeps.
      - destruct (dict_get d "external_network_list") as [items|].
        + cbn [bind]. now apply extend_networks_keeps.
        + exists c; split; [reflexivity | now apply keeps_refl]. }
    destruct Hlist as (c1 & -> & Hk1). cbn [bind].
    unfold dict_contains. cbn [py_getitem].
    destruct (dict_get d "default_subnet_reference") as [dflt|].
    - cbn [bind]. eexists; split; [reflexivity|].
      eapply keeps_trans; [exact Hk1|].
      apply set_default_subnet_keeps. apply Hk1.
    - exists c1. split; [reflexivity | exact Hk1]. }
  destruct Hstep as (c1 & Hc1 & Hw1 & Ha1 & Hu1).
  assert (Hgty : py_getitem (VDict d) "provider_type" = Ok ty)
    by (cbn; now rewrite Hty).
  assert (Hgref : py_getitem (VDict d) "account_reference" = Ok ref)
    by (cbn; now rewrite Href).
  assert (Hgacc : py_getitem (VDict c1) "account_reference_list" = Ok (VList accs))
    by (cbn; now rewrite Ha1, Haccs).
  unfold populate_account. rewrite Hgty. cbn [bind].
  rewrite Hc1. cbn [bind]. rewrite Hgacc. cbn [bind]. rewrite Hgref.
  cbn [bind]. destruct (append_account_keeps c1 (accs ++ [ref]) Hw1) as [Hw2 Hu2].
  eexists; exists ref. split; [reflexivity|]. repeat split.
  - exact Hw2.
  - apply dict_get_set_eq.
  - intros k Hk. now rewrite Hu2, Hu1.
Qed.

Lemma provider_loop_ok providers : forall c accs,
  wf_lists c = true ->
  forallb wf_provider providers = true ->
  dict_get c "account_reference_list" = Some (VList accs) ->
  exists c',
    for_each populate_account providers c = Ok c'
    /\ forall k, untouched k -> dict_get c' k = dict_get c k.
Proof.
  induction providers as [|p ps IH]; intros c accs Hw Hps Haccs.
  - exists c. split; [reflexivity | auto].
  - cbn in Hps. apply andb_prop in Hps as [Hp Hps].
    destruct (populate_account_ok c p accs Hw Hp Haccs)
      as (c1 & ref & Hc1 & Hw1 & Ha1 & Hu1).
    destruct (IH c1 _ Hw1 Hps Ha1) as (c2 & Hc2 & Hu2).
    exists c2. split.
    + cbn [for_each]. rewrite Hc1. exact Hc2.
    + intros k Hk. now rewrite Hu2, Hu1.
Qed.

Lemma quota_loop quotas : forall acc,
  for_each quota_resource (map (fun q => (fst q, VInt (snd q))) quotas) acc
  = Ok (acc ++ map quota_entry quotas).
Proof.
  induction quotas as [|[k z] qs IH]; intros acc; cbn [map for_each].
  - now rewrite app_nil_r.
  - unfold quota_resource at 1, quota_entry at 1. cbn [fst snd].
    destruct (String.eqb k "VCPUS"); cbn [negb py_imul bind];
      rewrite IH, <- app_assoc; reflexivity.
Qed.

(** The dictionary the quota conversion starts from: the provider loop has
    run and has kept every key it does not own. *)
Lemma compile_reaches_quotas cdict :
  wf_project cdict = true ->
  exists c1,
    compile cdict =
      (let (quotas, cdict) := dict_pop c1 "quotas" VNone in
       cdict <-
         (if py_truthy quotas then
            match quotas with
            | VDict items =>
                project_resources <- for_each quota_resource items [] ;;
                Ok (dict_set cdict "resource_domain"
                      (VDict [("resources", VList project_resources)]))
            | _ => Err (AttributeError "items")
            end
          else Ok cdict) ;;
       let (_, cdict) := dict_pop cdict "environment_definition_list" VNone in
       Ok cdict)
    /\ dict_get c1 "quotas" = dict_get cdict "quotas"
    /\ dict_get c1 "resource_domain" = dict_get cdict "resource_domain".
Proof.
  intros Hwf. unfold wf_project in Hwf. apply andb_prop in Hwf as [Hw Hps].
  destruct (py_iter (dict_get_default cdict "provider_list" (VList [])))
    as [providers|] eqn:Hiter; [|discriminate].
  set (c0 := dict_del (dict_set cdict "account_reference_list" (VList []))
               "provider_list").
  assert (Hw0 : wf_lists c0 = true)
    by (unfold wf_lists in *; subst c0; now dict_simpl).
  assert (Ha0 : dict_get c0 "account_reference_list" = Some (VList []))
    by (subst c0; now dict_simpl).
  destruct (provider_loop_ok providers c0 [] Hw0 Hps Ha0) as (c1 & Hc1 & Hu1).
  exists c1. split; [|split].
  - unfold compile. unfold dict_pop at 1. cbv beta iota. fold c0.
    rewrite dict_get_set_neq by discriminate.
    fold (dict_get_default cdict "provider_list" (VList [])).
    rewrite Hiter. cbn [bind]. rewrite Hc1. cbn [bind]. reflexivity.
  - rewrite Hu1 by (unfold untouched; cbn; intuition discriminate).
    subst c0. now dict_simpl.
  - rewrite Hu1 by (unfold untouched; cbn; intuition discriminate).
    subst c0. now dict_simpl.
Qed.

(** C1 (amended): for a project whose quotas mapping is not empty, compile
    removes the quotas field and sets [resource_domain.resources] to one
    entry per quota key, the limit being the declared value times
    1073741824, or the declared value itself under the key "VCPUS"; for an
    empty quotas mapping it removes the field and leaves [resource_domain]
    as it was. *)
Theorem quotas_scaled cdict quotas :
  wf_project cdict = true ->
  dict_get cdict "quotas" = Some (declared_quotas quotas) ->
  (quotas <> [] -> quotas_converted cdict quotas)
  /\ (quotas = [] ->
      exists out,
        compile cdict = Ok out
        /\ dict_get out "quotas" = None
        /\ dict_get out "resource_domain" = dict_get cdict "resource_domain").
Proof.
  intros Hwf Hq.
  destruct (compile_reaches_quotas cdict Hwf) as (c1 & Hcompile & Hq1 & Hrd1).
  rewrite Hq in Hq1. unfold dict_pop in Hcompile. rewrite Hq1 in Hcompile.
  cbv beta iota in Hcompile. split.
  - intros Hne. destruct quotas as [|q qs]; [congruence|].
    unfold declared_quotas in Hcompile.
    change (py_truthy (VDict (map (fun q => (fst q, VInt (snd q))) (q :: qs))))
      with true in Hcompile.
    cbv iota in Hcompile. rewrite quota_loop in Hcompile. cbn [bind app] in Hcompile.
    eexists. split; [exact Hcompile|]. split; now dict_simpl.
  - intros ->. cbn in Hcompile.
    eexists. split; [exact Hcompile|]. split; dict_simpl; auto.
Qed.

Lemma quotas_scaled_witness :
  quotas_converted sample_project [("STORAGE", 5%Z); ("VCPUS", 2%Z)]
  /\ map quota_entry [("STORAGE", 5%Z); ("VCPUS", 2%Z)]
     = [VDict [("limit", VInt 5368709120); ("resource_type", VStr "STORAGE")];
        VDict [("limit", VInt 2); ("resource_type", VStr "VCPUS")]].
Proof.
  split; [|reflexivity].
  apply (quotas_scaled sample_project [("STORAGE", 5%Z); ("VCPUS", 2%Z)]);
    [reflexivity | reflexivity | discriminate].
Defined.

(** C1, as stated, fails on a project that declares an empty quotas
    mapping: the guard [if quotas:] skips the conversion, so no
    [resource_domain] is produced. *)
Lemma empty_quotas_not_converted :
  wf_project empty_quotas_project = true
  /\ dict_get empty_quotas_project "quotas" = Some (declared_quotas [])
  /\ ~ quotas_converted empty_quotas_project [].
Proof.
  split; [reflexivity|]. split; [reflexivity|].
  intros (out & Hout & _ & Hrd). vm_compute in Hout.
  injection Hout as <-. discriminate Hrd.
Qed.

Lemma extend_key_other c key items c' k :
  extend_key c key items = Ok c' -> key <> k -> dict_get c' k = dict_get c k.
Proof.
  unfold extend_key. intros H Hk.
  set (c0 := match dict_get c key with
             | None | Some VNone => dict_set c key (VList [])
             | Some _ => c
             end) in *.
  assert (H0 : dict_get c0 k = dict_get c k).
  { subst c0. destruct (dict_get c key) as [[| | | | |]|];
      try reflexivity; now apply dict_get_set_neq. }
  destruct (py_getitem (VDict c0) key) as [[| | | |l|]|]; try discriminate.
  cbn [bind] in H. destruct (py_iter items) as [xs|]; [|discriminate].
  cbn [bind] in H. injection H as <-. now rewrite dict_get_set_neq.
Qed.

(** Whenever a "nutanix_pc" provider declares its subnets, the iteration
    leaves the project's external networks as they were, whatever the
    provider declares for them. *)
Lemma networks_skipped_after_subnets c d c' :
  dict_get d "provider_type" = Some (VStr "nutanix_pc") ->
  dict_contains d "subnet_reference_list" = true ->
  populate_account c (VDict d) = Ok c' ->
  dict_get c' "external_network_list" = dict_get c "external_network_list".
Proof.
  intros Hty Hsub. unfold populate_account.
  assert (Hgty : py_getitem (VDict d) "provider_type" = Ok (VStr "nutanix_pc"))
    by (cbn; now rewrite Hty).
  rewrite Hgty. cbn [bind]. change (py_eq_str (VStr "nutanix_pc") "nutanix_pc") with true.
  cbv iota. rewrite Hsub.
  destruct (py_getitem (VDict d) "subnet_reference_list") as [items|];
    [|discriminate].
  cbn [bind]. destruct (extend_key c "subnet_reference_list" items) as [c1|] eqn:Hc1;
    [|discriminate].
  cbn [bind]. pose proof (extend_key_other _ _ _ _ "external_network_list" Hc1) as H1.
  assert (Hstep : forall c2,
    (if dict_contains d "default_subnet_reference" then
       ref <- py_getitem (VDict d) "default_subnet_reference" ;;
       Ok (dict_set c1 "default_subnet_reference" ref)
     else Ok c1) = Ok c2 ->
    dict_get c2 "external_network_list" = dict_get c1 "external_network_list").
  { intros c2. destruct (dict_contains d "default_subnet_reference").
    - destruct (py_getitem (VDict d) "default_subnet_reference"); [|discriminate].
      cbn [bind]. intros [= <-]. now dict_simpl.
    - now intros [= <-]. }
  destruct (if dict_contains d "default_subnet_reference" then _ else _)
    as [c2|]; [|discriminate].
  specialize (Hstep c2 eq_refl). cbn [bind].
  destruct (py_getitem (VDict c2) "account_reference_list") as [[| | | |l|]|];
    try discriminate.
  cbn [bind]. destruct (py_getitem (VDict d) "account_reference"); [|discriminate].
  cbn [bind]. intros [= <-]. dict_simpl. rewrite Hstep. apply H1. discriminate.
Qed.

(** C5: a "nutanix_pc" provider that declares both lists contributes its
    subnets only; the [elif] skips its external networks, and the compiled
    project has no [external_network_list]. *)
Theorem both_lists_networks_dropped :
  exists out,
    compile both_lists_project = Ok out
    /\ out = [("name", VStr "demo");
              ("account_reference_list", VList [VStr "pc"]);
              ("subnet_reference_list", VList [VStr "A"; VStr "B"])]
    /\ dict_get out "subnet_reference_list" = Some (VList [VStr "A"; VStr "B"])
    /\ dict_get out "external_network_list" = None.
Proof.
  eexists. split; [vm_compute; reflexivity|]. repeat split.
Qed.

End ProjectFacts.

Module AccountsFacts.
Import Accounts DictFacts.

(** *** The monad *)

Lemma bindM_ok {A B} (m : M A) (k : A -> M B) n a n' :
  m n = Ok (a, n') -> bindM m k n = k a n'.
Proof. intros H. unfold bindM. now rewrite H. Qed.

Lemma lift_ok {A} (r : result A) a n : r = Ok a -> lift r n = Ok (a, n).
Proof. intros ->. reflexivity. Qed.

Section Loops.

Variable uuid4 : nat -> string.

(** A loop whose body draws one identifier per entry. *)
Lemma mapM_stamp (body : value -> M value) (f : string -> value -> value)
    (P : value -> bool) :
  (forall x n, P x = true -> body x n = Ok (f (uuid4 n) x, S n)) ->
  forall l n, forallb P l = true ->
    mapM body l n = Ok (stamp_from uuid4 f n l, n + length l).
Proof.
  intros Hbody. induction l as [|x l IH]; intros n Hl; cbn [mapM stamp_from length].
  - unfold ret. now rewrite Nat.add_0_r.
  - cbn in Hl. apply andb_prop in Hl as [Hx Hl].
    rewrite (bindM_ok _ _ _ _ _ (Hbody x n Hx)).
    rewrite (bindM_ok _ _ _ _ _ (IH (S n) Hl)).
    unfold ret. do 2 f_equal. lia.
Qed.

(** A loop whose body draws none. *)
Lemma mapM_pure (body : value -> M value) (g : value -> value)
    (P : value -> bool) :
  (forall x n, P x = true -> body x n = Ok (g x, n)) ->
  forall l n, forallb P l = true -> mapM body l n = Ok (map g l, n).
Proof.
  intros Hbody. induction l as [|x l IH]; intros n Hl; cbn [mapM map].
  - reflexivity.
  - cbn in Hl. apply andb_prop in Hl as [Hx Hl].
    rewrite (bindM_ok _ _ _ _ _ (Hbody x n Hx)).
    rewrite (bindM_ok _ _ _ _ _ (IH n Hl)). reflexivity.
Qed.

Lemma stamp_from_length f l : forall n,
  length (stamp_from uuid4 f n l) = length l.
Proof. induction l as [|x l IH]; intros n; cbn; [reflexivity | now rewrite IH]. Qed.

Lemma stamp_from_nth f l : forall n i x',
  nth_error (stamp_from uuid4 f n l) i = Some x' ->
  exists x, nth_error l i = Some x /\ x' = f (uuid4 (n + i)) x.
Proof.
  induction l as [|x l IH]; intros n i x' Hnth.
  - destruct i; discriminate.
  - destruct i as [|i]; cbn in Hnth.
    + injection Hnth as <-. exists x. rewrite Nat.add_0_r. now split.
    + destruct (IH (S n) i x' Hnth) as (y & Hy & ->).
      exists y. split; [exact Hy|]. now rewrite Nat.add_succ_r.
Qed.

Lemma stamp_from_Forall2 (R : value -> value -> Prop) f l :
  (forall u x, In x l -> R x (f u x)) ->
  forall n, Forall2 R l (stamp_from uuid4 f n l).
Proof.
  induction l as [|x l IH]; intros Hf n; cbn; constructor.
  - apply Hf. now left.
  - apply IH. intros u y Hy. apply Hf. now right.
Qed.

End Loops.

(** *** The loop bodies *)

Lemma is_variable_inv x :
  is_variable x = true ->
  exists d ty, x = VDict d /\ dict_get d "type" = Some ty.
Proof.
  destruct x as [| | | | |d]; try discriminate. cbn. intros H.
  apply dict_contains_get in H as [ty H]. eauto.
Qed.

Lemma mark_secret_ok x : is_variable x = true -> mark_secret x = Ok (marked x).
Proof.
  intros H. apply is_variable_inv in H as (d & ty & -> & Hty).
  unfold mark_secret, marked, dict_get_default. cbn [py_getitem].
  rewrite Hty. cbn [bind]. destruct (py_eq_str ty "SECRET"); reflexivity.
Qed.

Lemma is_variable_with_key k v x :
  k <> "type" -> is_variable x = true -> is_variable (with_key k v x) = true.
Proof.
  intros Hk H. apply is_variable_inv in H as (d & ty & -> & Hty).
  cbn. unfold dict_contains. rewrite dict_get_set_neq by exact Hk. now rewrite Hty.
Qed.

Lemma is_variable_marked x : is_variable x = true -> is_variable (marked x) = true.
Proof.
  intros H. pose proof H as H'. apply is_variable_inv in H' as (d & ty & -> & Hty).
  cbn. destruct (py_eq_str _ _); [|exact H].
  cbn. unfold dict_contains. rewrite dict_get_set_neq by discriminate.
  now rewrite Hty.
Qed.

Lemma setitem_variable k v x :
  is_variable x = true -> py_setitem x k v = Ok (with_key k v x).
Proof. intros H. apply is_variable_inv in H as (d & ty & -> & _). reflexivity. Qed.

Section Bodies.

Variable uuid4 : nat -> string.

Lemma set_uuid_ok x n :
  is_variable x = true -> set_uuid uuid4 x n = Ok (with_uuid (uuid4 n) x, S n).
Proof.
  intros H. unfold set_uuid, fresh_uuid, bindM.
  apply lift_ok. now apply setitem_variable.
Qed.

Lemma stamp_auth_schema_ok x n :
  is_variable x = true ->
  stamp_auth_schema uuid4 x n = Ok (stamped_auth_schema (uuid4 n) x, S n).
Proof.
  intros H. unfold stamp_auth_schema.
  rewrite (bindM_ok _ _ _ _ _ (lift_ok _ _ n (setitem_variable "value" (VStr "") x H))).
  assert (H1 : is_variable (with_key "value" (VStr "") x) = true)
    by (apply is_variable_with_key; [discriminate | exact H]).
  rewrite (bindM_ok _ _ _ _ _ (set_uuid_ok _ n H1)).
  apply lift_ok. apply mark_secret_ok.
  apply is_variable_with_key; [discriminate | exact H1].
Qed.

Lemma stamp_variable_ok x n :
  is_variable x = true ->
  stamp_variable uuid4 x n = Ok (stamped_variable (uuid4 n) x, S n).
Proof.
  intros H. unfold stamp_variable.
  rewrite (bindM_ok _ _ _ _ _ (set_uuid_ok _ n H)).
  apply lift_ok. apply mark_secret_ok.
  apply is_variable_with_key; [discriminate | exact H].
Qed.

End Bodies.

(** *** Well-formed declarations *)

Lemma variables_at_inv d k l :
  variables_at d k = Some l ->
  py_get (VDict d) k (VList []) = Ok (VList l) /\ forallb is_variable l = true.
Proof.
  unfold variables_at, py_get, dict_get_default.
  destruct (dict_get d k) as [v|].
  - destruct v as [| | | |l0|]; try discriminate.
    destruct (forallb is_variable l0) eqn:Hl0; [|discriminate].
    intros [= <-]. now split.
  - intros [= <-]. now split.
Qed.

Lemma declared_inv ua dcl :
  declared ua = Some dcl ->
  exists data rc res,
    dict_get_default (get_dict ua) "data" (VDict []) = VDict data
    /\ dict_get_default data "resource_config" (VDict []) = VDict rc
    /\ resources ua = Some res
    /\ variables_at data "auth_schema_list" = Some (auth_schema dcl)
    /\ variables_at rc "variables" = Some (variables dcl)
    /\ variables_at rc "cred_attrs" = Some (cred_attrs dcl)
    /\ py_copy (dict_get_default rc "action_list" (VList [])) = Ok (action_list dcl)
    /\ variables_at res "auth_schema_list" = Some (account_variables dcl).
Proof.
  unfold declared. intros H.
  destruct (dict_get_default (get_dict ua) "data" (VDict []))
    as [| | | | |data] eqn:Hdata; try discriminate.
  destruct (dict_get_default data "resource_config" (VDict []))
    as [| | | | |rc] eqn:Hrc; try discriminate.
  destruct (variables_at data "auth_schema_list") as [la|] eqn:Hla; [|discriminate].
  destruct (variables_at rc "variables") as [lv|] eqn:Hlv; [|discriminate].
  destruct (variables_at rc "cred_attrs") as [lc|] eqn:Hlc; [|discriminate].
  destruct (py_copy (dict_get_default rc "action_list" (VList [])))
    as [acts|] eqn:Hacts; [|discriminate].
  destruct (resources ua) as [res|] eqn:Hres; [|discriminate].
  destruct (variables_at res "auth_schema_list") as [lr|] eqn:Hlr; [|discriminate].
  injection H as <-. exists data, rc, res. cbn. repeat split; assumption.
Qed.

Lemma get_copy_variables d k l :
  variables_at d k = Some l ->
  (x <- py_get (VDict d) k (VList []) ;; py_copy x)%result = Ok (VList l).
Proof.
  intros H. apply variables_at_inv in H as [-> _]. reflexivity.
Qed.

(** *** The builders on well-formed declarations *)

Section BuilderFacts.

Variable uuid4 : nat -> string.
Variable insert_uuid : value -> M value.

Lemma for_each_in_list (body : value -> M value) l l' n n' :
  mapM body l n = Ok (l', n') ->
  for_each_in body (VList l) n = Ok (VList l', n').
Proof.
  intros H. unfold for_each_in. now rewrite (bindM_ok _ _ _ _ _ H).
Qed.

Lemma create_provider_payload_ok ua dcl n :
  declared ua = Some dcl ->
  create_provider_payload uuid4 ua n =
    Ok (provider_payload_of uuid4 ua dcl n, S n + length (auth_schema dcl)).
Proof.
  intros H. apply declared_inv in H
    as (data & rc & res & Hdata & _ & _ & Hla & _).
  unfold create_provider_payload.
  rewrite (bindM_ok _ _ n (VStr (uuid4 n)) (S n) eq_refl).
  rewrite Hdata.
  rewrite (bindM_ok _ _ _ _ _ (lift_ok _ _ (S n) (get_copy_variables _ _ _ Hla))).
  apply variables_at_inv in Hla as [_ Hla].
  rewrite (bindM_ok _ _ _ _ _
             (for_each_in_list _ _ _ _ _
                (mapM_stamp uuid4 _ _ _ (stamp_auth_schema_ok uuid4) _ (S n) Hla))).
  reflexivity.
Qed.

Lemma forallb_marked l :
  forallb is_variable l = true -> forallb is_variable (map marked l) = true.
Proof.
  induction l as [|x l IH]; cbn; [reflexivity|].
  intros H. apply andb_prop in H as [Hx Hl].
  now rewrite is_variable_marked, IH.
Qed.

Lemma create_resource_type_payload_ok ua dcl provider_uuid n actions n' :
  declared ua = Some dcl ->
  insert_uuid (action_list dcl) (S n) = Ok (actions, n') ->
  create_resource_type_payload uuid4 insert_uuid ua provider_uuid n =
    Ok (resource_type_payload_of uuid4 ua dcl provider_uuid n actions n',
        n' + length (variables dcl) + length (cred_attrs dcl)).
Proof.
  intros H Hins. apply declared_inv in H
    as (data & rc & res & Hdata & Hrc & _ & _ & Hlv & Hlc & Hacts & _).
  unfold create_resource_type_payload.
  rewrite (bindM_ok _ _ n (VStr (uuid4 n)) (S n) eq_refl).
  rewrite Hdata. cbn [py_get]. rewrite Hrc.
  rewrite (bindM_ok _ _ (S n) (VDict rc) (S n) eq_refl).
  rewrite (bindM_ok _ _ _ _ _ (lift_ok _ _ (S n) (get_copy_variables _ _ _ Hlv))).
  rewrite (bindM_ok _ _ _ _ _ (lift_ok _ _ (S n) (get_copy_variables _ _ _ Hlc))).
  apply variables_at_inv in Hlv as [_ Hlv].
  apply variables_at_inv in Hlc as [_ Hlc].
  assert (Hmark : forall x k, is_variable x = true ->
                    lift (mark_secret x) k = Ok (marked x, k))
    by (intros x k Hx; apply lift_ok, mark_secret_ok, Hx).
  rewrite (bindM_ok _ _ _ _ _
             (for_each_in_list _ _ _ _ _ (mapM_pure _ _ _ Hmark _ (S n) Hlv))).
  rewrite (bindM_ok _ _ _ _ _
             (for_each_in_list _ _ _ _ _ (mapM_pure _ _ _ Hmark _ (S n) Hlc))).
  rewrite (bindM_ok _ _ _ _ _ (lift_ok _ _ (S n) Hacts)).
  rewrite (bindM_ok _ _ _ _ _ Hins).
  rewrite (bindM_ok _ _ _ _ _
             (for_each_in_list _ _ _ _ _
                (mapM_stamp uuid4 _ _ _ (set_uuid_ok uuid4) _ n'
                   (forallb_marked _ Hlv)))).
  rewrite (bindM_ok _ _ _ _ _
             (for_each_in_list _ _ _ _ _
                (mapM_stamp uuid4 _ _ _ (set_uuid_ok uuid4) _ _
                   (forallb_marked _ Hlc)))).
  unfold ret, resource_type_payload_of. now rewrite !length_map.
Qed.

(** The bundle of a well-formed declaration, in closed form. *)
Lemma create_credential_provider_account_payload_ok ua dcl n actions n' :
  declared ua = Some dcl ->
  insert_uuid (action_list dcl) (S (S n + length (auth_schema dcl)))
    = Ok (actions, n') ->
  let provider_uuid := VStr (uuid4 n) in
  let provider_reference :=
    VDict [("kind", VStr "provider"); ("uuid", provider_uuid)] in
  let m := S n + length (auth_schema dcl) in
  let k := n' + length (variables dcl) + length (cred_attrs dcl) in
  create_credential_provider_account_payload uuid4 insert_uuid ua n =
    Ok (VDict
          [("provider", provider_payload_of uuid4 ua dcl n);
           ("resource_type",
            resource_type_payload_of uuid4 ua dcl provider_uuid m actions n');
           ("account", account_payload_of uuid4 ua dcl provider_reference k)],
        S k + length (account_variables dcl)).
Proof.
  intros H Hins provider_uuid provider_reference m k.
  unfold create_credential_provider_account_payload.
  rewrite (bindM_ok _ _ _ _ _ (create_provider_payload_ok ua dcl n H)).
  rewrite (bindM_ok _ _ m provider_uuid m eq_refl).
  rewrite (bindM_ok _ _ _ _ _
             (create_resource_type_payload_ok ua dcl provider_uuid m _ _ H Hins)).
  fold k. rewrite (bindM_ok _ _ k (VStr (uuid4 k)) (S k) eq_refl).
  apply declared_inv in H as (data & rc & res & _ & _ & Hres & _ & _ & _ & _ & Hlr).
  rewrite Hres.
  rewrite (bindM_ok _ _ (S k) (VDict res) (S k) eq_refl).
  pose proof (variables_at_inv _ _ _ Hlr) as [Hget Hwf].
  rewrite (bindM_ok _ _ _ _ _ (lift_ok _ _ (S k) Hget)).
  rewrite (bindM_ok _ _ _ _ _
             (for_each_in_list _ _ _ _ _
                (mapM_stamp uuid4 _ _ _ (stamp_variable_ok uuid4) _ (S k) Hwf))).
  rewrite (bindM_ok _ _ _ provider_reference _ eq_refl).
  reflexivity.
Qed.

End BuilderFacts.

(** *** Entries after stamping *)

Lemma getitem_with_key k v x k' :
  k <> k' -> py_getitem (with_key k v x) k' = py_getitem x k'.
Proof.
  intros Hk. destruct x as [| | | | |d]; try reflexivity.
  cbn. now rewrite dict_get_set_neq.
Qed.

Lemma getitem_with_key_eq k v x :
  is_variable x = true -> py_getitem (with_key k v x) k = Ok v.
Proof.
  intros H. apply is_variable_inv in H as (d & ty & -> & _).
  cbn. now rewrite dict_get_set_eq.
Qed.

Lemma getitem_marked x k :
  "attrs" <> k -> py_getitem (marked x) k = py_getitem x k.
Proof.
  intros Hk. destruct x as [| | | | |d]; try reflexivity.
  cbn. destruct (py_eq_str _ _); [|reflexivity].
  cbn. now rewrite dict_get_set_neq.
Qed.

Lemma secret_marked_marked x : is_variable x = true -> secret_marked x (marked x).
Proof.
  intros H. apply is_variable_inv in H as (d & ty & -> & Hty).
  unfold secret_marked. split; [apply getitem_marked; discriminate|].
  cbn. unfold dict_get_default. rewrite Hty.
  destruct (py_eq_str ty "SECRET"); [|reflexivity].
  cbn. now rewrite dict_get_set_eq.
Qed.

Lemma secret_marked_stamped_auth_schema u x :
  is_variable x = true -> secret_marked x (stamped_auth_schema u x).
Proof.
  intros H. unfold stamped_auth_schema.
  set (y := with_key "uuid" (VStr u) (with_key "value" (VStr "") x)).
  assert (Hy : is_variable y = true)
    by (subst y; repeat apply is_variable_with_key; (discriminate || exact H)).
  pose proof (secret_marked_marked y Hy) as Hm. unfold secret_marked in *.
  subst y. rewrite !getitem_with_key in Hm by discriminate. exact Hm.
Qed.

Lemma secret_marked_stamped_variable u x :
  is_variable x = true -> secret_marked x (stamped_variable u x).
Proof.
  intros H. unfold stamped_variable.
  set (y := with_key "uuid" (VStr u) x).
  assert (Hy : is_variable y = true)
    by (subst y; apply is_variable_with_key; (discriminate || exact H)).
  pose proof (secret_marked_marked y Hy) as Hm. unfold secret_marked in *.
  subst y. rewrite !getitem_with_key in Hm by discriminate. exact Hm.
Qed.

Lemma secret_marked_with_uuid u x :
  is_variable x = true -> secret_marked x (with_uuid u (marked x)).
Proof.
  intros H. pose proof (secret_marked_marked x H) as Hm.
  unfold secret_marked, with_uuid in *.
  now rewrite !getitem_with_key by discriminate.
Qed.

Lemma uuid_of_stamped_auth_schema u x :
  is_variable x = true -> uuid_of (stamped_auth_schema u x) = Ok (VStr u).
Proof.
  intros H. unfold uuid_of, stamped_auth_schema.
  rewrite getitem_marked by discriminate. apply getitem_with_key_eq.
  apply is_variable_with_key; [discriminate | exact H].
Qed.

Lemma uuid_of_stamped_variable u x :
  is_variable x = true -> uuid_of (stamped_variable u x) = Ok (VStr u).
Proof.
  intros H. unfold uuid_of, stamped_variable.
  rewrite getitem_marked by discriminate. now apply getitem_with_key_eq.
Qed.

Lemma uuid_of_with_uuid u x :
  is_variable x = true -> uuid_of (with_uuid u (marked x)) = Ok (VStr u).
Proof.
  intros H. unfold uuid_of, with_uuid. apply getitem_with_key_eq.
  now apply is_variable_marked.
Qed.

Lemma value_of_stamped_auth_schema u x :
  is_variable x = true ->
  py_getitem (stamped_auth_schema u x) "value" = Ok (VStr "").
Proof.
  intros H. unfold stamped_auth_schema.
  rewrite getitem_marked by discriminate.
  rewrite getitem_with_key by discriminate.
  now apply getitem_with_key_eq.
Qed.

Lemma forallb_In (P : value -> bool) l x :
  forallb P l = true -> In x l -> P x = true.
Proof. intros H Hx. rewrite forallb_forall in H. now apply H. Qed.

Section Stamped.

Variable uuid4 : nat -> string.

Lemma stamp_from_map f g l : forall n,
  stamp_from uuid4 f n (map g l) = stamp_from uuid4 (fun u x => f u (g x)) n l.
Proof. induction l as [|x l IH]; intros n; cbn; [reflexivity | now rewrite IH]. Qed.


Hypothesis uuid4_inj : forall i j, uuid4 i = uuid4 j -> i = j.
Hypothesis uuid4_nonempty : forall i, uuid4 i <> "".


End Stamped.

(** *** The sample supply *)

Lemma demo_uuid4_inj i j : demo_uuid4 i = demo_uuid4 j -> i = j.
Proof.
  unfold demo_uuid4. cbn [String.append]. intros H.
  injection H as H. apply (f_equal NilEmpty.uint_of_string) in H.
  rewrite !NilEmpty.usu in H. injection H as H.
  now apply Unsigned.to_uint_inj.
Qed.


(** *** Bundles *)

Section Claims.

Variable uuid4 : nat -> string.
Variable insert_uuid : value -> M value.

Lemma create_provider_payload_metadata ua n p n' :
  create_provider_payload uuid4 ua n = Ok (p, n') ->
  path p ["metadata"]
  = Some (VDict [("kind", VStr "provider"); ("uuid", VStr (uuid4 n))]).
Proof.
  unfold create_provider_payload.
  rewrite (bindM_ok _ _ n (VStr (uuid4 n)) (S n) eq_refl).
  unfold bindM at 1.
  destruct (lift _ (S n)) as [[l m]|]; [|discriminate].
  unfold bindM at 1.
  destruct (for_each_in _ l m) as [[l' m']|]; [|discriminate].
  intros [= <- _]. reflexivity.
Qed.

(** C2 (amended): in the bundle of a credential-provider account, the
    resource-type payload's [provider_reference.uuid] is the provider
    payload's [metadata.uuid], and the reference embedded in the account
    payload is the resource-type payload's [provider_reference], so it
    too carries the provider payload's identifier; when the supply never
    repeats an identifier, the account's reference is therefore not the
    resource-type payload's own [metadata.uuid], neither as the reference
    nor as its [uuid]. *)
Theorem bundle_references_provider ua dcl n actions n' :
  declared ua = Some dcl ->
  insert_uuid (action_list dcl) (S (S n + length (auth_schema dcl)))
    = Ok (actions, n') ->
  returns
    (fun bundle =>
       references_provider bundle
       /\ ((forall i j, uuid4 i = uuid4 j -> i = j) ->
           ~ account_references_resource_type bundle))
    (create_credential_provider_account_payload uuid4 insert_uuid ua n).
Proof.
  intros Hd Hins.
  rewrite (create_credential_provider_account_payload_ok
             uuid4 insert_uuid ua dcl n actions n' Hd Hins).
  eexists _, _. split; [reflexivity|]. split.
  - exists (VStr (uuid4 n)). repeat split.
  - intros Hinj (u & Hu & Href). cbn in Hu. injection Hu as <-.
    destruct Href as [Href|Href]; cbn in Href; [discriminate|].
    injection Href as Href. apply Hinj in Href. lia.
Qed.

(** C3: every entry of the four compiled lists keeps its declared type; an
    entry of type "SECRET" has [attrs] equal to
    [{"is_secret_modified": true, "type": "SECRET"}], an entry of another
    type has the [attrs] it was declared with, if any. *)
Theorem bundle_secrets_marked ua dcl n actions n' :
  declared ua = Some dcl ->
  insert_uuid (action_list dcl) (S (S n + length (auth_schema dcl)))
    = Ok (actions, n') ->
  returns (lists_related (Forall2 secret_marked) dcl)
    (create_credential_provider_account_payload uuid4 insert_uuid ua n).
Proof.
  intros Hd Hins.
  rewrite (create_credential_provider_account_payload_ok
             uuid4 insert_uuid ua dcl n actions n' Hd Hins).
  apply declared_inv in Hd
    as (data & rc & res & _ & _ & _ & Hla & Hlv & Hlc & _ & Hlr).
  apply variables_at_inv in Hla as [_ Hla]. apply variables_at_inv in Hlv as [_ Hlv].
  apply variables_at_inv in Hlc as [_ Hlc]. apply variables_at_inv in Hlr as [_ Hlr].
  eexists _, _. split; [reflexivity|].
  eexists _, _, _, _.
  split; [reflexivity|]. split; [reflexivity|].
  split; [reflexivity|]. split; [reflexivity|].
  repeat split.
  - apply stamp_from_Forall2. intros u x Hx.
    apply secret_marked_stamped_auth_schema. exact (forallb_In _ _ _ Hla Hx).
  - rewrite stamp_from_map. apply stamp_from_Forall2. intros u x Hx.
    apply secret_marked_with_uuid. exact (forallb_In _ _ _ Hlv Hx).
  - rewrite stamp_from_map. apply stamp_from_Forall2. intros u x Hx.
    apply secret_marked_with_uuid. exact (forallb_In _ _ _ Hlc Hx).
  - apply stamp_from_Forall2. intros u x Hx.
    apply secret_marked_stamped_variable. exact (forallb_In _ _ _ Hlr Hx).
Qed.


(** C10: in the provider payload of the bundle, the auth-schema list is as
    long as declared and every entry's "value" is the empty string,
    whatever value was declared. *)
Theorem provider_values_blank ua dcl n actions n' :
  declared ua = Some dcl ->
  insert_uuid (action_list dcl) (S (S n + length (auth_schema dcl)))
    = Ok (actions, n') ->
  returns (auth_values_blank dcl)
    (create_credential_provider_account_payload uuid4 insert_uuid ua n).
Proof.
  intros Hd Hins.
  rewrite (create_credential_provider_account_payload_ok
             uuid4 insert_uuid ua dcl n actions n' Hd Hins).
  apply declared_inv in Hd as (data & rc & res & _ & _ & _ & Hla & _).
  apply variables_at_inv in Hla as [_ Hla].
  eexists _, _. split; [reflexivity|].
  eexists. split; [reflexivity|]. split; [apply stamp_from_length|].
  apply Forall_forall. intros x' Hx'. apply In_nth_error in Hx' as [i Hi].
  apply stamp_from_nth in Hi as (x & Hx & ->).
  apply value_of_stamped_auth_schema.
  eapply forallb_In; [exact Hla | eapply nth_error_In, Hx].
Qed.

End Claims.

(** *** The action list *)

Section Stamper.

Variable uuid4 : nat -> string.









Hypothesis uuid4_inj : forall i j, uuid4 i = uuid4 j -> i = j.











Hypothesis uuid4_nonempty : forall i, uuid4 i <> "".


End Stamper.




Lemma bundle_references_provider_witness :
  returns
    (fun bundle =>
       references_provider bundle /\ ~ account_references_resource_type bundle)
    (create_credential_provider_account_payload demo_uuid4
       (spec_insert_uuid demo_uuid4) sample_account 0).
Proof.
  destruct (bundle_references_provider demo_uuid4 (spec_insert_uuid demo_uuid4)
              sample_account _ 0 _ _ eq_refl eq_refl)
    as (bundle & final & Hbundle & Href & Hnot).
  exists bundle, final. split; [exact Hbundle|].
  split; [exact Href | exact (Hnot demo_uuid4_inj)].
Defined.

Lemma bundle_secrets_marked_witness :
  exists dcl,
    declared sample_account = Some dcl
    /\ returns (lists_related (Forall2 secret_marked) dcl)
         (create_credential_provider_account_payload demo_uuid4
            (spec_insert_uuid demo_uuid4) sample_account 0).
Proof.
  eexists. split; [reflexivity|].
  eapply (bundle_secrets_marked demo_uuid4 (spec_insert_uuid demo_uuid4)
            sample_account _ 0); reflexivity.
Defined.


Lemma provider_values_blank_witness :
  exists dcl,
    declared sample_account = Some dcl
    /\ returns (auth_values_blank dcl)
         (create_credential_provider_account_payload demo_uuid4
            (spec_insert_uuid demo_uuid4) sample_account 0).
Proof.
  eexists. split; [reflexivity|].
  eapply (provider_values_blank demo_uuid4 (spec_insert_uuid demo_uuid4)
            sample_account _ 0); reflexivity.
Defined.

(** C2, as stated, fails on the sample account: the reference embedded in
    the account payload carries the provider payload's identifier, not the
    resource-type payload's own [metadata.uuid]. *)
Lemma account_reference_is_not_resource_type :
  exists bundle final,
    create_credential_provider_account_payload demo_uuid4
      (spec_insert_uuid demo_uuid4) sample_account 0 = Ok (bundle, final)
    /\ ~ account_references_resource_type bundle.
Proof.
  eexists _, _. split; [vm_compute; reflexivity|].
  intros (u & Hu & [H|H]); vm_compute in Hu, H; congruence.
Qed.


(** The plain account payload has the whole envelope. *)
Lemma create_account_payload_envelope uuid4 ua n :
  create_account_payload uuid4 ua n =
    Ok (VDict [("spec", VDict [("name", VStr (__name__ ua));
                               ("resources", VDict (get_dict ua))]);
               ("metadata", VDict [("kind", VStr "account");
                                   ("name", VStr (__name__ ua));
                                   ("uuid", VStr (uuid4 n))])],
        S n).
Proof. reflexivity. Qed.

(** C7: the provider payload's metadata has a kind and an identifier but no
    name, unlike the metadata of the resource-type and account payloads of
    the same bundle. *)
Theorem provider_metadata_without_name :
  returns
    (fun bundle =>
       path bundle ["provider"; "metadata"]
       = Some (VDict [("kind", VStr "provider"); ("uuid", VStr "uuid-0")])
       /\ path bundle ["provider"; "metadata"; "name"] = None
       /\ path bundle ["resource_type"; "metadata"; "name"] = Some (VStr "vault")
       /\ path bundle ["account"; "metadata"; "name"] = Some (VStr "vault"))
    (create_credential_provider_account_payload demo_uuid4
       (spec_insert_uuid demo_uuid4) sample_account 0).
Proof.
  eexists _, _. split; [vm_compute; reflexivity|]. repeat split.
Qed.

End AccountsFacts.

Module ProjectExtra.
Import Project ProjectViews DictFacts ProjectFacts.

Lemma populate_account_parts c d :
  populate_account c (VDict d) =
    (provider_type <- py_getitem (VDict d) "provider_type" ;;
     cdict <-
       (if py_eq_str provider_type "nutanix_pc"
        then cdict <- contribute_lists c d ;; set_default cdict d
        else Ok c) ;;
     accounts <- py_getitem (VDict cdict) "account_reference_list" ;;
     match accounts with
     | VList l =>
         account_reference <- py_getitem (VDict d) "account_reference" ;;
         Ok (dict_set cdict "account_reference_list"
               (VList (l ++ [account_reference])))
     | _ => Err (AttributeError "append")
     end).
Proof. reflexivity. Qed.

Lemma wf_lists_base c :
  wf_lists c = true ->
  exists base nets,
    list_or_none (dict_get c "subnet_reference_list") = Some base
    /\ list_or_none (dict_get c "external_network_list") = Some nets.
Proof.
  unfold wf_lists. intros H.
  destruct (list_or_none (dict_get c "subnet_reference_list")) as [base|];
    [|discriminate].
  destruct (list_or_none (dict_get c "external_network_list")) as [nets|];
    [|discriminate].
  eauto.
Qed.

(** The list part of a "nutanix_pc" entry: the subnets go in, every key but
    the two lists stays. *)
Lemma contribute_lists_summary c d ty base :
  wf_lists c = true ->
  wf_provider (VDict d) = true ->
  dict_get d "provider_type" = Some ty ->
  py_eq_str ty "nutanix_pc" = true ->
  list_or_none (dict_get c "subnet_reference_list") = Some base ->
  exists c1,
    contribute_lists c d = Ok c1
    /\ wf_lists c1 = true
    /\ list_or_none (dict_get c1 "subnet_reference_list")
       = Some (base ++ contributed_subnets (VDict d))
    /\ forall k, k <> "subnet_reference_list" -> k <> "external_network_list" ->
         dict_get c1 k = dict_get c k.
Proof.
  intros Hw Hp Hty Hpc Hbase.
  destruct (wf_lists_base c Hw) as (base' & nets & Hbase' & Hnets).
  rewrite Hbase in Hbase'. injection Hbase' as <-.
  cbn in Hp. rewrite Hty, Hpc in Hp. apply andb_prop in Hp as [_ Hp].
  unfold contribute_lists, contributed_subnets, is_pc, dict_contains.
  cbn [py_getitem]. rewrite Hty, Hpc.
  destruct (dict_get d "subnet_reference_list") as [items|].
  - unfold iterable in Hp. destruct (py_iter items) as [xs|] eqn:Hxs; [|discriminate].
    cbn [bind].
    destruct (extend_key_ok _ _ _ _ _ Hbase Hxs) as (c1 & Hc1 & Hget & Hother).
    exists c1. split; [exact Hc1|]. split; [|split].
    + unfold wf_lists. rewrite Hget. cbn. rewrite Hother by discriminate.
      now rewrite Hnets.
    + now rewrite Hget.
    + intros k Hk _. apply Hother. congruence.
  - destruct (dict_get d "external_network_list") as [items|].
    + unfold iterable in Hp.
      destruct (py_iter items) as [xs|] eqn:Hxs; [|discriminate].
      cbn [bind].
      destruct (extend_key_ok _ _ _ _ _ Hnets Hxs) as (c1 & Hc1 & Hget & Hother).
      exists c1. split; [exact Hc1|]. split; [|split].
      * unfold wf_lists. rewrite Hget. cbn. rewrite Hother by discriminate.
        now rewrite Hbase.
      * rewrite Hother by discriminate. now rewrite Hbase, app_nil_r.
      * intros k _ Hk. apply Hother. congruence.
    + exists c. split; [reflexivity|]. split; [exact Hw|]. split.
      * now rewrite Hbase, app_nil_r.
      * reflexivity.
Qed.

Lemma set_default_summary c d ty :
  dict_get d "provider_type" = Some ty ->
  py_eq_str ty "nutanix_pc" = true ->
  exists c2,
    set_default c d = Ok c2
    /\ dict_get c2 "default_subnet_reference"
       = match declared_default (VDict d) with
         | Some ref => Some ref
         | None => dict_get c "default_subnet_reference"
         end
    /\ forall k, k <> "default_subnet_reference" -> dict_get c2 k = dict_get c k.
Proof.
  intros Hty Hpc. unfold set_default, declared_default, is_pc, dict_contains.
  cbn [py_getitem]. rewrite Hty, Hpc.
  destruct (dict_get d "default_subnet_reference") as [ref|].
  - cbn [bind]. eexists. split; [reflexivity|]. split.
    + apply dict_get_set_eq.
    + intros k Hk. apply dict_get_set_neq. congruence.
  - exists c. repeat split; reflexivity.
Qed.

Lemma wf_lists_same c c' :
  dict_get c' "subnet_reference_list" = dict_get c "subnet_reference_list" ->
  dict_get c' "external_network_list" = dict_get c "external_network_list" ->
  wf_lists c = true -> wf_lists c' = true.
Proof. unfold wf_lists. now intros -> ->. Qed.

(** One iteration over a well-formed entry, in full. *)
Lemma populate_account_summary c p l :
  wf_lists c = true ->
  wf_provider p = true ->
  dict_get c "account_reference_list" = Some (VList l) ->
  exists c', populate_account c p = Ok c' /\ step_summary c p c'.
Proof.
  intros Hw Hp Hacc. destruct p as [| | | | |d]; try discriminate.
  pose proof Hp as Hp'. cbn in Hp'.
  destruct (dict_get d "provider_type") as [ty|] eqn:Hty; [|discriminate].
  apply andb_prop in Hp' as [Href _].
  apply dict_contains_get in Href as [ref Href].
  destruct (wf_lists_base c Hw) as (base & nets & Hbase & Hnets).
  assert (Hgty : py_getitem (VDict d) "provider_type" = Ok ty)
    by (cbn; now rewrite Hty).
  assert (Hgref : py_getitem (VDict d) "account_reference" = Ok ref)
    by (cbn; now rewrite Href).
  assert (Hpc : is_pc (VDict d) = py_eq_str ty "nutanix_pc")
    by (unfold is_pc; now rewrite Hgty).
  rewrite populate_account_parts, Hgty. cbn [bind].
  destruct (py_eq_str ty "nutanix_pc") eqn:Hnut.
  - destruct (contribute_lists_summary c d ty base Hw Hp Hty Hnut Hbase)
      as (c1 & -> & Hw1 & Hsub1 & Hk1).
    cbn [bind].
    destruct (set_default_summary c1 d ty Hty Hnut) as (c2 & -> & Hdef2 & Hk2).
    cbn [bind].
    assert (Hacc2 : dict_get c2 "account_reference_list" = Some (VList l))
      by (rewrite Hk2, Hk1 by discriminate; exact Hacc).
    cbn [py_getitem]. rewrite Hacc2. cbn [bind]. rewrite Href. cbn [bind].
    eexists. split; [reflexivity|].
    assert (Hw2 : wf_lists c2 = true)
      by (apply (wf_lists_same c1); [apply Hk2 | apply Hk2 | exact Hw1]; discriminate).
    destruct (append_account_keeps c2 (l ++ [ref]) Hw2) as [Hw3 Hu3].
    split; [exact Hw3|]. split; [|split; [|split; [|split]]].
    + exists l, ref. repeat split; auto. apply dict_get_set_eq.
    + exists base. split; [exact Hbase|].
      rewrite dict_get_set_neq by discriminate.
      rewrite Hk2 by discriminate. exact Hsub1.
    + rewrite dict_get_set_neq by discriminate. rewrite Hdef2.
      destruct (declared_default (VDict d)); [reflexivity|].
      apply Hk1; discriminate.
    + intros k Hk. rewrite Hu3 by exact Hk.
      rewrite Hk2, Hk1; try reflexivity;
        apply not_eq_sym, untouched_neq; cbn; auto.
    + rewrite Hpc. discriminate.
  - cbn [py_getitem bind]. rewrite Hacc. cbn [bind]. rewrite Href. cbn [bind].
    eexists. split; [reflexivity|].
    destruct (append_account_keeps c (l ++ [ref]) Hw) as [Hw3 Hu3].
    split; [exact Hw3|]. split; [|split; [|split; [|split]]].
    + exists l, ref. repeat split; auto. apply dict_get_set_eq.
    + exists base. split; [exact Hbase|].
      rewrite dict_get_set_neq by discriminate.
      unfold contributed_subnets. rewrite Hpc, app_nil_r. exact Hbase.
    + rewrite dict_get_set_neq by discriminate.
      unfold declared_default. now rewrite Hpc.
    + exact Hu3.
    + intros _ k Hk. apply dict_get_set_neq. congruence.
Qed.

Lemma provider_loop_summary ps : forall c l,
  wf_lists c = true ->
  forallb wf_provider ps = true ->
  dict_get c "account_reference_list" = Some (VList l) ->
  exists c' refs base,
    for_each populate_account ps c = Ok c'
    /\ dict_get c' "account_reference_list" = Some (VList (l ++ refs))
    /\ Forall2 (fun p r => py_getitem p "account_reference" = Ok r) ps refs
    /\ list_or_none (dict_get c "subnet_reference_list") = Some base
    /\ list_or_none (dict_get c' "subnet_reference_list")
       = Some (base ++ flat_map contributed_subnets ps)
    /\ dict_get c' "default_subnet_reference"
       = last_default (dict_get c "default_subnet_reference") ps
    /\ (forall k, untouched k -> dict_get c' k = dict_get c k)
    /\ (forallb (fun p => negb (is_pc p)) ps = true ->
        forall k, k <> "account_reference_list" -> dict_get c' k = dict_get c k).
Proof.
  induction ps as [|p ps IH]; intros c l Hw Hps Hacc.
  - destruct (wf_lists_base c Hw) as (base & nets & Hbase & _).
    exists c, [], base. cbn. rewrite !app_nil_r. repeat split; auto.
  - cbn in Hps. apply andb_prop in Hps as [Hp Hps].
    destruct (populate_account_summary c p l Hw Hp Hacc)
      as (c1 & Hc1 & Hw1 & (l0 & r & Hl0 & Hr & Hacc1) & (base & Hb & Hb1)
          & Hd1 & Hu1 & Hn1).
    rewrite Hacc in Hl0. injection Hl0 as <-.
    destruct (IH c1 _ Hw1 Hps Hacc1)
      as (c2 & refs & base' & Hc2 & Hacc2 & Hrefs & Hb' & Hb2 & Hd2 & Hu2 & Hn2).
    rewrite Hb1 in Hb'. injection Hb' as <-.
    exists c2, (r :: refs), base. cbn [for_each flat_map]. rewrite Hc1. cbn [bind].
    split; [exact Hc2|]. split; [|split; [|split; [|split; [|split; [|split]]]]].
    + rewrite Hacc2, <- app_assoc. reflexivity.
    + now constructor.
    + exact Hb.
    + rewrite Hb2, <- app_assoc. reflexivity.
    + rewrite Hd2. unfold last_default. cbn [fold_left]. now rewrite Hd1.
    + intros k Hk. now rewrite Hu2, Hu1.
    + cbn [forallb]. intros Hno k Hk. apply andb_prop in Hno as [Hp0 Hno].
      rewrite (Hn2 Hno k Hk). apply Hn1; [|exact Hk].
      now destruct (is_pc p).
Qed.

Lemma quota_loop_total items : forall acc,
  forallb (fun kv => String.eqb (fst kv) "VCPUS"
                     || match snd kv with
                        | VInt _ | VBool _ => true
                        | _ => false
                        end) items = true ->
  exists resources, for_each quota_resource items acc = Ok resources.
Proof.
  induction items as [|[k v] items IH]; intros acc H; cbn [for_each].
  - eauto.
  - cbn [forallb fst snd] in H. apply andb_prop in H as [Hkv H].
    unfold quota_resource at 1.
    destruct (String.eqb k "VCPUS"); cbn [negb bind].
    + apply IH, H.
    + cbn in Hkv. destruct v; try discriminate; cbn [py_imul bind]; apply IH, H.
Qed.

(** The quota conversion and the final clean-up on accepted quotas. *)
Lemma quota_step_total c1 :
  wf_quotas c1 = true ->
  exists out,
    (let (quotas, cdict) := dict_pop c1 "quotas" VNone in
     cdict <-
       (if py_truthy quotas then
          match quotas with
          | VDict items =>
              project_resources <- for_each quota_resource items [] ;;
              Ok (dict_set cdict "resource_domain"
                    (VDict [("resources", VList project_resources)]))
          | _ => Err (AttributeError "items")
          end
        else Ok cdict) ;;
     let (_, cdict) := dict_pop cdict "environment_definition_list" VNone in
     Ok cdict) = Ok out
    /\ dict_get out "quotas" = None
    /\ dict_get out "environment_definition_list" = None
    /\ forall k, k <> "quotas" -> k <> "resource_domain" ->
         k <> "environment_definition_list" -> dict_get out k = dict_get c1 k.
Proof.
  unfold wf_quotas, dict_pop. intros Hq.
  destruct (dict_get c1 "quotas") as [q|].
  - destruct (py_truthy q).
    + destruct q as [| | | | |items]; try discriminate.
      destruct (quota_loop_total items [] Hq) as (resources & ->).
      cbn [bind]. eexists. split; [reflexivity|].
      split; [now dict_simpl|]. split; [now dict_simpl|].
      intros k Hk1 Hk2 Hk3.
      rewrite dict_get_del_neq, dict_get_set_neq, dict_get_del_neq; congruence.
    + cbn [bind]. eexists. split; [reflexivity|].
      split; [now dict_simpl|]. split; [now dict_simpl|].
      intros k Hk1 Hk2 Hk3. rewrite !dict_get_del_neq; congruence.
  - cbn [py_truthy bind]. eexists. split; [reflexivity|].
    split; [now dict_simpl|]. split; [now dict_simpl|].
    intros k Hk1 Hk2 Hk3. rewrite !dict_get_del_neq; congruence.
Qed.

(** [compile] on a well-formed project, in full: what it returns, key by
    key. *)
Lemma compile_summary cdict :
  wf_project cdict = true ->
  wf_quotas cdict = true ->
  exists out refs base,
    compile cdict = Ok out
    /\ dict_get out "account_reference_list" = Some (VList refs)
    /\ Forall2 (fun p r => py_getitem p "account_reference" = Ok r)
         (providers_of cdict) refs
    /\ list_or_none (dict_get cdict "subnet_reference_list") = Some base
    /\ list_or_none (dict_get out "subnet_reference_list")
       = Some (base ++ flat_map contributed_subnets (providers_of cdict))
    /\ dict_get out "default_subnet_reference"
       = last_default (dict_get cdict "default_subnet_reference")
           (providers_of cdict)
    /\ dict_get out "provider_list" = None
    /\ dict_get out "quotas" = None
    /\ dict_get out "environment_definition_list" = None
    /\ (forall k, ~ In k owned -> dict_get out k = dict_get cdict k)
    /\ (forallb (fun p => negb (is_pc p)) (providers_of cdict) = true ->
        forall k, In k ["subnet_reference_list"; "external_network_list";
                        "default_subnet_reference"] ->
                  dict_get out k = dict_get cdict k).
Proof.
  intros Hwf Hq. unfold wf_project in Hwf. apply andb_prop in Hwf as [Hw Hps].
  unfold providers_of.
  destruct (py_iter (dict_get_default cdict "provider_list" (VList [])))
    as [providers|] eqn:Hiter; [|discriminate].
  set (c0 := dict_del (dict_set cdict "account_reference_list" (VList []))
               "provider_list").
  assert (Hc0 : forall k, k <> "account_reference_list" -> k <> "provider_list" ->
                  dict_get c0 k = dict_get cdict k).
  { intros k Hk1 Hk2. subst c0.
    rewrite dict_get_del_neq, dict_get_set_neq; congruence. }
  assert (Hw0 : wf_lists c0 = true)
    by (apply (wf_lists_same cdict); [| |exact Hw]; apply Hc0; discriminate).
  assert (Ha0 : dict_get c0 "account_reference_list" = Some (VList []))
    by (subst c0; now dict_simpl).
  destruct (provider_loop_summary providers c0 [] Hw0 Hps Ha0)
    as (c1 & refs & base & Hc1 & Hacc1 & Hrefs & Hb & Hb1 & Hd1 & Hu1 & Hn1).
  assert (Hq1 : wf_quotas c1 = true).
  { unfold wf_quotas in *.
    rewrite Hu1 by (unfold untouched; cbn; intuition discriminate).
    rewrite Hc0 by discriminate. exact Hq. }
  destruct (quota_step_total c1 Hq1) as (out & Hout & Hoq & Hoe & Hok).
  exists out, refs, base.
  split; [|split; [|split; [|split; [|split; [|split; [|split; [|split;
    [|split; [|split]]]]]]]]].
  - unfold compile. unfold dict_pop at 1. cbv beta iota. fold c0.
    rewrite dict_get_set_neq by discriminate.
    fold (dict_get_default cdict "provider_list" (VList [])).
    rewrite Hiter. cbn [bind]. rewrite Hc1. cbn [bind]. exact Hout.
  - rewrite Hok by discriminate. exact Hacc1.
  - exact Hrefs.
  - rewrite <- Hb. now rewrite Hc0 by discriminate.
  - rewrite Hok by discriminate. exact Hb1.
  - rewrite Hok by discriminate. rewrite Hd1. now rewrite Hc0 by discriminate.
  - rewrite Hok by discriminate.
    rewrite Hu1 by (unfold untouched; cbn; intuition discriminate).
    subst c0. now dict_simpl.
  - exact Hoq.
  - exact Hoe.
  - intros k Hk. unfold owned in Hk. cbn in Hk.
    rewrite Hok by intuition congruence.
    rewrite Hu1 by (unfold untouched; cbn; intuition congruence).
    apply Hc0; intuition congruence.
  - intros Hno k Hk. cbn in Hk.
    rewrite Hok by intuition congruence.
    rewrite (Hn1 Hno) by intuition congruence.
    apply Hc0; intuition congruence.
Qed.

(** X1: compile collects one account reference per provider, in the order
    of [provider_list] and whatever the provider's type is; what the project
    held under [account_reference_list] before is discarded. *)
Theorem account_references_collected cdict :
  wf_project cdict = true ->
  wf_quotas cdict = true ->
  exists out refs,
    compile cdict = Ok out
    /\ dict_get out "account_reference_list" = Some (VList refs)
    /\ Forall2 (fun p r => py_getitem p "account_reference" = Ok r)
         (providers_of cdict) refs.
Proof.
  intros Hwf Hq.
  destruct (compile_summary cdict Hwf Hq) as (out & refs & base & H & Ha & Hr & _).
  now exists out, refs.
Qed.

Lemma account_references_collected_witness :
  exists out refs,
    compile wide_project = Ok out
    /\ dict_get out "account_reference_list" = Some (VList refs)
    /\ Forall2 (fun p r => py_getitem p "account_reference" = Ok r)
         (providers_of wide_project) refs.
Proof. apply (account_references_collected wide_project); reflexivity. Defined.

(** X2: the compiled project never carries [provider_list], [quotas] or
    [environment_definition_list]. *)
Theorem transient_fields_removed cdict :
  wf_project cdict = true ->
  wf_quotas cdict = true ->
  exists out,
    compile cdict = Ok out
    /\ dict_get out "provider_list" = None
    /\ dict_get out "quotas" = None
    /\ dict_get out "environment_definition_list" = None.
Proof.
  intros Hwf Hq.
  destruct (compile_summary cdict Hwf Hq)
    as (out & refs & base & H & _ & _ & _ & _ & _ & Hp & Hq' & He & _).
  now exists out.
Qed.

Lemma transient_fields_removed_witness :
  exists out,
    compile wide_project = Ok out
    /\ dict_get out "provider_list" = None
    /\ dict_get out "quotas" = None
    /\ dict_get out "environment_definition_list" = None.
Proof. apply (transient_fields_removed wide_project); reflexivity. Defined.

(** X3: every field the hook does not own reaches the compiled project
    unchanged. *)
Theorem foreign_fields_kept cdict :
  wf_project cdict = true ->
  wf_quotas cdict = true ->
  exists out,
    compile cdict = Ok out
    /\ forall k, ~ In k owned -> dict_get out k = dict_get cdict k.
Proof.
  intros Hwf Hq.
  destruct (compile_summary cdict Hwf Hq)
    as (out & refs & base & H & _ & _ & _ & _ & _ & _ & _ & _ & Hk & _).
  now exists out.
Qed.

Lemma foreign_fields_kept_witness :
  exists out,
    compile wide_project = Ok out
    /\ dict_get out "name" = Some (VStr "wide").
Proof.
  destruct (foreign_fields_kept wide_project eq_refl eq_refl) as (out & H & Hk).
  exists out. split; [exact H|].
  rewrite Hk; [reflexivity|]. cbn. intuition discriminate.
Defined.

(** X4: when no provider is of type "nutanix_pc", the project's subnets,
    external networks and default subnet come out as they went in, whatever
    lists the providers declare. *)
Theorem other_providers_contribute_nothing cdict :
  wf_project cdict = true ->
  wf_quotas cdict = true ->
  forallb (fun p => negb (is_pc p)) (providers_of cdict) = true ->
  exists out,
    compile cdict = Ok out
    /\ dict_get out "subnet_reference_list" = dict_get cdict "subnet_reference_list"
    /\ dict_get out "external_network_list" = dict_get cdict "external_network_list"
    /\ dict_get out "default_subnet_reference"
       = dict_get cdict "default_subnet_reference".
Proof.
  intros Hwf Hq Hno.
  destruct (compile_summary cdict Hwf Hq)
    as (out & refs & base & H & _ & _ & _ & _ & _ & _ & _ & _ & _ & Hn).
  exists out. split; [exact H|]. repeat split; apply (Hn Hno); cbn; auto.
Qed.

Lemma other_providers_contribute_nothing_witness :
  exists out,
    compile cloud_project = Ok out
    /\ dict_get out "subnet_reference_list" = None
    /\ dict_get out "external_network_list" = Some (VList [VStr "net"])
    /\ dict_get out "default_subnet_reference" = None.
Proof.
  apply (other_providers_contribute_nothing cloud_project); reflexivity.
Defined.

(** X5: the compiled subnet list is the project's own list followed by the
    subnets of its "nutanix_pc" providers, provider after provider. *)
Theorem subnets_concatenated cdict :
  wf_project cdict = true ->
  wf_quotas cdict = true ->
  exists out base,
    compile cdict = Ok out
    /\ list_or_none (dict_get cdict "subnet_reference_list") = Some base
    /\ list_or_none (dict_get out "subnet_reference_list")
       = Some (base ++ flat_map contributed_subnets (providers_of cdict)).
Proof.
  intros Hwf Hq.
  destruct (compile_summary cdict Hwf Hq)
    as (out & refs & base & H & _ & _ & Hb & Hs & _).
  now exists out, base.
Qed.

Lemma subnets_concatenated_witness :
  exists out,
    compile wide_project = Ok out
    /\ list_or_none (dict_get out "subnet_reference_list")
       = Some [VStr "own"; VStr "A"; VStr "B"; VStr "C"].
Proof.
  destruct (subnets_concatenated wide_project eq_refl eq_refl)
    as (out & base & H & Hb & Hs).
  exists out. split; [exact H|].
  cbn in Hb. injection Hb as <-. exact Hs.
Defined.

(** X6: the compiled default subnet is the one of the last "nutanix_pc"
    provider that declares one, and the project's own if none does. *)
Theorem last_default_wins cdict :
  wf_project cdict = true ->
  wf_quotas cdict = true ->
  exists out,
    compile cdict = Ok out
    /\ dict_get out "default_subnet_reference"
       = last_default (dict_get cdict "default_subnet_reference")
           (providers_of cdict).
Proof.
  intros Hwf Hq.
  destruct (compile_summary cdict Hwf Hq)
    as (out & refs & base & H & _ & _ & _ & _ & Hd & _).
  now exists out.
Qed.

Lemma last_default_wins_witness :
  exists out,
    compile wide_project = Ok out
    /\ dict_get out "default_subnet_reference" = Some (VStr "C").
Proof. apply (last_default_wins wide_project); reflexivity. Defined.

(** *** Failures *)

Lemma for_each_app {S A} (body : S -> A -> result S) l1 l2 : forall s,
  for_each body (l1 ++ l2) s = (s' <- for_each body l1 s ;; for_each body l2 s').
Proof.
  induction l1 as [|x l1 IH]; intros s; cbn [for_each app]; [reflexivity|].
  destruct (body s x); cbn [bind]; [apply IH | reflexivity].
Qed.

(** X7: compile stops at the first provider entry without a
    "provider_type", or, for a type other than "nutanix_pc", without an
    "account_reference": it raises the [KeyError] of that key and returns
    nothing, although the entries before it were well-formed. *)
Theorem incomplete_provider_aborts cdict ps1 d ps2 :
  wf_lists cdict = true ->
  dict_get cdict "provider_list" = Some (VList (ps1 ++ VDict d :: ps2)) ->
  forallb wf_provider ps1 = true ->
  (dict_get d "provider_type" = None ->
   compile cdict = Err (KeyError (VStr "provider_type")))
  /\ (forall ty,
        dict_get d "provider_type" = Some ty ->
        py_eq_str ty "nutanix_pc" = false ->
        dict_get d "account_reference" = None ->
        compile cdict = Err (KeyError (VStr "account_reference"))).
Proof.
  intros Hw Hpl Hps1.
  set (c0 := dict_del (dict_set cdict "account_reference_list" (VList []))
               "provider_list").
  assert (Hw0 : wf_lists c0 = true).
  { apply (wf_lists_same cdict); [| |exact Hw]; subst c0; now dict_simpl. }
  assert (Ha0 : dict_get c0 "account_reference_list" = Some (VList []))
    by (subst c0; now dict_simpl).
  destruct (provider_loop_summary ps1 c0 [] Hw0 Hps1 Ha0)
    as (c1 & refs & base & Hc1 & Hacc1 & _).
  assert (Hcompile : forall e, populate_account c1 (VDict d) = Err e ->
                               compile cdict = Err e).
  { intros e He. unfold compile. unfold dict_pop at 1. cbv beta iota. fold c0.
    rewrite dict_get_set_neq by discriminate. rewrite Hpl. cbn [py_iter bind].
    rewrite for_each_app, Hc1. cbn [bind for_each]. rewrite He. reflexivity. }
  split.
  - intros Hty. apply Hcompile. rewrite populate_account_parts.
    cbn [py_getitem]. now rewrite Hty.
  - intros ty Hty Hnot Href. apply Hcompile. rewrite populate_account_parts.
    cbn [py_getitem]. rewrite Hty. cbn [bind]. rewrite Hnot. cbn [bind].
    rewrite Hacc1. cbn [bind]. now rewrite Href.
Qed.

Lemma incomplete_provider_aborts_witness :
  compile untyped_provider_project = Err (KeyError (VStr "provider_type")).
Proof.
  apply (incomplete_provider_aborts untyped_provider_project [aws_provider]
           [("account_reference", VStr "x")] [aws_provider]); reflexivity.
Defined.

Lemma quota_loop_general items : forall acc,
  forallb (fun kv => String.eqb (fst kv) "VCPUS"
                     || match snd kv with
                        | VInt _ | VBool _ => true
                        | _ => false
                        end) items = true ->
  for_each quota_resource items acc = Ok (acc ++ map quota_limit items).
Proof.
  induction items as [|[k v] items IH]; intros acc H; cbn [for_each map].
  - now rewrite app_nil_r.
  - cbn [forallb fst snd] in H. apply andb_prop in H as [Hkv H].
    unfold quota_resource at 1, quota_limit at 1. cbn [fst snd].
    destruct (String.eqb k "VCPUS"); cbn [negb bind].
    + rewrite IH by exact H. now rewrite <- app_assoc.
    + cbn in Hkv. destruct v; try discriminate; cbn [py_imul bind];
        rewrite IH by exact H; now rewrite <- app_assoc.
Qed.

(** X8: in a non-empty quotas mapping whose values are integers or
    booleans, every key gets one entry; the limit is the value times
    1073741824 (a boolean counting as 0 or 1), while the value under
    "VCPUS" is passed on as it is, whatever it is. *)
Theorem quota_limits cdict items :
  wf_project cdict = true ->
  dict_get cdict "quotas" = Some (VDict items) ->
  items <> [] ->
  wf_quotas cdict = true ->
  exists out,
    compile cdict = Ok out
    /\ dict_get out "resource_domain"
       = Some (VDict [("resources", VList (map quota_limit items))]).
Proof.
  intros Hwf Hq Hne Hwq.
  destruct (compile_reaches_quotas cdict Hwf) as (c1 & Hcompile & Hq1 & _).
  rewrite Hq in Hq1. unfold dict_pop in Hcompile. rewrite Hq1 in Hcompile.
  unfold wf_quotas in Hwq. rewrite Hq in Hwq.
  destruct items as [|kv items]; [congruence|].
  change (py_truthy (VDict (kv :: items))) with true in Hwq, Hcompile.
  cbv beta iota in Hcompile, Hwq.
  rewrite (quota_loop_general _ [] Hwq) in Hcompile. cbn [bind app] in Hcompile.
  eexists. split; [exact Hcompile|]. now dict_simpl.
Qed.

Lemma quota_limits_witness :
  exists out,
    compile wide_project = Ok out
    /\ dict_get out "resource_domain"
       = Some (VDict [("resources",
                       VList [VDict [("limit", VNone); ("resource_type", VStr "VCPUS")];
                              VDict [("limit", VInt 2147483648);
                                     ("resource_type", VStr "MEMORY")]])]).
Proof.
  apply (quota_limits wide_project [("VCPUS", VNone); ("MEMORY", VInt 2)]);
    [reflexivity | reflexivity | discriminate | reflexivity].
Defined.

(** X9: a quota left at [None] (or given as a mapping) under a key other
    than "VCPUS" makes compile raise the interpreter's [TypeError] for the
    multiplication, after the quotas before it were converted; no project
    is returned. *)
Theorem unset_quota_aborts cdict before k v after :
  wf_project cdict = true ->
  dict_get cdict "quotas"
    = Some (VDict (map (fun q => (fst q, VInt (snd q))) before ++ (k, v) :: after)) ->
  k <> "VCPUS" ->
  py_imul v 1073741824 = Err (BuiltinTypeError BadOperand) ->
  compile cdict = Err (BuiltinTypeError BadOperand).
Proof.
  intros Hwf Hq Hk Hv.
  destruct (compile_reaches_quotas cdict Hwf) as (c1 & Hcompile & Hq1 & _).
  rewrite Hq in Hq1. unfold dict_pop in Hcompile. rewrite Hq1 in Hcompile.
  rewrite Hcompile. cbv beta iota.
  assert (Htruthy : py_truthy
            (VDict (map (fun q => (fst q, VInt (snd q))) before ++ (k, v) :: after))
          = true) by (cbn; now destruct before).
  rewrite Htruthy. rewrite for_each_app, quota_loop. cbn [bind for_each].
  unfold quota_resource at 1. apply String.eqb_neq in Hk. rewrite Hk.
  cbn [negb]. rewrite Hv. reflexivity.
Qed.

Lemma unset_quota_aborts_witness :
  compile unset_quota_project = Err (BuiltinTypeError BadOperand).
Proof.
  apply (unset_quota_aborts unset_quota_project [("STORAGE", 5%Z)]
           "MEMORY" VNone []);
    [reflexivity | reflexivity | discriminate | reflexivity].
Defined.

End ProjectExtra.

Module ProviderSpecExtra.
Import ProviderSpec ProviderSpecFacts.

Lemma map_getitem_kind kind pt :
  assoc spec_provider_map kind = Some pt ->
  map_getitem spec_provider_map (VStr kind) = Ok pt.
Proof. intros H. cbn [map_getitem]. now rewrite H. Qed.

(** X10: for a spec of any known kind the provider-type check comes first:
    on a substrate of another type the mismatch error is raised without the
    structural validator being consulted; on a substrate of the mapped type
    the validator's exception is raised as it is, and otherwise the spec is
    returned unchanged. *)
Theorem kind_checked_before_structure validate_spec d kind pt cls :
  dict_get d "type" = Some (VStr kind) ->
  assoc spec_provider_map kind = Some pt ->
  (pt <> provider_type cls ->
   __get__ validate_spec (VDict d) cls
   = Err (TypeError (mismatch_message (provider_type cls) pt (__name__ cls))))
  /\ (pt = provider_type cls ->
      __get__ validate_spec (VDict d) cls
      = match validate_spec pt (VDict d) with
        | Ok _ => Ok (VDict d)
        | Err e => Err e
        end).
Proof.
  intros Hty Hkind.
  assert (Hkey : dict_get_default d "type" (VStr "PROVISION_AHV_VM") = VStr kind)
    by (unfold dict_get_default; now rewrite Hty).
  pose proof (get_resolved validate_spec d cls _ pt Hkey (map_getitem_kind _ _ Hkind))
    as Hget.
  split.
  - intros Hne. apply String.eqb_neq in Hne. now rewrite Hne in Hget.
  - intros Hpt. rewrite <- Hpt, String.eqb_refl in Hget. rewrite Hget.
    unfold __validate__. now destruct (validate_spec pt (VDict d)).
Qed.

Lemma kind_checked_before_structure_witness :
  __get__ accept_all
    (VDict [("type", VStr "PROVISION_GCP_VM")])
    {| provider_type := "AZURE_VM"; __name__ := "Azure" |}
  = Err (TypeError (mismatch_message "AZURE_VM" "GCP_VM" "Azure"))
  /\ __get__ (fun _ _ => Err (KeyError (VStr "zone")))
       (VDict [("type", VStr "PROVISION_GCP_VM")])
       {| provider_type := "GCP_VM"; __name__ := "Gcp" |}
     = Err (KeyError (VStr "zone")).
Proof.
  split.
  - apply (kind_checked_before_structure accept_all
             [("type", VStr "PROVISION_GCP_VM")] "PROVISION_GCP_VM" "GCP_VM"
             {| provider_type := "AZURE_VM"; __name__ := "Azure" |});
      [reflexivity | reflexivity | discriminate].
  - apply (kind_checked_before_structure (fun _ _ => Err (KeyError (VStr "zone")))
             [("type", VStr "PROVISION_GCP_VM")] "PROVISION_GCP_VM" "GCP_VM"
             {| provider_type := "GCP_VM"; __name__ := "Gcp" |});
      reflexivity.
Defined.





(** X12: a spec that is not a mapping (an empty YAML file loads as [None])
    is rejected with the [AttributeError] of its missing [get], whatever
    the substrate and the structural validator are. *)
Theorem non_mapping_spec_rejected validate_spec spec cls :
  (forall d, spec <> VDict d) ->
  __get__ validate_spec spec cls = Err (AttributeError "get").
Proof.
  intros H. destruct spec; try reflexivity. now contradiction (H d).
Qed.

Lemma non_mapping_spec_rejected_witness :
  __get__ accept_all VNone ahv_substrate = Err (AttributeError "get").
Proof.
  apply (non_mapping_spec_rejected accept_all VNone ahv_substrate).
  discriminate.
Defined.

End ProviderSpecExtra.

Module AccountCommandsExtra.
Import Accounts AccountCommands CommandViews CommandSamples DictFacts AccountsFacts.
Open Scope cmd_scope.

Section Lookup.

Variable c : client.

(** X13: [get_account] returns an account only when the listing under
    ["name==<name>;child_account==true"] holds exactly one entity, and then
    the account read under that entity's identifier; an empty listing and a
    listing of several raise, each with its own message. *)
Theorem get_account_single_match account_name response es :
  account_list c
    (VDict [("filter",
             VStr ("name==" ++ name_str account_name ++ ";child_account==true"))])
  = Reply (VDict response) ->
  dict_get response "entities" = Some (VList es) ->
  (es = [] ->
   get_account c account_name
   = Raised (Exception "No account having name {} found" [name_value account_name]))
  /\ (2 <= length es ->
      get_account c account_name
      = Raised (Exception "More than one account found - {}" [VList es]))
  /\ (forall e id account,
        es = [e] ->
        path e ["metadata"; "uuid"] = Some id ->
        account_read c id = Reply account ->
        get_account c account_name = Returned account).
Proof.
  intros Hlist Hent. unfold get_account. rewrite Hlist.
  cbn [py_get run bindO]. unfold dict_get_default. rewrite Hent.
  split; [|split].
  - intros ->. reflexivity.
  - intros Hlen. destruct es as [|e1 [|e2 es]]; cbn in Hlen; try lia. reflexivity.
  - intros e id account -> Hid Hread. cbn [py_truthy py_len bindO length Nat.eqb negb py_first].
    cbn [path] in Hid. destruct e as [| | | | |de]; try discriminate.
    destruct (dict_get de "metadata") as [m|] eqn:Hm; [|discriminate].
    destruct m as [| | | | |dm]; try discriminate.
    destruct (dict_get dm "uuid") as [u|] eqn:Hu; [|discriminate].
    injection Hid as ->. cbn [py_getitem]. rewrite Hm. cbn [run bindO py_getitem].
    rewrite Hu. cbn [run bindO]. now rewrite Hread.
Qed.

End Lookup.

Lemma get_account_single_match_witness :
  get_account one_account (Some "vault") = Returned (server_account "vault" "acc-1")
  /\ get_account two_accounts (Some "vault")
     = Raised (Exception "More than one account found - {}"
                 [VList [server_account "vault" "acc-1";
                         server_account "vault" "acc-2"]]).
Proof.
  split.
  - eapply (get_account_single_match one_account (Some "vault")); reflexivity.
  - eapply (get_account_single_match two_accounts (Some "vault"));
      [reflexivity | reflexivity | cbn; lia].
Defined.

(** X14: the alphabetically last [Account] class of the module is the one
    compiled: the class found is the last account object in the order of
    [dir], and there is none exactly when the module holds no account. *)
Theorem last_account_class_wins before ua after :
  Forall (fun obj => obj = None) after ->
  get_account_class_from_module (before ++ Some ua :: after) = Some ua.
Proof.
  intros Hafter. unfold get_account_class_from_module.
  rewrite fold_left_app. cbn [fold_left].
  induction Hafter as [|obj after -> _ IH]; [reflexivity | exact IH].
Qed.

Lemma last_account_class_wins_witness :
  get_account_class_from_module [Some sample_account; None; Some plain_account; None]
  = Some plain_account.
Proof.
  apply (last_account_class_wins [Some sample_account; None] plain_account [None]).
  repeat constructor.
Defined.

(** *** Updates *)

Lemma setitem_path_one d k1 inner k x :
  dict_get d k1 = Some (VDict inner) ->
  py_setitem_path (VDict d) [k1] k x
  = Ok (VDict (dict_set d k1 (VDict (dict_set inner k x)))).
Proof.
  intros H. cbn [py_setitem_path py_getitem]. rewrite H. reflexivity.
Qed.

Lemma path2_inv v k1 k2 x :
  path v [k1; k2] = Some x ->
  exists d1 d2,
    v = VDict d1 /\ dict_get d1 k1 = Some (VDict d2) /\ dict_get d2 k2 = Some x.
Proof.
  cbn [path]. destruct v as [| | | | |d1]; try discriminate.
  destruct (dict_get d1 k1) as [[| | | | |d2]|] eqn:H1; try discriminate.
  destruct (dict_get d2 k2) as [y|] eqn:H2; [|discriminate].
  intros [= <-]. eauto.
Qed.

Section Update.

Variable c : client.

(** The steps of [update_account] up to the branch on the account type. *)
Lemma update_account_steps d spec res md name updated_name account uuid sv :
  dict_get d "spec" = Some (VDict spec) ->
  dict_get spec "resources" = Some (VDict res) ->
  dict_get d "metadata" = Some (VDict md) ->
  get_account c name = Returned account ->
  path account ["metadata"; "uuid"] = Some uuid ->
  path account ["metadata"; "spec_version"] = Some sv ->
  update_account c (VDict d) name updated_name =
    (account_resources <-
       (if py_eq_str (dict_get_default res "type" (VStr "")) "NDB"
        then run (ndb_uuids account (VDict res))
        else Returned (VDict res)) ;;
     Returned
       (account_update c uuid
          (VDict [("spec", VDict [("name", name_or updated_name name);
                                  ("resources", account_resources)]);
                  ("metadata", VDict [("spec_version", sv);
                                      ("name", name_or updated_name name);
                                      ("kind", VStr "account")]);
                  ("api_version", VStr "3.0")]))).
Proof.
  intros Hspec Hres Hmd Hacc Huuid Hsv.
  apply path2_inv in Huuid as (da & dm & -> & Hdm & Hu).
  apply path2_inv in Hsv as (da' & dm' & Heq & Hdm' & Hs).
  injection Heq as <-. rewrite Hdm in Hdm'. injection Hdm' as <-.
  set (N := name_or updated_name name).
  set (p1 := dict_del d "status").
  set (spec2 := dict_set spec "name" N).
  set (p2 := dict_set p1 "spec" (VDict spec2)).
  set (p3 := dict_set p2 "metadata" (VDict (dict_set md "name" N))).
  assert (H1 : py_setitem_path (VDict p1) ["spec"] "name" N = Ok (VDict p2)).
  { apply setitem_path_one. subst p1. now dict_simpl. }
  assert (H2 : py_setitem_path (VDict p2) ["metadata"] "name" N = Ok (VDict p3)).
  { apply setitem_path_one. subst p2 p1. now dict_simpl. }
  assert (H3 : dict_get p3 "spec" = Some (VDict spec2))
    by (subst p3 p2; now dict_simpl).
  assert (H4 : dict_get spec2 "resources" = Some (VDict res))
    by (subst spec2; now dict_simpl).
  assert (H5 : dict_get spec2 "name" = Some N)
    by (subst spec2; now dict_simpl).
  unfold update_account. cbn [bindO]. fold p1. fold N.
  rewrite H1. cbn [run bindO]. rewrite H2. cbn [run bindO py_getitem].
  rewrite H3. cbn [run bindO py_getitem]. rewrite H4, H5. cbn [run bindO].
  rewrite Hacc. cbn [run bindO py_getitem]. rewrite Hdm. cbn [run bindO py_getitem].
  rewrite Hu, Hs. cbn [run bindO py_get bind]. unfold dict_get_default at 1.
  rewrite H3. cbn [py_get bind]. unfold dict_get_default at 1. rewrite H4.
  cbn [py_get run bindO]. reflexivity.
Qed.

(** X15: for an account that is not of type "NDB", the update sent to the
    server is addressed to the identifier the server holds for [name] and
    carries the payload's resources unchanged, the server's [spec_version],
    kind "account" and the name [updated_name or name]; the payload's own
    metadata (its generated [uuid] included), its [status] and every other
    field are not sent. *)
Theorem update_sends_server_identity d spec res md name updated_name account uuid sv :
  dict_get d "spec" = Some (VDict spec) ->
  dict_get spec "resources" = Some (VDict res) ->
  dict_get d "metadata" = Some (VDict md) ->
  get_account c name = Returned account ->
  path account ["metadata"; "uuid"] = Some uuid ->
  path account ["metadata"; "spec_version"] = Some sv ->
  py_eq_str (dict_get_default res "type" (VStr "")) "NDB" = false ->
  update_account c (VDict d) name updated_name =
    Returned
      (account_update c uuid
         (VDict [("spec", VDict [("name", name_or updated_name name);
                                 ("resources", VDict res)]);
                 ("metadata", VDict [("spec_version", sv);
                                     ("name", name_or updated_name name);
                                     ("kind", VStr "account")]);
                 ("api_version", VStr "3.0")])).
Proof.
  intros Hspec Hres Hmd Hacc Huuid Hsv Hty.
  rewrite (update_account_steps d spec res md name updated_name account uuid sv)
    by assumption.
  now rewrite Hty.
Qed.

(** X16: an update from a JSON file keeps the account's name: the
    [updated_name] it is given never reaches the payload, which is sent
    under [name]. *)
Theorem json_update_keeps_name d spec res md name updated_name account uuid sv :
  dict_get d "spec" = Some (VDict spec) ->
  dict_get spec "resources" = Some (VDict res) ->
  dict_get d "metadata" = Some (VDict md) ->
  get_account c name = Returned account ->
  path account ["metadata"; "uuid"] = Some uuid ->
  path account ["metadata"; "spec_version"] = Some sv ->
  py_eq_str (dict_get_default res "type" (VStr "")) "NDB" = false ->
  update_account_from_json c (VDict d) name updated_name =
    Returned
      (account_update c uuid
         (VDict [("spec", VDict [("name", name_value name);
                                 ("resources", VDict res)]);
                 ("metadata", VDict [("spec_version", sv);
                                     ("name", name_value name);
                                     ("kind", VStr "account")]);
                 ("api_version", VStr "3.0")])).
Proof.
  intros Hspec Hres Hmd Hacc Huuid Hsv Hty. unfold update_account_from_json.
  now rewrite (update_sends_server_identity d spec res md name None account uuid sv).
Qed.

End Update.

Lemma update_sends_server_identity_witness :
  update_account one_account json_payload (Some "old") (Some "new") =
    Returned
      (Reply
         (VDict
            [("uuid", VStr "acc-1");
             ("payload",
              VDict [("spec", VDict [("name", VStr "new");
                                     ("resources", VDict [("type", VStr "aws")])]);
                     ("metadata", VDict [("spec_version", VInt 7);
                                         ("name", VStr "new");
                                         ("kind", VStr "account")]);
                     ("api_version", VStr "3.0")])])).
Proof.
  eapply (update_sends_server_identity one_account _ _ _ _ (Some "old") (Some "new"));
    reflexivity.
Defined.

Lemma json_update_keeps_name_witness :
  update_account_from_json one_account json_payload (Some "old") (Some "new") =
    Returned
      (Reply
         (VDict
            [("uuid", VStr "acc-1");
             ("payload",
              VDict [("spec", VDict [("name", VStr "old");
                                     ("resources", VDict [("type", VStr "aws")])]);
                     ("metadata", VDict [("spec_version", VInt 7);
                                         ("name", VStr "old");
                                         ("kind", VStr "account")]);
                     ("api_version", VStr "3.0")])])).
Proof.
  eapply (json_update_keeps_name one_account _ _ _ _ (Some "old") (Some "new"));
    reflexivity.
Defined.

(** *** Identifiers by label *)

Lemma key_eqb_sym a b : key_eqb a b = key_eqb b a.
Proof.
  destruct a, b; cbn; try reflexivity;
    try apply Z.eqb_sym; try apply String.eqb_sym;
    try (now rewrite Z.eqb_sym).
  all: repeat match goal with b : bool |- _ => destruct b end; reflexivity.
Qed.

Lemma key_eqb_trans a b x :
  key_eqb a b = true -> key_eqb b x = true -> key_eqb a x = true.
Proof.
  destruct a, b, x; cbn; try discriminate; try reflexivity;
    rewrite ?Z.eqb_eq, ?String.eqb_eq, ?Bool.eqb_true_iff;
    intros; subst; auto;
    repeat match goal with b : bool |- _ => destruct b end;
    try congruence; try lia.
Qed.

Lemma vmap_get_put m k v l :
  vmap_get (vmap_put m k v) l = if key_eqb k l then Some v else vmap_get m l.
Proof.
  induction m as [|[k' v'] m IH]; cbn [vmap_put vmap_get].
  - reflexivity.
  - destruct (key_eqb k' k) eqn:Hk; cbn [vmap_get].
    + destruct (key_eqb k' l) eqn:Hl.
      * rewrite key_eqb_sym in Hk. now rewrite (key_eqb_trans _ _ _ Hk Hl).
      * destruct (key_eqb k l) eqn:Hkl; [|reflexivity].
        now rewrite (key_eqb_trans _ _ _ Hk Hkl) in Hl.
    + destruct (key_eqb k' l) eqn:Hl; [|exact IH].
      destruct (key_eqb k l) eqn:Hkl; [|reflexivity].
      rewrite key_eqb_sym in Hkl. now rewrite (key_eqb_trans _ _ _ Hl Hkl) in Hk.
Qed.

Lemma uuid_for_cons l k known init :
  uuid_for l (k :: known) init
  = uuid_for l known
      (if has_label l k
       then match py_getitem k "uuid" with Ok u => Some u | Err _ => init end
       else init).
Proof. reflexivity. Qed.

Lemma record_uuids known : forall m,
  forallb known_variable known = true ->
  exists m',
    for_each record_uuid known m = Ok m'
    /\ forall l, vmap_get m' l = uuid_for l known (vmap_get m l).
Proof.
  induction known as [|k known IH]; intros m Hk; cbn [for_each].
  - exists m. split; reflexivity.
  - cbn [forallb] in Hk. apply andb_prop in Hk as [Hk Hknown].
    destruct k as [| | | | |d]; try discriminate. cbn in Hk.
    destruct (dict_get d "uuid") as [u|] eqn:Hu; [|discriminate].
    destruct (dict_get d "label") as [lbl|] eqn:Hl; [|discriminate].
    unfold record_uuid at 1. cbn [py_getitem]. rewrite Hu, Hl. cbn [bind].
    unfold vmap_setitem. rewrite Hk. cbn [bind].
    destruct (IH (vmap_put m lbl u) Hknown) as (m' & Hm' & Hget).
    exists m'. split; [exact Hm'|]. intros l.
    rewrite Hget, vmap_get_put, uuid_for_cons.
    unfold has_label. cbn [py_getitem]. rewrite Hl, Hu. reflexivity.
Qed.

Lemma uuid_for_some l known : forall init u,
  uuid_for l known init = Some u ->
  (exists k, In k known /\ has_label l k = true /\ py_getitem k "uuid" = Ok u)
  \/ init = Some u.
Proof.
  induction known as [|k known IH]; intros init u H; cbn in H.
  - now right.
  - apply IH in H as [(k' & Hin & Hl & Hu)|H].
    + left. exists k'. repeat split; auto. now right.
    + destruct (has_label l k) eqn:Hl; [|now right].
      destruct (py_getitem k "uuid") as [u'|] eqn:Hu; [|now right].
      injection H as <-. left. exists k. repeat split; auto. now left.
Qed.

Lemma uuid_for_found l known : forall init,
  forallb known_variable known = true ->
  existsb (has_label l) known = true \/ init <> None ->
  uuid_for l known init <> None.
Proof.
  induction known as [|k known IH]; intros init Hk H; cbn.
  - destruct H as [H|H]; [discriminate | exact H].
  - cbn [forallb] in Hk. apply andb_prop in Hk as [Hk Hknown].
    apply IH; [exact Hknown|]. cbn [existsb] in H.
    destruct (has_label l k) eqn:Hl.
    + right. destruct k as [| | | | |d]; try discriminate. cbn in Hk.
      cbn [py_getitem]. destruct (dict_get d "uuid"); [discriminate|discriminate].
    + destruct H as [H|H]; [now left | now right].
Qed.

Lemma stamp_known known m vars :
  forallb known_variable known = true ->
  (forall l, vmap_get m l = uuid_for l known None) ->
  forallb (labelled_in known) vars = true ->
  exists vars',
    mapR (fun variable =>
            label <- py_getitem variable "label" ;;
            u <- vmap_getitem m label ;;
            py_setitem variable "uuid" u)%result vars = Ok vars'
    /\ Forall2 (carries_known_uuid known) vars vars'.
Proof.
  intros Hknown Hm.
  set (body := fun variable =>
                 (label <- py_getitem variable "label" ;;
                  u <- vmap_getitem m label ;;
                  py_setitem variable "uuid" u)%result).
  induction vars as [|v vars IH]; intros Hvars.
  - exists []. split; [reflexivity | constructor].
  - cbn [forallb] in Hvars. apply andb_prop in Hvars as [Hv Hvars].
    destruct (IH Hvars) as (vars' & Hvars' & Hall).
    destruct v as [| | | | |d]; try discriminate. cbn in Hv.
    destruct (dict_get d "label") as [l|] eqn:Hl; [|discriminate].
    apply andb_prop in Hv as [Hhash Hex].
    destruct (uuid_for l known None) as [u|] eqn:Hu;
      [|now contradiction (uuid_for_found l known None Hknown (or_introl Hex))].
    assert (Hb : body (VDict d) = Ok (with_key "uuid" u (VDict d))).
    { unfold body. cbn [py_getitem]. rewrite Hl. cbn [bind]. unfold vmap_getitem.
      rewrite Hhash, Hm, Hu. reflexivity. }
    cbn [mapR]. rewrite Hb. cbn [bind]. rewrite Hvars'. cbn [bind].
    eexists. split; [reflexivity|]. constructor; [|exact Hall].
    apply uuid_for_some in Hu as [(k & Hin & Hlk & Huk)|Hu]; [|discriminate].
    exists k, l, u. repeat split; auto. cbn. now rewrite Hl.
Qed.

(** X17: on an "NDB" account whose variables all bear a label the server
    knows, the branch gives every variable of the payload the identifier of
    a server variable with the same label, and changes nothing else. *)
Theorem ndb_identifiers_by_label account res d r data vars known :
  path account ["spec"; "resources"] = Some (VDict res) ->
  dict_get res "data" = Some (VDict d) ->
  dict_get d "variable_list" = Some (VList known) ->
  forallb known_variable known = true ->
  dict_get r "data" = Some (VDict data) ->
  dict_get data "variable_list" = Some (VList vars) ->
  forallb (labelled_in known) vars = true ->
  exists vars',
    ndb_uuids account (VDict r)
    = Ok (VDict (dict_set r "data"
                   (VDict (dict_set data "variable_list" (VList vars')))))
    /\ Forall2 (carries_known_uuid known) vars vars'.
Proof.
  intros Hres Hd Hknown_list Hknown Hdata Hvars Hlab.
  apply path2_inv in Hres as (da & ds & -> & Hspec & Hr).
  destruct (record_uuids known [] Hknown) as (m & Hm & Hget).
  destruct (stamp_known known m vars Hknown Hget Hlab) as (vars' & Hvars' & Hall).
  exists vars'. split; [|exact Hall].
  unfold ndb_uuids. cbn [py_getitem]. rewrite Hspec. cbn [bind py_getitem].
  rewrite Hr. cbn [bind py_getitem]. rewrite Hd. cbn [bind py_getitem].
  rewrite Hknown_list. cbn [bind py_iter].
  change (for_each _ known []) with (for_each record_uuid known []).
  rewrite Hm. cbn [bind]. rewrite Hdata. cbn [bind py_getitem]. rewrite Hvars.
  cbn [bind for_each_item]. rewrite Hvars'. cbn [bind].
  now apply setitem_path_one.
Qed.

Lemma ndb_identifiers_by_label_witness :
  exists vars',
    ndb_uuids (server_account "db" "acc-1") ndb_resources
    = Ok (VDict
            [("type", VStr "NDB");
             ("data", VDict [("variable_list", VList vars')])])
    /\ Forall2
         (carries_known_uuid
            [VDict [("label", VStr "host"); ("uuid", VStr "v-host")];
             VDict [("label", VStr "port"); ("uuid", VStr "v-port")]])
         [VDict [("label", VStr "port"); ("value", VStr "5432")];
          VDict [("label", VStr "host"); ("value", VStr "db")]]
         vars'.
Proof.
  pose (known := [VDict [("label", VStr "host"); ("uuid", VStr "v-host")];
                  VDict [("label", VStr "port"); ("uuid", VStr "v-port")]]).
  pose (vars := [VDict [("label", VStr "port"); ("value", VStr "5432")];
                 VDict [("label", VStr "host"); ("value", VStr "db")]]).
  exact (ndb_identifiers_by_label (server_account "db" "acc-1")
           [("data", VDict [("variable_list", VList known)])]
           [("variable_list", VList known)]
           [("type", VStr "NDB"); ("data", VDict [("variable_list", VList vars)])]
           [("variable_list", VList vars)] vars known
           eq_refl eq_refl eq_refl eq_refl eq_refl eq_refl eq_refl).
Defined.

Lemma uuid_for_absent l known :
  existsb (has_label l) known = false -> uuid_for l known None = None.
Proof.
  unfold uuid_for. induction known as [|k known IH]; [reflexivity|].
  cbn [existsb fold_left]. intros H. apply orb_false_elim in H as [Hk H].
  rewrite Hk. now apply IH.
Qed.

Lemma mapR_stops {A B} (f : A -> result B) pre x post ys e :
  mapR f pre = Ok ys -> f x = Err e -> mapR f (pre ++ x :: post) = Err e.
Proof.
  revert ys. induction pre as [|y pre IH]; intros ys Hpre Hx; cbn [app mapR].
  - now rewrite Hx.
  - cbn [mapR] in Hpre. destruct (f y) as [y'|]; [|discriminate].
    cbn [bind] in *. destruct (mapR f pre) as [ys'|] eqn:Hys; [|discriminate].
    now rewrite (IH ys' eq_refl Hx).
Qed.

(** X18: in the "NDB" branch, the first variable of the payload whose
    label no variable of the server's account bears makes the branch raise
    the [KeyError] of that label; nothing is sent. *)
Theorem ndb_unknown_label_aborts account res d r data before v dv l after known :
  path account ["spec"; "resources"] = Some (VDict res) ->
  dict_get res "data" = Some (VDict d) ->
  dict_get d "variable_list" = Some (VList known) ->
  forallb known_variable known = true ->
  dict_get r "data" = Some (VDict data) ->
  dict_get data "variable_list" = Some (VList (before ++ v :: after)) ->
  forallb (labelled_in known) before = true ->
  v = VDict dv ->
  dict_get dv "label" = Some l ->
  py_hashable l = true ->
  existsb (has_label l) known = false ->
  ndb_uuids account (VDict r) = Err (KeyError l).
Proof.
  intros Hres Hd Hknown_list Hknown Hdata Hvars Hbefore -> Hl Hhash Habsent.
  apply path2_inv in Hres as (da & ds & -> & Hspec & Hr).
  destruct (record_uuids known [] Hknown) as (m & Hm & Hget).
  destruct (stamp_known known m before Hknown Hget Hbefore) as (ys & Hys & _).
  unfold ndb_uuids. cbn [py_getitem]. rewrite Hspec. cbn [bind py_getitem].
  rewrite Hr. cbn [bind py_getitem]. rewrite Hd. cbn [bind py_getitem].
  rewrite Hknown_list. cbn [bind py_iter].
  change (for_each _ known []) with (for_each record_uuid known []).
  rewrite Hm. cbn [bind]. rewrite Hdata. cbn [bind py_getitem]. rewrite Hvars.
  cbn [bind for_each_item].
  rewrite (mapR_stops _ before (VDict dv) after ys (KeyError l) Hys); [reflexivity|].
  cbn [py_getitem]. rewrite Hl. cbn [bind]. unfold vmap_getitem.
  rewrite Hhash, Hget. change (vmap_get [] l) with (@None value).
  rewrite (uuid_for_absent l known Habsent). reflexivity.
Qed.

Lemma ndb_unknown_label_aborts_witness :
  ndb_uuids (server_account "db" "acc-1")
    (VDict [("data",
             VDict [("variable_list",
                     VList [VDict [("label", VStr "port")];
                            VDict [("label", VStr "schema")]])])])
  = Err (KeyError (VStr "schema")).
Proof.
  pose (known := [VDict [("label", VStr "host"); ("uuid", VStr "v-host")];
                  VDict [("label", VStr "port"); ("uuid", VStr "v-port")]]).
  exact (ndb_unknown_label_aborts (server_account "db" "acc-1")
           [("data", VDict [("variable_list", VList known)])]
           [("variable_list", VList known)]
           [("data", VDict [("variable_list",
                             VList [VDict [("label", VStr "port")];
                                    VDict [("label", VStr "schema")]])])]
           [("variable_list", VList [VDict [("label", VStr "port")];
                                     VDict [("label", VStr "schema")]])]
           [VDict [("label", VStr "port")]] (VDict [("label", VStr "schema")])
           [("label", VStr "schema")] (VStr "schema") [] known
           eq_refl eq_refl eq_refl eq_refl eq_refl eq_refl eq_refl eq_refl eq_refl
           eq_refl eq_refl).
Defined.

End AccountCommandsExtra.

Module AccountCliExtra.
Import AccountCli.

Lemma under_path_extend path rest m :
  under_path (path ++ rest) m -> under_path path m.
Proof.
  intros (r & H). exists (rest ++ r)%string.
  rewrite H. do 2 f_equal.
  clear. induction path as [|c path IH]; cbn; [reflexivity | now rewrite IH].
Qed.

Lemma extend_path_prefix path d : exists rest, extend_path path d = (path ++ rest)%string.
Proof.
  unfold extend_path.
  assert (Hnil : exists rest, path = (path ++ rest)%string).
  { exists "". clear. induction path as [|c path IH]; cbn; [reflexivity | now rewrite <- IH]. }
  destruct (dict_get_default d "name" (VStr "")) as [| | |name| |]; try exact Hnil.
  destruct (negb (String.eqb name "")); [|exact Hnil]. eauto.
Qed.

Lemma collect_appends path sub_obj acc out :
  collect path sub_obj acc = Ok out ->
  exists new, out = acc ++ new /\ Forall (under_path path) new.
Proof.
  unfold collect. destruct (py_iter sub_obj) as [messages|]; [|discriminate].
  cbn [bind]. revert acc. induction messages as [|m messages IH]; intros acc H.
  - injection H as <-. exists []. split; [now rewrite app_nil_r | constructor].
  - cbn [for_each] in H.
    destruct (py_setitem m "path" (VStr path)) as [m'|] eqn:Hm; [|discriminate].
    cbn [bind] in H. apply IH in H as (new & -> & Hnew).
    exists (m' :: new). split; [now rewrite <- app_assoc|].
    constructor; [|exact Hnew].
    destruct m as [| | | | |d]; try discriminate. injection Hm as <-.
    exists "". cbn [py_getitem]. rewrite DictFacts.dict_get_set_eq.
    do 3 f_equal. clear. induction path as [|c path IH]; cbn; [reflexivity | now rewrite <- IH].
Qed.

(** X19: [_get_nested_messages] only appends to the list it is given, and
    every message it appends carries a "path" that starts with the path the
    call was given. *)
Theorem nested_messages_appended obj : forall path acc out,
  _get_nested_messages path obj acc = Ok out ->
  exists new, out = acc ++ new /\ Forall (under_path path) new.
Proof.
  induction obj as [| b | z | s | l IHl | d IHd] using value_nested_ind;
    intros path acc out H;
    try (injection H as <-; exists []; split; [now rewrite app_nil_r | constructor]).
  - cbn [_get_nested_messages] in H. revert acc H.
    induction IHl as [|x l Hx _ IH]; intros acc H.
    + injection H as <-. exists []. split; [now rewrite app_nil_r | constructor].
    + destruct (_get_nested_messages path x acc) as [acc1|] eqn:H1; [|discriminate].
      cbn [bind] in H. apply Hx in H1 as (new1 & -> & Hnew1).
      apply IH in H as (new2 & -> & Hnew2).
      exists (new1 ++ new2). split; [now rewrite app_assoc|].
      apply Forall_app. now split.
  - cbn [_get_nested_messages] in H.
    destruct (extend_path_prefix path d) as (rest & Hrest).
    set (path' := extend_path path d) in *. clearbody path'.
    generalize dependent acc.
    induction IHd as [|[k x] items Hx _ IH]; intros acc H.
    + injection H as <-. exists []. split; [now rewrite app_nil_r | constructor].
    + cbn [snd] in Hx.
      destruct (if String.eqb k "message_list"
                then collect path' x acc
                else _get_nested_messages path' x acc) as [acc1|] eqn:H1;
        [|discriminate].
      cbn [bind] in H.
      assert (Hstep : exists new1, acc1 = acc ++ new1 /\ Forall (under_path path') new1).
      { destruct (String.eqb k "message_list").
        - exact (collect_appends _ _ _ _ H1).
        - exact (Hx _ _ _ H1). }
      destruct Hstep as (new1 & -> & Hnew1).
      apply IH in H as (new2 & -> & Hnew2).
      exists (new1 ++ new2). split; [now rewrite app_assoc|].
      apply Forall_app. split; [|exact Hnew2].
      rewrite Hrest in Hnew1. eapply Forall_impl; [|exact Hnew1].
      intros m. apply under_path_extend.
Qed.

Lemma nested_messages_appended_witness :
  exists new,
    [VDict [("message", VStr "bad credentials"); ("path", VStr "vault")];
     VDict [("message", VStr "unreachable"); ("path", VStr "vault.host")]]
    = [] ++ new
    /\ Forall (under_path "") new.
Proof.
  apply (nested_messages_appended draft_status "" []). reflexivity.
Defined.

(** X20: a tree without any "message_list" key yields no message: the
    call returns the list it was given, and cannot fail. *)
Theorem no_message_list_no_messages obj : forall path acc,
  has_messages obj = false ->
  _get_nested_messages path obj acc = Ok acc.
Proof.
  induction obj as [| b | z | s | l IHl | d IHd] using value_nested_ind;
    intros path acc H; try reflexivity.
  - cbn [_get_nested_messages]. cbn [has_messages] in H.
    induction IHl as [|x l Hx _ IH]; [reflexivity|].
    cbn [existsb] in H. apply orb_false_elim in H as [H1 H2].
    rewrite (Hx path acc H1). cbn [bind]. now apply IH.
  - cbn [_get_nested_messages]. cbn [has_messages] in H.
    generalize (extend_path path d). intros path'.
    induction IHd as [|[k x] items Hx _ IH]; [reflexivity|].
    cbn [existsb fst snd] in H. apply orb_false_elim in H as [H1 H2].
    apply orb_false_elim in H1 as [Hk Hm]. rewrite Hk.
    cbn [snd] in Hx. rewrite (Hx path' acc Hm). cbn [bind]. now apply IH.
Qed.

Lemma no_message_list_no_messages_witness :
  _get_nested_messages "" (VDict [("resources", VDict [("state", VStr "ACTIVE")])]) []
  = Ok [].
Proof.
  apply (no_message_list_no_messages
           (VDict [("resources", VDict [("state", VStr "ACTIVE")])])).
  reflexivity.
Defined.

Lemma collect_dicts path ms : forall acc,
  forallb (fun m => match m with VDict _ => true | _ => false end) ms = true ->
  collect path (VList ms) acc = Ok (acc ++ map (with_path path) ms).
Proof.
  unfold collect. cbn [py_iter bind].
  induction ms as [|m ms IH]; intros acc H.
  - cbn. now rewrite app_nil_r.
  - cbn [forallb] in H. apply andb_prop in H as [Hm Hms].
    destruct m as [| | | | |d]; try discriminate.
    cbn [for_each py_setitem bind map with_path].
    rewrite (IH _ Hms), <- app_assoc. reflexivity.
Qed.

(** X21: when every "message_list" of the tree is a list of dicts, the
    call returns the list it was given followed by the messages of the
    tree's message lists, each exactly once and in the order of the walk,
    with "path" set to the path of the dict that holds its list and every
    other field as it was; so as many messages are appended as the lists
    hold: none is lost, none is taken twice. *)
Theorem every_message_collected obj : forall path acc,
  wf_messages obj = true ->
  _get_nested_messages path obj acc = Ok (acc ++ messages_of path obj)
  /\ length (messages_of path obj) = count_messages obj.
Proof.
  induction obj as [| b | z | s | l IHl | d IHd] using value_nested_ind;
    intros path acc H;
    try (split; [cbn; now rewrite app_nil_r | reflexivity]).
  - cbn [_get_nested_messages count_messages messages_of]. cbn [wf_messages] in H.
    revert acc. induction IHl as [|x l Hx _ IH]; intros acc.
    + split; [cbn; now rewrite app_nil_r | reflexivity].
    + cbn [forallb] in H. apply andb_prop in H as [H1 H2].
      destruct (Hx path acc H1) as [-> Hlen1]. cbn [bind].
      destruct (IH H2 (acc ++ messages_of path x)) as [-> Hlen2].
      cbn [flat_map]. split; [now rewrite app_assoc|].
      unfold list_sum in *. cbn [map fold_right].
      rewrite length_app. lia.
  - cbn [_get_nested_messages count_messages messages_of]. cbn [wf_messages] in H.
    generalize (extend_path path d). intros path'.
    revert acc. induction IHd as [|[k x] items Hx _ IH]; intros acc.
    + split; [cbn; now rewrite app_nil_r | reflexivity].
    + cbn [forallb fst snd] in H. apply andb_prop in H as [H1 H2].
      cbn [snd] in Hx. unfold list_sum in *. cbn [map flat_map fold_right fst snd].
      set (new1 := if String.eqb k "message_list"
                   then match x with VList ms => map (with_path path') ms | _ => [] end
                   else messages_of path' x).
      assert (Hstep :
        (if String.eqb k "message_list"
         then collect path' x acc
         else _get_nested_messages path' x acc) = Ok (acc ++ new1)
        /\ length new1 = (if String.eqb k "message_list"
                          then match x with VList ms => length ms | _ => 0 end
                          else count_messages x)).
      { subst new1. destruct (String.eqb k "message_list").
        - destruct x as [| | | |ms|]; try discriminate.
          split; [now apply collect_dicts | apply length_map].
        - now apply Hx. }
      destruct Hstep as [-> Hlen1]. cbn [bind].
      destruct (IH H2 (acc ++ new1)) as [-> Hlen2].
      split; [now rewrite app_assoc|].
      rewrite length_app. lia.
Qed.

Lemma every_message_collected_witness :
  _get_nested_messages "" draft_status []
  = Ok ([] ++ [VDict [("message", VStr "bad credentials"); ("path", VStr "vault")];
               VDict [("message", VStr "unreachable"); ("path", VStr "vault.host")]])
  /\ length (messages_of "" draft_status) = count_messages draft_status.
Proof. apply (every_message_collected draft_status "" []). reflexivity. Defined.

End AccountCliExtra.

Module AccountsExtra.
Import Accounts BundleViews DictFacts AccountsFacts.

Lemma entry_identifiers_stamped uuid4 f l : forall n,
  (forall u x, In x l -> uuid_of (f u x) = Ok (VStr u)) ->
  entry_identifiers (stamp_from uuid4 f n l)
  = map (fun i => VStr (uuid4 i)) (seq n (length l)).
Proof.
  unfold entry_identifiers. induction l as [|x l IH]; intros n Hf; [reflexivity|].
  cbn [stamp_from flat_map length seq map].
  rewrite (Hf (uuid4 n) x (or_introl eq_refl)). cbn [app]. f_equal.
  apply IH. intros u y Hy. apply Hf. now right.
Qed.

Lemma NoDup_map_injective {A B} (g : A -> B) l :
  (forall x y, g x = g y -> x = y) -> NoDup l -> NoDup (map g l).
Proof.
  intros Hg. induction 1 as [|x l Hx _ IH]; cbn; constructor; [|exact IH].
  rewrite in_map_iff. intros (y & Hy & Hin). apply Hg in Hy. now subst.
Qed.

Ltac disjoint_indices :=
  intros ? ? ?;
  repeat (rewrite in_app_iff in * || rewrite in_seq in *);
  cbn [In] in *; lia.

Lemma indices_distinct n a n' v c r :
  S (S n + a) <= n' ->
  NoDup ([n] ++ seq (S n) a ++ [S n + a]
         ++ seq n' v ++ seq (n' + v) c ++ [n' + v + c] ++ seq (S (n' + v + c)) r).
Proof.
  intros Hle.
  repeat (apply NoDup_app;
          [ first [apply seq_NoDup | repeat constructor; cbn; tauto]
          | | disjoint_indices ]).
  apply seq_NoDup.
Qed.

Section Distinct.

Variable uuid4 : nat -> string.
Variable insert_uuid : value -> M value.

(** X22: in the bundle of a credential-provider account, the identifiers
    of the three payloads and of all entries of the four lists are pairwise
    distinct, given a supply that never repeats and an action stamper that
    does not rewind it. *)
Theorem bundle_identifiers_distinct ua dcl n actions n' :
  (forall i j, uuid4 i = uuid4 j -> i = j) ->
  declared ua = Some dcl ->
  insert_uuid (action_list dcl) (S (S n + length (auth_schema dcl)))
    = Ok (actions, n') ->
  S (S n + length (auth_schema dcl)) <= n' ->
  returns (identifiers_distinct dcl)
    (create_credential_provider_account_payload uuid4 insert_uuid ua n).
Proof.
  intros Hinj Hd Hins Hle.
  rewrite (create_credential_provider_account_payload_ok
             uuid4 insert_uuid ua dcl n actions n' Hd Hins).
  apply declared_inv in Hd
    as (data & rc & res & _ & _ & _ & Hla & Hlv & Hlc & _ & Hlr).
  apply variables_at_inv in Hla as [_ Hla]. apply variables_at_inv in Hlv as [_ Hlv].
  apply variables_at_inv in Hlc as [_ Hlc]. apply variables_at_inv in Hlr as [_ Hlr].
  eexists _, _. split; [reflexivity|].
  set (g := fun i => VStr (uuid4 i)).
  assert (Hall :
    all_identifiers
      (VDict
         [("provider", provider_payload_of uuid4 ua dcl n);
          ("resource_type",
           resource_type_payload_of uuid4 ua dcl (VStr (uuid4 n))
             (S n + length (auth_schema dcl)) actions n');
          ("account",
           account_payload_of uuid4 ua dcl
             (VDict [("kind", VStr "provider"); ("uuid", VStr (uuid4 n))])
             (n' + length (variables dcl) + length (cred_attrs dcl)))])
    = map g ([n] ++ seq (S n) (length (auth_schema dcl))
             ++ [S n + length (auth_schema dcl)]
             ++ seq n' (length (variables dcl))
             ++ seq (n' + length (variables dcl)) (length (cred_attrs dcl))
             ++ [n' + length (variables dcl) + length (cred_attrs dcl)]
             ++ seq (S (n' + length (variables dcl) + length (cred_attrs dcl)))
                  (length (account_variables dcl)))).
  { unfold all_identifiers, metadata_identifier, list_identifiers.
    cbn [path provider_payload_of resource_type_payload_of account_payload_of
         auth_schema_path variable_list_path schema_list_path
         account_variables_path dict_get String.eqb Ascii.eqb Bool.eqb].
    rewrite !map_app.
    rewrite (entry_identifiers_stamped uuid4 stamped_auth_schema)
      by (intros u x Hx; apply uuid_of_stamped_auth_schema;
          exact (forallb_In _ _ _ Hla Hx)).
    rewrite !stamp_from_map.
    rewrite (entry_identifiers_stamped uuid4 (fun u x => with_uuid u (marked x))
               (variables dcl))
      by (intros u x Hx; apply uuid_of_with_uuid; exact (forallb_In _ _ _ Hlv Hx)).
    rewrite (entry_identifiers_stamped uuid4 (fun u x => with_uuid u (marked x))
               (cred_attrs dcl))
      by (intros u x Hx; apply uuid_of_with_uuid; exact (forallb_In _ _ _ Hlc Hx)).
    rewrite (entry_identifiers_stamped uuid4 stamped_variable)
      by (intros u x Hx; apply uuid_of_stamped_variable;
          exact (forallb_In _ _ _ Hlr Hx)).
    reflexivity. }
  unfold identifiers_distinct. rewrite Hall. split.
  - apply NoDup_map_injective.
    + intros i j Hij. unfold g in Hij. injection Hij as Hij. now apply Hinj.
    + now apply indices_distinct.
  - rewrite length_map, !length_app, !length_seq. cbn [length]. lia.
Qed.

End Distinct.

Lemma bundle_identifiers_distinct_witness :
  exists dcl,
    declared sample_account = Some dcl
    /\ returns (identifiers_distinct dcl)
         (create_credential_provider_account_payload demo_uuid4
            (spec_insert_uuid demo_uuid4) sample_account 0).
Proof.
  eexists. split; [reflexivity|].
  eapply (bundle_identifiers_distinct demo_uuid4 (spec_insert_uuid demo_uuid4)
            sample_account _ 0 _ 5);
    [exact demo_uuid4_inj | reflexivity | reflexivity | cbn; lia].
Defined.

End AccountsExtra.

Module SubmissionExtra.
Import Accounts AccountCommands CommandViews CommandSamples DictFacts AccountsFacts
       AccountCommandsExtra.
Open Scope cmd_scope.

Section Submission.

Variable c : client.
Variable create_provider : value -> option string -> outcome unit.
Variable create_resource_type : value -> option string -> outcome unit.
Variable uuid4 : nat -> string.
Variable insert_uuid : value -> M value.

(** X23: a plain account payload is submitted alone: [create_account]
    calls neither the provider nor the resource-type collaborator and
    creates the account under [name] if one is given, under the class name
    otherwise, with that name in both [spec] and [metadata] and the
    resources and identifier of the compiled payload. *)
Theorem plain_account_submitted ua n name force_create :
  exists payload,
    create_account_payload uuid4 ua n = Ok (payload, S n)
    /\ create_account c create_provider create_resource_type payload name force_create
       = Returned
           (account_create c (submitted_name name (__name__ ua))
              (VDict [("spec", VDict [("name", submitted_name name (__name__ ua));
                                      ("resources", VDict (get_dict ua))]);
                      ("metadata", VDict [("kind", VStr "account");
                                          ("name", submitted_name name (__name__ ua));
                                          ("uuid", VStr (uuid4 n))])])
              force_create).
Proof.
  eexists. split; [apply create_account_payload_envelope|].
  unfold create_account, submitted_name.
  destruct (name_truthy name); reflexivity.
Qed.

(** The bundle of a well-formed declaration, with the positions of its
    identifiers. *)
Lemma bundle_parts ua dcl n actions n' :
  declared ua = Some dcl ->
  insert_uuid (action_list dcl) (S (S n + length (auth_schema dcl)))
    = Ok (actions, n') ->
  exists final,
    create_credential_provider_account_payload uuid4 insert_uuid ua n
    = Ok (VDict
            [("provider", provider_payload_of uuid4 ua dcl n);
             ("resource_type",
              resource_type_payload_of uuid4 ua dcl (VStr (uuid4 n))
                (S n + length (auth_schema dcl)) actions n');
             ("account",
              renamed_account uuid4 dcl (VStr (uuid4 n))
                (VStr (effective_name ua))
                (n' + length (variables dcl) + length (cred_attrs dcl)))],
          final).
Proof.
  intros Hd Hins. eexists.
  rewrite (create_credential_provider_account_payload_ok
             uuid4 insert_uuid ua dcl n actions n' Hd Hins).
  reflexivity.
Qed.

(** X24: a bundle is created in the order of its dependencies: the provider
    payload goes to [create_provider], then the resource-type payload to
    [create_resource_type], and only if both return is the account payload
    created, under [name] if one is given; an exception of either
    collaborator ends the call. *)
Theorem bundle_created_in_order ua dcl n actions n' name force_create :
  declared ua = Some dcl ->
  insert_uuid (action_list dcl) (S (S n + length (auth_schema dcl)))
    = Ok (actions, n') ->
  exists bundle final provider resource_type,
    create_credential_provider_account_payload uuid4 insert_uuid ua n
    = Ok (bundle, final)
    /\ path bundle ["provider"] = Some provider
    /\ path bundle ["resource_type"] = Some resource_type
    /\ create_account c create_provider create_resource_type bundle name force_create
       = (_ <- create_provider provider name ;;
          _ <- create_resource_type resource_type name ;;
          Returned
            (account_create c (submitted_name name (effective_name ua))
               (renamed_account uuid4 dcl (VStr (uuid4 n))
                  (submitted_name name (effective_name ua))
                  (n' + length (variables dcl) + length (cred_attrs dcl)))
               force_create)).
Proof.
  intros Hd Hins. destruct (bundle_parts ua dcl n actions n' Hd Hins) as (final & H).
  eexists _, final, _, _. split; [exact H|].
  split; [reflexivity|]. split; [reflexivity|].
  unfold create_account, submitted_name.
  cbn [account_type_of py_get dict_get_default dict_get bind run bindO
       renamed_account String.eqb Ascii.eqb Bool.eqb py_eq_str py_getitem
       py_truthy provider_payload_of resource_type_payload_of].
  destruct (create_provider _ name) as [[]|e]; [|reflexivity]. cbn [bindO].
  destruct (create_resource_type _ name) as [[]|e]; [|reflexivity]. cbn [bindO].
  destruct (name_truthy name); reflexivity.
Qed.

End Submission.

Lemma bundle_created_in_order_witness :
  exists bundle final provider resource_type,
    create_credential_provider_account_payload demo_uuid4
      (spec_insert_uuid demo_uuid4) sample_account 0 = Ok (bundle, final)
    /\ path bundle ["provider"] = Some provider
    /\ path bundle ["resource_type"] = Some resource_type
    /\ create_account one_account
         (fun _ _ => Raised (Exception "provider exists" [])) done1
         bundle None false
       = Raised (Exception "provider exists" []).
Proof.
  eapply (bundle_created_in_order one_account
            (fun _ _ => Raised (Exception "provider exists" [])) done1
            demo_uuid4 (spec_insert_uuid demo_uuid4) sample_account _ 0 _ 5 None false);
    reflexivity.
Defined.


Section Printing.

Variable json_dumps : value -> string.
Variable yaml_dump : value -> string.
Variable uuid4 : nat -> string.
Variable insert_uuid : value -> M value.

Lemma compile_account_credential ua n :
  type ua = "credential_provider" ->
  compile_account uuid4 insert_uuid ua n
  = create_credential_provider_account_payload uuid4 insert_uuid ua (S n).
Proof.
  intros Hty. unfold compile_account.
  rewrite (bindM_ok _ _ _ _ _ (create_account_payload_envelope uuid4 ua n)).
  now rewrite Hty.
Qed.

(** X25: compiling an account of type "credential_provider" yields the
    bundle, built after the plain payload's identifier was drawn and
    dropped; the compile command prints the bundle's account payload only,
    in the format asked for, and for any other format logs an error and
    prints nothing. *)
Theorem credential_account_printed ua dcl n actions n' account_file :
  type ua = "credential_provider" ->
  declared ua = Some dcl ->
  insert_uuid (action_list dcl) (S (S (S n) + length (auth_schema dcl)))
    = Ok (actions, n') ->
  exists bundle final account,
    compile_account uuid4 insert_uuid ua n = Ok (bundle, final)
    /\ path bundle ["account"] = Some account
    /\ compile_account_command json_dumps yaml_dump (Some bundle) account_file "json"
       = Returned [Echo (json_dumps account)]
    /\ compile_account_command json_dumps yaml_dump (Some bundle) account_file "yaml"
       = Returned [Echo (yaml_dump account)]
    /\ forall out,
         out <> "json" -> out <> "yaml" ->
         compile_account_command json_dumps yaml_dump (Some bundle) account_file out
         = Returned [LogError "Unknown output format {} given" [VStr out]].
Proof.
  intros Hty Hd Hins. rewrite (compile_account_credential ua n Hty).
  destruct (bundle_parts uuid4 insert_uuid ua dcl (S n) actions n' Hd Hins)
    as (final & H).
  eexists _, final, _. split; [exact H|]. split; [reflexivity|].
  split; [reflexivity|]. split; [reflexivity|].
  intros out Hj Hy. apply String.eqb_neq in Hj, Hy.
  unfold compile_account_command.
  cbn [account_type_of py_get dict_get_default dict_get bind run bindO
       renamed_account String.eqb Ascii.eqb Bool.eqb py_eq_str].
  now rewrite Hj, Hy.
Qed.

End Printing.

Lemma credential_account_printed_witness :
  exists bundle final account,
    compile_account demo_uuid4 (spec_insert_uuid demo_uuid4) sample_account 0
    = Ok (bundle, final)
    /\ path bundle ["account"] = Some account
    /\ compile_account_command show show (Some bundle) "account.py" "json"
       = Returned [Echo (show account)]
    /\ compile_account_command show show (Some bundle) "account.py" "yaml"
       = Returned [Echo (show account)]
    /\ forall out,
         out <> "json" -> out <> "yaml" ->
         compile_account_command show show (Some bundle) "account.py" out
         = Returned [LogError "Unknown output format {} given" [VStr out]].
Proof.
  eapply (credential_account_printed show show demo_uuid4
            (spec_insert_uuid demo_uuid4) sample_account _ 0 _ 6 "account.py");
    reflexivity.
Defined.

Section Updating.

Variable c : client.
Variable update_provider : value -> option string -> option string -> outcome unit.
Variable update_resource_types :
  value -> value -> option string -> option string -> outcome unit.
Variable get_provider : value -> outcome value.
Variable uuid4 : nat -> string.
Variable insert_uuid : value -> M value.

(** X26: updating a credential-provider account from its definition sends
    the compiled account resources with the provider reference pointing at
    the provider the server holds under the new name, not at the identifier
    generated while compiling; the update is addressed to the server's
    account, with the server's [spec_version] and no identifier in its
    metadata, after the provider and the resource types were updated. *)
Theorem update_points_at_server_provider
    ua dcl n actions n' account_file name updated_name account uuid sv provider pu :
  declared ua = Some dcl ->
  insert_uuid (action_list dcl) (S (S n + length (auth_schema dcl)))
    = Ok (actions, n') ->
  get_account c name = Returned account ->
  path account ["metadata"; "uuid"] = Some uuid ->
  path account ["metadata"; "spec_version"] = Some sv ->
  (forall p, update_provider p name updated_name = Returned tt) ->
  (forall r, update_resource_types r uuid name updated_name = Returned tt) ->
  get_provider (name_or updated_name name) = Returned provider ->
  path provider ["metadata"; "uuid"] = Some pu ->
  exists bundle final,
    create_credential_provider_account_payload uuid4 insert_uuid ua n
    = Ok (bundle, final)
    /\ update_account_from_dsl c update_provider update_resource_types get_provider
         (Some bundle) account_file name updated_name
       = Returned
           (account_update c uuid
              (VDict
                 [("spec",
                   VDict [("name", name_or updated_name name);
                          ("resources",
                           VDict [("type", VStr "custom_provider");
                                  ("data",
                                   VDict [("provider_reference",
                                           VDict [("kind", VStr "provider");
                                                  ("uuid", pu)]);
                                          ("variable_list",
                                           VList (stamp_from uuid4 stamped_variable
                                                    (S (n' + length (variables dcl)
                                                        + length (cred_attrs dcl)))
                                                    (account_variables dcl)))])])]);
                  ("metadata", VDict [("spec_version", sv);
                                      ("name", name_or updated_name name);
                                      ("kind", VStr "account")]);
                  ("api_version", VStr "3.0")])).
Proof.
  intros Hd Hins Hacc Huuid Hsv Hup Hurt Hprov Hpu.
  destruct (bundle_parts uuid4 insert_uuid ua dcl n actions n' Hd Hins)
    as (final & H).
  eexists _, final. split; [exact H|].
  pose proof Huuid as Huuid'. apply path2_inv in Huuid' as (da & dm & -> & Hdm & Hu).
  apply path2_inv in Hpu as (dp & dpm & -> & Hdpm & Hpu).
  unfold update_account_from_dsl.
  cbn [account_type_of py_get dict_get_default dict_get bind run bindO
       renamed_account String.eqb Ascii.eqb Bool.eqb py_eq_str].
  rewrite Hacc. cbn [bindO run py_getitem]. rewrite Hdm. cbn [bindO run py_getitem].
  rewrite Hu. cbn [bindO run py_getitem dict_get String.eqb Ascii.eqb Bool.eqb].
  rewrite Hup. cbn [bindO]. rewrite Hurt. cbn [bindO run]. rewrite Hprov.
  cbn [bindO run py_getitem]. rewrite Hdpm. cbn [bindO run py_getitem]. rewrite Hpu.
  cbn [bindO run py_setitem_path py_getitem py_setitem dict_get dict_set bind
       String.eqb Ascii.eqb Bool.eqb].
  eapply update_sends_server_identity; try eassumption; reflexivity.
Qed.

End Updating.

Lemma update_points_at_server_provider_witness :
  exists bundle final,
    create_credential_provider_account_payload demo_uuid4
      (spec_insert_uuid demo_uuid4) sample_account 0 = Ok (bundle, final)
    /\ exists resources,
         update_account_from_dsl one_account done2 done3 server_provider
           (Some bundle) "account.py" (Some "vault") None
         = Returned
             (Reply
                (VDict
                   [("uuid", VStr "acc-1");
                    ("payload",
                     VDict [("spec", VDict [("name", VStr "vault");
                                            ("resources", resources)]);
                            ("metadata", VDict [("spec_version", VInt 7);
                                                ("name", VStr "vault");
                                                ("kind", VStr "account")]);
                            ("api_version", VStr "3.0")])]))
         /\ path resources ["data"; "provider_reference"; "uuid"]
            = Some (VStr "prov-1").
Proof.
  destruct (update_points_at_server_provider one_account done2 done3 server_provider
              demo_uuid4 (spec_insert_uuid demo_uuid4) sample_account
              {| auth_schema := auth_schema_list_of sample_data;
                 variables := variables_of sample_data;
                 cred_attrs := cred_attrs_of sample_data;
                 action_list := VList [VDict [("name", VStr "fetch")]];
                 account_variables := auth_schema_list_of sample_data |}
              0 (VList [VDict [("name", VStr "fetch"); ("uuid", VStr "uuid-4")]]) 5
              "account.py" (Some "vault") None
              (server_account "vault" "acc-1") (VStr "acc-1") (VInt 7)
              (VDict [("metadata", VDict [("uuid", VStr "prov-1")])]) (VStr "prov-1"))
    as (bundle & final & Hb & Hu); try reflexivity.
  exists bundle, final. split; [exact Hb|].
  eexists. split; [exact Hu | reflexivity].
Defined.

End SubmissionExtra.

Module AccountListingExtra.
Import AccountListing.

Lemma append_assoc (a b x : string) : ((a ++ b) ++ x = a ++ (b ++ x))%string.
Proof. induction a as [|ch a IH]; cbn; [reflexivity | now rewrite IH]. Qed.

Lemma strip_keeps_suffix q suffix :
  suffix <> ""%string ->
  (forall rest, suffix <> String ";" rest) ->
  exists pre, strip_semicolon (q ++ ";" ++ suffix) = (pre ++ suffix)%string.
Proof.
  intros Hne Hsemi. destruct q as [|ch q].
  - exists ""%string. reflexivity.
  - cbn [String.append strip_semicolon].
    destruct (Ascii.ascii_dec ch ";") as [->|Hch].
    + exists (q ++ ";")%string. now rewrite append_assoc.
    + exists (String ch q ++ ";")%string.
      rewrite append_assoc.
      destruct ch as [[] [] [] [] [] [] [] []]; try reflexivity.
      now contradiction Hch.
Qed.

(** X27: from Calm 2.9.0 on, the request of [get_accounts] always carries
    a filter, and the filter ends with "type!=nutanix", whatever name, filter,
    account types and states were asked for: Prism Element accounts are
    never listed. *)
Theorem prism_element_accounts_excluded l :
  at_least_2_9_0 l = true ->
  exists pre,
    dict_get (params l) "filter" = Some (VStr (pre ++ "type!=nutanix")).
Proof.
  intros Hv.
  assert (Hq : exists pre, filter_query l = (pre ++ "type!=nutanix")%string).
  { unfold filter_query. rewrite Hv.
    apply (strip_keeps_suffix _ "type!=nutanix"); [discriminate|].
    intros rest. discriminate. }
  destruct Hq as (pre & Hq). exists pre. unfold params.
  assert (Hne : String.eqb (filter_query l) "" = false).
  { rewrite Hq. apply String.eqb_neq. destruct pre; discriminate. }
  rewrite Hne. cbn [negb]. rewrite DictFacts.dict_get_set_eq. now rewrite Hq.
Qed.

Lemma prism_element_accounts_excluded_witness :
  exists pre,
    dict_get (params by_type) "filter" = Some (VStr (pre ++ "type!=nutanix")).
Proof. apply (prism_element_accounts_excluded by_type). reflexivity. Defined.

End AccountListingExtra.

Module ConfigExtra.
Import Config.

(** X28: a configuration file named once stays in effect: the call with a
    file builds the handle from that file and stores it, and every later
    call without a file (or with an empty name) returns that handle without
    reading anything, whatever the files have become. *)
Theorem named_config_stays_in_effect fs f cached h :
  f <> "" ->
  new_handle fs (Some f) = Returned h ->
  get_config_handle fs (Some f) cached = (Returned h, Some h)
  /\ forall fs',
       get_config_handle fs' None (Some h) = (Returned h, Some h)
       /\ get_config_handle fs' (Some "") (Some h) = (Returned h, Some h).
Proof.
  intros Hf Hnew. apply String.eqb_neq in Hf. split.
  - unfold get_config_handle, given. rewrite Hf, Hnew. now destruct cached.
  - intros fs'. split; reflexivity.
Qed.

Lemma named_config_stays_in_effect_witness :
  exists h,
    get_config_handle one_config (Some "project.ini") None = (Returned h, Some h)
    /\ get_config_handle no_init None (Some h) = (Returned h, Some h)
    /\ server_config h
       = VDict [("pc_ip", VStr "10.0.0.1"); ("pc_port", VStr "9440")]
    /\ project_config h = VDict [].
Proof.
  eexists.
  destruct (named_config_stays_in_effect one_config "project.ini" None _
              ltac:(discriminate) eq_refl) as [H1 H2].
  split; [exact H1|]. split; [apply (H2 no_init)|]. split; reflexivity.
Defined.

(** X29: without a cached handle and without a file name, a missing init
    file makes [get_config_handle] raise [FileNotFoundError] naming the init
    file, and no handle is stored; an init file the validator rejects makes
    it raise [ValueError], again storing nothing. *)
Theorem unusable_init_file_stores_nothing fs :
  (file_exists fs (init_file fs) = false ->
   get_config_handle fs None None
   = (Raised (FileNotFoundError "'{}' not found. Please run: calm init dsl"
                (init_file fs)), None))
  /\ (file_exists fs (init_file fs) = true ->
      validate_init_config fs (read fs (init_file fs)) = false ->
      get_config_handle fs None None
      = (Raised (ValueError "Invalid init config file: {}. Please run: calm init dsl"
                   (init_file fs)), None)).
Proof.
  split.
  - intros He. unfold get_config_handle, new_handle, init_location, get_init_data.
    now rewrite He.
  - intros He Hv.
    unfold get_config_handle, new_handle, init_location, get_init_data.
    now rewrite He, Hv.
Qed.

Lemma unusable_init_file_stores_nothing_witness :
  get_config_handle no_init None None
  = (Raised (FileNotFoundError "'{}' not found. Please run: calm init dsl"
               "~/.calm/init.ini"), None).
Proof. apply (unusable_init_file_stores_nothing no_init). reflexivity. Defined.

End ConfigExtra.
